(** * Download pipeline of the Plaso course downloader (src/main_gui.py)

    A shallow embedding of the non-GUI core of [main_gui.py]:
    the remote catalog client ([PlasoAPIClient]), the settings and
    history stores ([ConfigManager]), the media fetcher
    ([DownloadManager.download_video]), [safe_filename] and the batch
    worker ([BersoDownloaderApp.start_batch_download.download_worker]),
    followed by the properties the specification states about them.

    Conventions.
    - A Python [str] is a sequence of Unicode code points: [list N].
    - Values that travel through JSON (response bodies, settings,
      chapter records, history entries) are [json] values; a Python
      [dict] with string keys is a [gmap str json].
    - A Python [int] is a [Z]; a Python [float] is an IEEE-754 binary64
      value, represented by the Standard Library's [spec_float] at
      precision 53 and maximal exponent 1024.
    - Code that may raise returns a [result]; code that also mutates
      the objects it holds is an [act S], a state-and-exception monad.
      Every exception of the model derives from Python's [Exception]
      (transport errors, decoding errors, [AttributeError], [OSError],
      arithmetic errors); [KeyboardInterrupt] and [SystemExit] are not
      modelled, and neither is a failing [import] or [print]. *)

From Stdlib Require Import ZArith NArith List String Ascii Lia SpecFloat.
From Stdlib Require Import DecimalString.
From stdpp Require Import gmap list.

#[local] Set Warnings "-register-all".
#[local] Open Scope Z_scope.

(** ** Python values *)

Module Py.

Abbreviation str := (list N).

(** An ASCII literal of the sources as a [str]. *)
Definition lit (s : string) : str :=
  map N_of_ascii (list_ascii_of_string s).
#[global] Arguments lit : simpl never.

Inductive json : Type :=
  | JNull
  | JBool (b : bool)
  | JInt (z : Z)
  | JFloat (f : spec_float)
  | JStr (s : str)
  | JArr (l : list json)
  | JObj (m : gmap str json).

(** What the interpreter and the platform contribute and the sources
    do not fix:
    - the Unicode decimal digits beyond ASCII ([\d] of [re] and
      [int()] accept every code point of category Nd; the table
      grows with the Unicode version);
    - the limit on the number of digits [int()] converts
      ([sys.int_max_str_digits]: [Some 4300] by default since
      CPython 3.11, [None] before);
    - [pathlib]: [path_str p] is [str(Path(p))] and [path_join a b]
      is [str(Path(a) / b)], with the separator of the platform;
    - [repr v], which is also [str(v)] and the f-string rendering of
      a value that is not a [str]. *)
Class Interpreter := {
  unicode_decimal : N -> option Z;
  int_max_str_digits : option nat;
  path_str : str -> str;
  path_join : str -> str -> str;
  repr : json -> str
}.

(** [f"{v}"]. *)
Definition format `{Interpreter} (v : json) : str :=
  match v with
  | JStr s => s
  | _ => repr v
  end.

(** Exceptions deriving from [Exception]: the class name and [str(e)]. *)
Record exn := Exn { exn_class : string; exn_text : str }.

Inductive result (A : Type) : Type :=
  | Ret (a : A)
  | Raise (e : exn).
Arguments Ret {A} a.
Arguments Raise {A} e.

#[export] Instance result_ret : MRet result := fun A a => Ret a.
#[export] Instance result_bind : MBind result := fun A B f m =>
  match m with
  | Ret a => f a
  | Raise e => Raise e
  end.

(** [try: body / except Exception as e: handler e]. *)
Definition try_except {A} (body : result A) (handler : exn -> result A)
  : result A :=
  match body with
  | Ret a => Ret a
  | Raise e => handler e
  end.

(** State and exceptions: the state survives a raise, as the
    attributes of a Python object do. *)
Definition act (S A : Type) : Type := S -> S * result A.

#[export] Instance act_ret {S} : MRet (act S) := fun A a s => (s, Ret a).
#[export] Instance act_bind {S} : MBind (act S) := fun A B f m s =>
  match m s with
  | (s', Ret a) => f a s'
  | (s', Raise e) => (s', Raise e)
  end.

Definition lift {S A} (r : result A) : act S A := fun s => (s, r).
Definition modify {S} (f : S -> S) : act S unit := fun s => (f s, Ret tt).
Definition gets {S A} (f : S -> A) : act S A := fun s => (s, Ret (f s)).

Definition try_except_act {S A} (body : act S A) (handler : exn -> act S A)
  : act S A := fun s =>
  match body s with
  | (s', Ret a) => (s', Ret a)
  | (s', Raise e) => handler e s'
  end.

(** [bool(v)]: [None], [False], zero, and the empty string, list and
    dict are false. *)
Definition is_zero (f : spec_float) : bool :=
  match f with
  | S754_zero _ => true
  | _ => false
  end.

Definition truthy (v : json) : bool :=
  match v with
  | JNull => false
  | JBool b => b
  | JInt z => negb (z =? 0)
  | JFloat f => negb (is_zero f)
  | JStr s => match s with [] => false | _ => true end
  | JArr l => match l with [] => false | _ => true end
  | JObj m => match map_to_list m with [] => false | _ => true end
  end.

(** [a or b]. *)
Definition or_else (a b : json) : json := if truthy a then a else b.

(** [v == 0]: numbers compare by value, and [False == 0]. *)
Definition eq_zero (v : json) : bool :=
  match v with
  | JBool b => negb b
  | JInt z => z =? 0
  | JFloat f => is_zero f
  | _ => false
  end.

(** [d.get(k, default)]; only a dict has the method. *)
Definition get (d : json) (k : str) (dflt : json) : result json :=
  match d with
  | JObj m => Ret (default dflt (m !! k))
  | _ => Raise (Exn "AttributeError" (lit "object has no attribute 'get'"))
  end.

(** A call that may never return: [None] stands for a call that has
    not returned within the rounds it was given. *)
Definition pending (S A : Type) : Type := S -> option (S * result A).

(** A call that returns. *)
Definition returned {S A} (m : act S A) : pending S A := fun s => Some (m s).

#[export] Instance pending_ret {S} : MRet (pending S) :=
  fun A a s => Some (s, Ret a).
#[export] Instance pending_bind {S} : MBind (pending S) := fun A B f m s =>
  match m s with
  | Some (s', Ret a) => f a s'
  | Some (s', Raise e) => Some (s', Raise e)
  | None => None
  end.

Definition try_except_pending {S A} (body : pending S A)
    (handler : exn -> pending S A) : pending S A := fun s =>
  match body s with
  | Some (s', Ret a) => Some (s', Ret a)
  | Some (s', Raise e) => handler e s'
  | None => None
  end.

(** [d[k]] with a string for [k]. *)
Definition subscript `{Interpreter} (d : json) (k : str) : result json :=
  match d with
  | JObj m =>
      match m !! k with
      | Some v => Ret v
      | None => Raise (Exn "KeyError" (repr (JStr k)))
      end
  | JArr _ | JStr _ => Raise (Exn "TypeError" (lit "indices must be integers"))
  | _ => Raise (Exn "TypeError" (lit "object is not subscriptable"))
  end.

End Py.

Import Py.

(** ** Strings, [re] and [int()] *)

Module Text.

Fixpoint is_prefix (p s : str) : bool :=
  match p, s with
  | [], _ => true
  | _ :: _, [] => false
  | a :: p', b :: s' => (a =? b)%N && is_prefix p' s'
  end.

(** [needle in hay]. *)
Fixpoint contains (needle hay : str) : bool :=
  is_prefix needle hay ||
  match hay with
  | [] => false
  | _ :: hay' => contains needle hay'
  end.

(** The decimal value of a code point, if it is a decimal digit. *)
Definition decimal `{Interpreter} (c : N) : option Z :=
  if (c <? 128)%N
  then if (48 <=? c)%N && (c <=? 57)%N then Some (Z.of_N c - 48) else None
  else unicode_decimal c.

Definition is_decimal `{Interpreter} (c : N) : bool :=
  match decimal c with
  | Some _ => true
  | None => false
  end.

(** [str.isspace] of one code point, the characters [str.strip()]
    removes: the Unicode White_Space property and the four
    information separators U+001C..U+001F. *)
Definition is_space (c : N) : bool :=
  ((9 <=? c) && (c <=? 13) || (28 <=? c) && (c <=? 32)
   || (c =? 133) || (c =? 160) || (c =? 5760)
   || (8192 <=? c) && (c <=? 8202)
   || (c =? 8232) || (c =? 8233) || (c =? 8239) || (c =? 8287)
   || (c =? 12288))%N.

Fixpoint lstrip (s : str) : str :=
  match s with
  | [] => []
  | c :: s' => if is_space c then lstrip s' else s
  end.

Definition rstrip (s : str) : str := reverse (lstrip (reverse s)).

(** [s.strip()]. *)
Definition strip (s : str) : str := rstrip (lstrip s).

(** The fragment of regular expressions the sources use: literal
    text and the capturing group [(\d+)]. *)
Inductive item :=
  | Lit (s : str)
  | Digits.

(** Length of the longest run of decimal digits at the head of [s]. *)
Fixpoint span_decimal `{Interpreter} (s : str) : nat :=
  match s with
  | [] => O
  | c :: s' => if is_decimal c then S (span_decimal s') else O
  end.

(** The first success of [f n], [f (n-1)], ..., [f 1]: a greedy
    quantifier gives back one character at a time. *)
Fixpoint longest_first {A} (f : nat -> option A) (n : nat) : option A :=
  match n with
  | O => None
  | S n' =>
      match f n with
      | Some r => Some r
      | None => longest_first f n'
      end
  end.

(** Match the pattern at the head of [s]; the result lists the groups. *)
Fixpoint match_here `{Interpreter} (p : list item) (s : str)
  : option (list str) :=
  match p with
  | [] => Some []
  | Lit l :: p' =>
      if is_prefix l s then match_here p' (drop (length l) s) else None
  | Digits :: p' =>
      longest_first
        (fun k => cons (take k s) <$> match_here p' (drop k s))
        (span_decimal s)
  end.

(** [re.search(p, s).groups()]: the leftmost match. *)
Fixpoint search `{Interpreter} (p : list item) (s : str)
  : option (list str) :=
  match match_here p s with
  | Some groups => Some groups
  | None =>
      match s with
      | [] => None
      | _ :: s' => search p s'
      end
  end.

Fixpoint digits_value `{Interpreter} (s : str) (acc : Z) : option Z :=
  match s with
  | [] => Some acc
  | c :: s' =>
      match decimal c with
      | Some d => digits_value s' (acc * 10 + d)
      | None => None
      end
  end.

(** The check of [int()] on the number of digits. CPython looks at
    the configured limit only above 640 digits, the smallest limit
    that can be set. *)
Definition too_many_digits `{Interpreter} (s : str) : bool :=
  (640 <? length s)%nat &&
  match int_max_str_digits with
  | Some limit => (limit <? length s)%nat
  | None => false
  end.

(** [int(s)] for the strings the sources pass, runs of decimal digits
    captured by [(\d+)]. Signs, surrounding blanks and underscores,
    which [int] also accepts, never reach it and are not modelled. *)
Definition int `{Interpreter} (s : str) : result Z :=
  if too_many_digits s
  then Raise (Exn "ValueError"
                (lit "Exceeds the limit for integer string conversion"))
  else
    match s, digits_value s 0 with
    | _ :: _, Some z => Ret z
    | _, _ => Raise (Exn "ValueError"
                       (lit "invalid literal for int() with base 10"))
    end.

(** [str(n)] of a Python [int]. *)
Definition str_of_int (z : Z) : str :=
  lit (NilEmpty.string_of_int (Z.to_int z)).

(** [s.split(sep)] for a separator of one character. *)
Fixpoint split (sep : N) (s : str) : list str :=
  match s with
  | [] => [[]]
  | c :: rest =>
      if (c =? sep)%N then [] :: split sep rest
      else
        match split sep rest with
        | word :: words => (c :: word) :: words
        | [] => [[c]]
        end
  end.

End Text.

(** ** The regular expressions of the login *)

Module Re.

(** A set of characters: one character, [\d], [[a-f0-9]] and the
    complement of one character, which holds the newline too. *)
Inductive class :=
  | Decimal
  | LowerHex
  | Except (c : N).

Definition member `{Interpreter} (k : class) (c : N) : bool :=
  match k with
  | Decimal => Text.is_decimal c
  | LowerHex => ((97 <=? c) && (c <=? 102) || (48 <=? c) && (c <=? 57))%N
  | Except a => negb (c =? a)%N
  end.

(** Literal text, [k{n}] (and [k] itself, for [n = 1]), [k+], the
    capturing group [(k+)] and [$]. *)
Inductive piece :=
  | Lit (s : str)
  | Times (n : nat) (k : class)
  | Many (k : class)
  | Group (k : class)
  | End.

(** Length of the longest run of characters of [k] at the head of [s]. *)
Fixpoint span `{Interpreter} (k : class) (s : str) : nat :=
  match s with
  | [] => O
  | c :: s' => if member k c then S (span k s') else O
  end.

(** [re.match(p, s)], as the groups of the match: the greedy
    quantifiers take what they can and give back one character at a
    time; without [re.MULTILINE], [$] holds at the end of the string
    and before a newline that ends it. *)
Fixpoint match_here `{Interpreter} (p : list piece) (s : str)
  : option (list str) :=
  match p with
  | [] => Some []
  | Lit l :: p' =>
      if Text.is_prefix l s then match_here p' (drop (length l) s) else None
  | Times n k :: p' =>
      if (n <=? span k (take n s))%nat then match_here p' (drop n s) else None
  | Many k :: p' =>
      Text.longest_first (fun n => match_here p' (drop n s)) (span k s)
  | Group k :: p' =>
      Text.longest_first
        (fun n => cons (take n s) <$> match_here p' (drop n s))
        (span k s)
  | End :: p' =>
      match s with
      | [] | [10%N] => match_here p' s
      | _ => None
      end
  end.

(** [re.search(p, s)]: the leftmost match. *)
Fixpoint search `{Interpreter} (p : list piece) (s : str)
  : option (list str) :=
  match match_here p s with
  | Some groups => Some groups
  | None =>
      match s with
      | [] => None
      | _ :: s' => search p s'
      end
  end.

(** [m.group(1)]. *)
Definition group1 (groups : list str) : result str :=
  match groups with
  | g :: _ => Ret g
  | [] => Raise (Exn "IndexError" (lit "no such group"))
  end.

End Re.

(** ** Python floats *)

Module Float.

Definition prec : Z := 53.
Definition emax : Z := 1024.

(** An integer as an exact (unrounded) operand. *)
Definition exact (z : Z) : spec_float :=
  match z with
  | Z0 => S754_zero false
  | Zpos p => S754_finite false p 0
  | Zneg p => S754_finite true p 0
  end.

(** [float(z)] for an integer literal. *)
Definition of_int (z : Z) : spec_float := binary_normalize prec emax z 0 false.

(** [a / b] on two [int]s: the correctly rounded quotient. *)
Definition true_div (a b : Z) : result spec_float :=
  if b =? 0
  then Raise (Exn "ZeroDivisionError" (lit "division by zero"))
  else
    match SFdiv prec emax (exact a) (exact b) with
    | S754_infinity _ =>
        Raise (Exn "OverflowError"
                 (lit "integer division result too large for a float"))
    | q => Ret q
    end.

(** [x * y] on floats. *)
Definition mul (x y : spec_float) : spec_float := SFmul prec emax x y.

(** The number of tenths nearest to [x] (ties to even), for a finite
    [x >= 0]. *)
Definition tenths (x : spec_float) : Z :=
  match x with
  | S754_finite false m e =>
      if 0 <=? e then Zpos m * 2 ^ e * 10
      else
        let den := 2 ^ (- e) in
        let q := (Zpos m * 10) / den in
        let r := (Zpos m * 10) mod den in
        if (2 * r <? den) || ((2 * r =? den) && Z.even q) then q else q + 1
  | _ => 0
  end.

(** [f"{x:.1f}"] for a finite [x >= 0] (a file size). *)
Definition format_1f (x : spec_float) : str :=
  let t := tenths x in
  Text.str_of_int (t / 10) ++ lit "." ++ Text.str_of_int (t mod 10).

End Float.

(** ** [class PlasoAPIClient] *)

Module PlasoAPIClient.

Record t := { base_url : str; access_token : option str }.

Definition init (access_token : option str) : t :=
  {| base_url := lit "https://www.plaso.cn"; access_token := access_token |}.

(** One [httpx] POST: what is sent, and what comes back. The body is
    kept as the outcome of [response.json()]. *)
Record request := {
  url : str;
  headers : gmap str json;
  json_body : json;
  timeout : Z
}.

Record response := {
  status_code : Z;
  body_json : result json
}.

(** The network, as the client sees it: a POST returns a response
    or raises (timeout, connection error, ...). *)
Definition transport : Type := request -> result response.

Definition _get_headers (self : t) : gmap str json :=
  list_to_map
    [ (lit "access-token",
       match access_token self with Some tok => JStr tok | None => JNull end);
      (lit "device", JStr (lit "pc"));
      (lit "version", JStr (lit "5.62.327"));
      (lit "platform", JStr (lit "plaso"));
      (lit "User-Agent",
       JStr (lit "Mozilla/5.0 (Windows NT 10.0; WOW64) AppleWebKit/537.36"));
      (lit "Content-Type", JStr (lit "application/json"));
      (lit "Accept", JStr (lit "*/*")) ].

Definition search_all : json :=
  JObj (list_to_map [ (lit "search", JStr []) ]).

(** What [get_course_list] and [validate_token] post. *)
Definition student_list (self : t) (timeout : Z) : request :=
  {| url := base_url self ++ lit "/course/api/v1/m/package/student/list";
     headers := _get_headers self;
     json_body := search_all;
     timeout := timeout |}.

Definition get_course_list (self : t) (post : transport) : result json :=
  try_except
    (response ← post (student_list self 30);
     if status_code response =? 200 then
       result ← body_json response;
       code ← get result (lit "code") JNull;
       if eq_zero code then get result (lit "obj") (JArr [])
       else Ret (JArr [])
     else Ret (JArr []))
    (fun e => Ret (JArr [])).

(** What [get_task_list] posts. *)
Definition xfg_task (self : t) (x_file_id dir_id : json) : request :=
  {| url := base_url self ++ lit "/yxt/servlet/bigDir/getXfgTask";
     headers := _get_headers self;
     json_body :=
       JObj (list_to_map
               [ (lit "hiddenTask", JInt 1);
                 (lit "sourceWay", JInt 1);
                 (lit "needMyFav", JBool true);
                 (lit "id", dir_id);
                 (lit "needProgress", JBool true);
                 (lit "xFileId", x_file_id) ]);
     timeout := 30 |}.

Definition get_task_list (self : t) (post : transport)
    (x_file_id dir_id : json) : result json :=
  try_except
    (response ← post (xfg_task self x_file_id dir_id);
     if status_code response =? 200 then
       result ← body_json response;
       code ← get result (lit "code") JNull;
       if eq_zero code then get result (lit "obj") (JArr [])
       else Ret (JArr [])
     else Ret (JArr []))
    (fun e => Ret (JArr [])).

(** The two dicts [validate_token] returns. *)
Definition valid (user_info : json) : json :=
  JObj (list_to_map [ (lit "success", JBool true);
                      (lit "user_info", user_info) ]).

Definition invalid (message : str) : json :=
  JObj (list_to_map [ (lit "success", JBool false);
                      (lit "message", JStr message) ]).

(** "Token 验证失败" *)
Definition token_rejected : str :=
  [84; 111; 107; 101; 110; 32; 39564; 35777; 22833; 36133]%N.

Definition validate_token (self : t) (post : transport) : result json :=
  try_except
    (response ← post (student_list self 10);
     if status_code response =? 200 then
       result ← body_json response;
       code ← get result (lit "code") JNull;
       if eq_zero code then
         user_info ← get result (lit "obj") JNull;
         Ret (valid user_info)
       else Ret (invalid token_rejected)
     else Ret (invalid token_rejected))
    (fun e => Ret (invalid (exn_text e))).

End PlasoAPIClient.

(** ** [class ConfigManager] *)

Module ConfigManager.

(** A JSON document on disk: missing, or there with the outcome of
    [json.load(open(file))]. *)
Inductive file :=
  | Absent
  | Present (content : result json).

Record t := {
  config_file : file;
  history_file : file;
  settings : json;
  history : json
}.

Definition default_settings : json :=
  JObj (list_to_map
          [ (lit "download_path", JStr (lit "downloads"));
            (lit "ffmpeg_path", JStr []);
            (lit "theme", JStr (lit "light"));
            (lit "max_concurrent", JInt 1) ]).

(** The bare [except:] swallows every failure of opening or decoding. *)
Definition load_settings (config_file : file) : json :=
  match config_file with
  | Present (Ret loaded) => loaded
  | _ => default_settings
  end.

Definition load_history (history_file : file) : json :=
  match history_file with
  | Present (Ret loaded) => loaded
  | _ => JArr []
  end.

Definition init (config_file history_file : file) : t :=
  {| config_file := config_file;
     history_file := history_file;
     settings := load_settings config_file;
     history := load_history history_file |}.

(** [l.insert(0, item)]: only a list has the method. *)
Definition insert0 (l item : json) : result json :=
  match l with
  | JArr items => Ret (JArr (item :: items))
  | _ => Raise (Exn "AttributeError" (lit "object has no attribute 'insert'"))
  end.

(** [l[:n]] of a list or a string; [add_history] applies it to the
    list it has just inserted into. *)
Definition slice_to (n : nat) (l : json) : result json :=
  match l with
  | JArr items => Ret (JArr (take n items))
  | JStr s => Ret (JStr (take n s))
  | _ => Raise (Exn "TypeError" (lit "object is not subscriptable"))
  end.

Definition set_history (h : json) : act t unit :=
  modify (fun self => {| config_file := config_file self;
                         history_file := history_file self;
                         settings := settings self;
                         history := h |}).

(** Rewriting the history file: it succeeds and the file holds the
    history, or it raises and leaves some file behind. *)
Inductive dump :=
  | Dumped
  | DumpFailed (e : exn) (left_behind : file).

Definition write_history (io : dump) : act t unit := fun self =>
  match io with
  | Dumped =>
      ({| config_file := config_file self;
          history_file := Present (Ret (history self));
          settings := settings self;
          history := history self |}, Ret tt)
  | DumpFailed e left_behind =>
      ({| config_file := config_file self;
          history_file := left_behind;
          settings := settings self;
          history := history self |}, Raise e)
  end.

Definition add_history (item : json) (io : dump) : act t unit :=
  h ← gets history;
  inserted ← lift (insert0 h item);
  set_history inserted;;
  (* keep the most recent 100 *)
  kept ← lift (slice_to 100 inserted);
  set_history kept;;
  write_history io.

(** [d.update(other)]: only a dict has the method; the keys of
    [other] win. *)
Definition update (d : json) (other : gmap str json) : result json :=
  match d with
  | JObj m => Ret (JObj (other ∪ m))
  | _ => Raise (Exn "AttributeError" (lit "object has no attribute 'update'"))
  end.

Definition set_settings (v : json) : act t unit :=
  modify (fun self => {| config_file := config_file self;
                         history_file := history_file self;
                         settings := v;
                         history := history self |}).

Definition write_settings (io : dump) : act t unit := fun self =>
  match io with
  | Dumped =>
      ({| config_file := Present (Ret (settings self));
          history_file := history_file self;
          settings := settings self;
          history := history self |}, Ret tt)
  | DumpFailed e left_behind =>
      ({| config_file := left_behind;
          history_file := history_file self;
          settings := settings self;
          history := history self |}, Raise e)
  end.

Definition save_settings (new : gmap str json) (io : dump) : act t unit :=
  current ← gets settings;
  updated ← lift (update current new);
  set_settings updated;;
  write_settings io.

(** The token part of the manager: [token_file] and [self.token]. *)
Record tokens := {
  token_file : file;
  token : json
}.

Definition load_token (token_file : file) : json :=
  match token_file with
  | Present (Ret loaded) => loaded
  | _ => JObj ∅
  end.

Definition init_tokens (token_file : file) : tokens :=
  {| token_file := token_file; token := load_token token_file |}.

Definition save_token (token_data : json) (io : dump) : act tokens unit :=
  fun self =>
    match io with
    | Dumped =>
        ({| token_file := Present (Ret token_data); token := token_data |},
         Ret tt)
    | DumpFailed e left_behind =>
        ({| token_file := left_behind; token := token_data |}, Raise e)
    end.

(** [token_file.unlink()] removes the file or raises. *)
Inductive removal :=
  | Removed
  | RemoveFailed (e : exn).

Definition clear_token (rm : removal) : act tokens unit := fun self =>
  match token_file self with
  | Absent => ({| token_file := Absent; token := JObj ∅ |}, Ret tt)
  | Present content =>
      match rm with
      | Removed => ({| token_file := Absent; token := JObj ∅ |}, Ret tt)
      | RemoveFailed e =>
          ({| token_file := Present content; token := JObj ∅ |}, Raise e)
      end
  end.

End ConfigManager.

(** ** [class DownloadManager] *)

Module DownloadManager.

(** The launched tool, as [download_video] observes it when the tool
    ends: the successive results of [process.stdout.readline()] up to
    the [break], the exit code, and the size of the destination file
    if it exists once the tool is gone. A tool that does not end,
    which the loop waits for without limit, is a [tool] below. *)
Record process := {
  stdout : list str;
  returncode : Z;
  output : option Z
}.

(** The host at the time of one call: creating the parent directory
    and launching the command either work or raise. *)
Record host := {
  mkdir : result unit;
  popen : list str -> result process
}.

Definition duration_re : list Text.item :=
  [ Text.Lit (lit "Duration: "); Text.Digits; Text.Lit (lit ":");
    Text.Digits; Text.Lit (lit ":"); Text.Digits ].

Definition time_re : list Text.item :=
  [ Text.Lit (lit "time= "); Text.Digits; Text.Lit (lit ":");
    Text.Digits; Text.Lit (lit ":"); Text.Digits ].

(** [h, m, s = map(int, match.groups())] and [h * 3600 + m * 60 + s]. *)
Definition seconds `{Interpreter} (groups : list str) : result Z :=
  match groups with
  | [h; m; s] =>
      h ← Text.int h;
      m ← Text.int m;
      s ← Text.int s;
      Ret (h * 3600 + m * 60 + s)
  | _ => Raise (Exn "ValueError" (lit "wrong number of values to unpack"))
  end.

(** The first [if] of the loop body: the duration after [line]. *)
Definition read_duration `{Interpreter} (line : str) (duration : option Z)
  : result (option Z) :=
  if Text.contains (lit "Duration:") line then
    match Text.search duration_re line with
    | Some groups => d ← seconds groups; Ret (Some d)
    | None => Ret duration
    end
  else Ret duration.

(** [bool(duration)]: neither [None] nor [0]. *)
Definition known (duration : option Z) : bool :=
  match duration with
  | Some d => negb (d =? 0)
  | None => false
  end.

Definition call {S A} (callback : option (A -> act S unit)) (a : A)
  : act S unit :=
  match callback with
  | Some f => f a
  | None => mret tt
  end.

(** The second [if] of the loop body. *)
Definition report_progress `{Interpreter} {S} (line : str)
    (duration : option Z)
    (progress_callback : option (spec_float -> act S unit)) : act S unit :=
  if Text.contains (lit "time=") line && known duration then
    match Text.search time_re line with
    | Some groups =>
        current ← lift (seconds groups);
        ratio ← lift (Float.true_div current (default 0 duration));
        let progress := Float.mul ratio (Float.of_int 100) in
        call progress_callback progress
    | None => mret tt
    end
  else mret tt.

(** The [while True] loop over the lines of a tool that ends;
    [read_live] below is the loop on a tool that may not. *)
Fixpoint read_output `{Interpreter} {S} (lines : list str)
    (duration : option Z)
    (progress_callback : option (spec_float -> act S unit)) : act S unit :=
  match lines with
  | [] => mret tt
  | line :: rest =>
      duration ← lift (read_duration line duration);
      report_progress line duration progress_callback;;
      read_output rest duration progress_callback
  end.

(** "未找到 FFmpeg" *)
Definition no_ffmpeg : str :=
  [26410; 25214; 21040; 32; 70; 70; 109; 112; 101; 103]%N.

(** "下载失败" *)
Definition download_failed : str := [19979; 36733; 22833; 36133]%N.

Definition command (ffmpeg_path m3u8_url output_path : str) : list str :=
  [ ffmpeg_path; lit "-i"; m3u8_url; lit "-c"; lit "copy";
    lit "-bsf:a"; lit "aac_adtstoasc"; lit "-y"; output_path ].

Definition download_video `{Interpreter} {S}
    (ffmpeg_path : option str) (os : host)
    (m3u8_url output_path : str)
    (progress_callback : option (spec_float -> act S unit))
    (finished_callback : option (bool * str -> act S unit)) : act S bool :=
  match ffmpeg_path with
  | None | Some [] =>
      call finished_callback (false, no_ffmpeg);;
      mret false
  | Some ffmpeg =>
      try_except_act
        (let output_path := path_str output_path in
         lift (mkdir os);;
         process ← lift (popen os (command ffmpeg m3u8_url output_path));
         read_output (stdout process) None progress_callback;;
         match returncode process =? 0, output process with
         | true, Some st_size =>
             file_size ← lift (Float.true_div st_size (1024 * 1024));
             call finished_callback
               (true, Float.format_1f file_size ++ lit "MB");;
             mret true
         | _, _ =>
             call finished_callback (false, download_failed);;
             mret false
         end)
        (fun e =>
           call finished_callback (false, exn_text e);;
           mret false)
  end.

(** The launched tool, round by round of the loop: what
    [process.stdout.readline()] returns in that round, [None] when
    it does not return, the tool printing nothing more and keeping
    its output open; what [process.poll()] says in that round; and
    the size of the destination file if it exists once the tool is
    gone. *)
Record tool := {
  readline : nat -> option str;
  poll : nat -> option Z;
  written : option Z
}.

Record live_host := {
  live_mkdir : result unit;
  live_popen : list str -> result tool
}.

(** The [while True] loop, for at most [fuel] rounds from [round]
    on; it returns the exit code that [poll] gave at the [break]. *)
Fixpoint read_live `{Interpreter} {S} (fuel : nat) (process : tool)
    (round : nat) (duration : option Z)
    (progress_callback : option (spec_float -> act S unit))
  : pending S Z :=
  match fuel with
  | O => fun _ => None
  | Datatypes.S fuel' =>
      match readline process round with
      | None => fun _ => None
      | Some line =>
          match line, poll process round with
          | [], Some code => mret code
          | _, _ =>
              duration ← returned
                (duration ← lift (read_duration line duration);
                 report_progress line duration progress_callback;;
                 mret duration);
              read_live fuel' process (Datatypes.S round) duration
                progress_callback
          end
      end
  end.

(** [download_video] on a tool that may not end, with [fuel] rounds
    for its loop. *)
Definition download_video_live `{Interpreter} {S} (fuel : nat)
    (ffmpeg_path : option str) (os : live_host)
    (m3u8_url output_path : str)
    (progress_callback : option (spec_float -> act S unit))
    (finished_callback : option (bool * str -> act S unit))
  : pending S bool :=
  match ffmpeg_path with
  | None | Some [] =>
      returned (call finished_callback (false, no_ffmpeg);;
                mret false)
  | Some ffmpeg =>
      try_except_pending
        (let output_path := path_str output_path in
         returned (lift (live_mkdir os));;
         process ← returned
           (lift (live_popen os (command ffmpeg m3u8_url output_path)));
         returncode ← read_live fuel process 0 None progress_callback;
         returned
           match returncode =? 0, written process with
           | true, Some st_size =>
               file_size ← lift (Float.true_div st_size (1024 * 1024));
               call finished_callback
                 (true, Float.format_1f file_size ++ lit "MB");;
               mret true
           | _, _ =>
               call finished_callback (false, download_failed);;
               mret false
           end)
        (fun e =>
           returned (call finished_callback (false, exn_text e);;
                     mret false))
  end.

(** What [subprocess.run] returns, as far as it is looked at. *)
Record completed := {
  run_returncode : Z;
  run_stdout : str
}.

(** The machine during one search for the tool: [os.name == 'nt'],
    [Path(p).exists()] and [subprocess.run(cmd, ..., shell=...)]. *)
Record machine := {
  nt : bool;
  path_exists : str -> result bool;
  run : list str -> bool -> result completed
}.

Definition windows_paths : list str :=
  [ lit "D:\project_software\ffmpeg-8.0.1-essentials_build\bin\ffmpeg.exe";
    lit "D:\ffmpeg\bin\ffmpeg.exe";
    lit "C:\ffmpeg\bin\ffmpeg.exe" ].

Definition common_paths (m : machine) : list str :=
  (if nt m then windows_paths else []) ++ [ lit "ffmpeg"; lit "ffmpeg.exe" ].

(** [Path(v)]: of the values of a JSON document only a string is a
    path. *)
Definition as_path (v : json) : result str :=
  match v with
  | JStr s => Ret s
  | _ => Raise (Exn "TypeError" (lit "expected str, bytes or os.PathLike object"))
  end.

(** The check of the configured path: the path to keep, if it ends
    the search. *)
Definition configured `{Interpreter} (m : machine) (settings : json)
  : result (option str) :=
  setting ← get settings (lit "ffmpeg_path") JNull;
  if truthy setting then
    path ← subscript settings (lit "ffmpeg_path");
    path ← as_path path;
    there ← path_exists m path;
    Ret (if there : bool then Some (path_str path) else None)
  else Ret None.

(** [for path in common_paths]. *)
Fixpoint first_existing `{Interpreter} (m : machine) (paths : list str)
  : result (option str) :=
  match paths with
  | [] => Ret None
  | path :: rest =>
      there ← path_exists m path;
      if there : bool then Ret (Some (path_str path))
      else first_existing m rest
  end.

(** The [try] block with its bare [except: pass]: the path to keep,
    if the block returns one. *)
Definition on_system_path (m : machine) : result (option str) :=
  try_except
    (if nt m then
       result ← run m [ lit "where"; lit "ffmpeg" ] true;
       if run_returncode result =? 0 then
         let lines := Text.split 10 (Text.strip (run_stdout result)) in
         match lines with
         | line :: _ => Ret (Some line)
         | [] => Ret None
         end
       else Ret None
     else
       result ← run m [ lit "which"; lit "ffmpeg" ] false;
       if run_returncode result =? 0 then
         Ret (Some (Text.strip (run_stdout result)))
       else Ret None)
    (fun _ => Ret None).

(** [find_ffmpeg], on [self.ffmpeg_path]. *)
Definition find_ffmpeg `{Interpreter} (m : machine) (settings : json)
  : act (option str) unit :=
  found ← lift (configured m settings);
  match found with
  | Some path => modify (fun _ => Some path)
  | None =>
      found ← lift (first_existing m (common_paths m));
      match found with
      | Some path => modify (fun _ => Some path)
      | None =>
          found ← lift (on_system_path m);
          match found with
          | Some path => modify (fun _ => Some path)
          | None => modify (fun _ => None)
          end
      end
  end.

(** [DownloadManager(config)]. *)
Definition init `{Interpreter} (m : machine) (settings : json)
  : option str * result unit :=
  find_ffmpeg m settings None.

End DownloadManager.

(** ** [safe_filename] and the default destinations *)

Module UI.

(** The character class of the pattern: less-than, greater-than,
    colon, double quote, slash, backslash, bar, question mark, star. *)
Definition forbidden : str := [60; 62; 58; 34; 47; 92; 124; 63; 42]%N.

Definition is_forbidden (c : N) : bool := existsb (N.eqb c) forbidden.

Definition safe_filename (name : str) : str :=
  let name := List.filter (fun c => negb (is_forbidden c)) name in
  let name := Text.strip name in
  take 50 name.

(** [safe_filename] applied to a value as it comes out of a dict:
    [re.sub] refuses what is not a [str]. *)
Definition safe_filename_of (name : json) : result str :=
  match name with
  | JStr s => Ret (safe_filename s)
  | _ => Raise (Exn "TypeError" (lit "expected string or bytes-like object"))
  end.

(** [Path(v)] of a value as it comes out of a dict. *)
Definition path_of `{Interpreter} (v : json) : result str :=
  match v with
  | JStr s => Ret (path_str s)
  | _ => Raise (Exn "TypeError" (lit "expected str, bytes or os.PathLike object"))
  end.

(** "章节 " *)
Definition chapter_label : str := [31456; 33410; 32]%N.

(** "课程" *)
Definition course_label : str := [35838; 31243]%N.

(** [len(v)]: a string, a list and a dict have a length, nothing
    else that JSON gives has one. *)
Definition len (v : json) : result Z :=
  match v with
  | JStr s => Ret (Z.of_nat (length s))
  | JArr l => Ret (Z.of_nat (length l))
  | JObj m => Ret (Z.of_nat (size m))
  | _ => Raise (Exn "TypeError" (lit "object has no len()"))
  end.

(** [ModernCourseCard.__init__], as far as [path_var]: the
    destination offered for the chapter [task] shown at [index]. The
    widgets made on the way are not modelled. *)
Definition card_path_var `{Interpreter} (task : json) (index : Z)
    (default_path : str) : result str :=
  task_id ← get task (lit "_id") (JStr []);
  task_name ← get task (lit "name")
                (JStr (chapter_label ++ Text.str_of_int (index + 1)));
  record_files ← get task (lit "recordFiles") (JArr []);
  n ← len record_files;
  let has_video := 0 <? n in
  (* the path entry *)
  safe ← safe_filename_of task_name;
  Ret (path_join default_path (safe ++ lit ".mp4")).

(** [iter(v)]: the items of a list, the characters of a string, the
    keys of a dict (in an order that plays no role here, since a card
    fails on the first of them); nothing else that JSON gives is
    iterable. *)
Definition iterate (v : json) : result (list json) :=
  match v with
  | JArr l => Ret l
  | JStr s => Ret ((fun c => JStr [c]) <$> s)
  | JObj m => Ret (JStr <$> (map_to_list m).*1)
  | _ => Raise (Exn "TypeError" (lit "object is not iterable"))
  end.

(** [enumerate(l)] *)
Definition enumerate (l : list json) : list (Z * json) :=
  zip (Z.of_nat <$> seq 0 (length l)) l.

Fixpoint cards `{Interpreter} (tasks : list (Z * json)) (course_path : str)
  : result (list str) :=
  match tasks with
  | [] => Ret []
  | (i, task) :: rest =>
      card ← card_path_var task i course_path;
      others ← cards rest course_path;
      Ret (card :: others)
  end.

(** [BersoDownloaderApp.display_chapters]: the per-course directory
    and the destination each card offers. *)
Definition course_path `{Interpreter} (settings current_course : json)
  : result str :=
  download_path ← get settings (lit "download_path") (JStr (lit "./downloads"));
  default_path ← path_of download_path;
  title ← get current_course (lit "title") (JStr course_label);
  safe ← safe_filename_of title;
  Ret (path_join default_path safe).

Definition display_chapters `{Interpreter} (settings current_course tasks : json)
  : result (list str) :=
  if negb (truthy tasks) then Ret []
  else
    course_path ← course_path settings current_course;
    items ← iterate tasks;
    cards (enumerate items) course_path.

End UI.

(** ** [class BersoDownloaderApp]: the batch download *)

Module BersoDownloaderApp.

(** One selected chapter: its record, the destination typed in its
    card, and the card (by position). *)
Record download_task := {
  task_data : json;
  save_path : str;
  card : nat
}.

(** What the worker hands to the GUI thread with [root.after(0, ...)]. *)
Inductive gui_event :=
  | UpdateStatus (card : nat) (text : str) (color : string)
  | SetProgress (card : nat) (value : spec_float)
  | ResetProgress  (* [lambda: c.card_frame.progress.set(0)] *)
  | SelectedCount (text : str)
  | BatchFinished.

Record t := {
  config : ConfigManager.t;
  ffmpeg_path : option str;  (* [download_manager.ffmpeg_path] *)
  downloading : bool;
  download_tasks : list download_task;
  completed_count : Z;
  failed_count : Z;
  after : list gui_event;
  (** bookkeeping of the model: the arguments of every call of
      [download_manager.download_video], oldest first *)
  fetched : list (str * str)
}.

Definition set_config (c : ConfigManager.t) (self : t) : t :=
  {| config := c; ffmpeg_path := ffmpeg_path self;
     downloading := downloading self; download_tasks := download_tasks self;
     completed_count := completed_count self;
     failed_count := failed_count self;
     after := after self; fetched := fetched self |}.

Definition set_completed_count (n : Z) (self : t) : t :=
  {| config := config self; ffmpeg_path := ffmpeg_path self;
     downloading := downloading self; download_tasks := download_tasks self;
     completed_count := n;
     failed_count := failed_count self;
     after := after self; fetched := fetched self |}.

Definition set_failed_count (n : Z) (self : t) : t :=
  {| config := config self; ffmpeg_path := ffmpeg_path self;
     downloading := downloading self; download_tasks := download_tasks self;
     completed_count := completed_count self;
     failed_count := n;
     after := after self; fetched := fetched self |}.

Definition set_after (q : list gui_event) (self : t) : t :=
  {| config := config self; ffmpeg_path := ffmpeg_path self;
     downloading := downloading self; download_tasks := download_tasks self;
     completed_count := completed_count self;
     failed_count := failed_count self;
     after := q; fetched := fetched self |}.

Definition set_fetched (l : list (str * str)) (self : t) : t :=
  {| config := config self; ffmpeg_path := ffmpeg_path self;
     downloading := downloading self; download_tasks := download_tasks self;
     completed_count := completed_count self;
     failed_count := failed_count self;
     after := after self; fetched := l |}.

Definition start (selected : list download_task) (self : t) : t :=
  {| config := config self; ffmpeg_path := ffmpeg_path self;
     downloading := true; download_tasks := selected;
     completed_count := 0;
     failed_count := 0;
     after := after self; fetched := fetched self |}.

(** [self.root.after(0, f)] *)
Definition root_after (e : gui_event) : act t unit :=
  modify (fun self => set_after (after self ++ [e]) self).

(** A method of [self.config] run on the application. *)
Definition on_config {A} (m : act ConfigManager.t A) : act t A :=
  fun self =>
    let (c, r) := m (config self) in (set_config c self, r).

(** What one job meets outside the program: the host, the clock
    read by [datetime.now().strftime("%Y-%m-%d %H:%M")], and the
    outcome of rewriting the history file. *)
Record surroundings := {
  os : DownloadManager.host;
  now : str;
  io : ConfigManager.dump
}.

(** [record_files[0]]: the first item of a list, the first character
    of a string; a dict out of JSON has no key [0]. *)
Definition first (record_files : json) : result json :=
  match record_files with
  | JArr (x :: _) => Ret x
  | JStr (c :: _) => Ret (JStr [c])
  | JArr [] | JStr [] => Raise (Exn "IndexError" (lit "index out of range"))
  | JObj _ => Raise (Exn "KeyError" (lit "0"))
  | _ => Raise (Exn "TypeError" (lit "object is not subscriptable"))
  end.

(** "解析中...", "无视频", "无地址", "失败", "未知", "下载中 " *)
Definition parsing : str := [35299; 26512; 20013; 46; 46; 46]%N.
Definition no_video : str := [26080; 35270; 39057]%N.
Definition no_address : str := [26080; 22320; 22336]%N.
Definition failed : str := [22833; 36133]%N.
Definition unknown : str := [26410; 30693]%N.
Definition in_progress : str := [19979; 36733; 20013; 32]%N.

Definition m3u8_url `{Interpreter} (location_path : json) : str :=
  lit "https://filecdn.plaso.com/liveclass/plaso/"
    ++ format location_path ++ lit "/a1/a.m3u8".

Definition progress_callback (task : download_task) (value : spec_float)
  : act t unit :=
  root_after (SetProgress (card task) value).

Definition finished_callback (task : download_task) (world : surroundings)
    (total : Z) (outcome : bool * str) : act t unit :=
  let (success, message) := outcome in
  (if success then
     root_after (UpdateStatus (card task) message "success");;
     modify (fun self => set_completed_count (completed_count self + 1) self);;
     (* the history entry *)
     title ← lift (get (task_data task) (lit "name") (JStr unknown));
     on_config (ConfigManager.add_history
                  (JObj (list_to_map
                           [ (lit "title", title);
                             (lit "path", JStr (save_path task));
                             (lit "date", JStr (now world));
                             (lit "size", JStr message) ]))
                  (io world))
   else
     root_after (UpdateStatus (card task) failed "error");;
     modify (fun self => set_failed_count (failed_count self + 1) self));;
  (* the overall progress *)
  current ← gets (fun self => completed_count self + failed_count self);
  root_after (SelectedCount (in_progress ++ Text.str_of_int current
                               ++ lit "/" ++ Text.str_of_int total)).

(** The body of [for task in self.download_tasks], after the test of
    [self.downloading]. *)
Definition download_one `{Interpreter} (task : download_task)
    (world : surroundings) (total : Z) : act t unit :=
  root_after (UpdateStatus (card task) parsing "warning");;
  record_files ← lift (get (task_data task) (lit "recordFiles") (JArr []));
  if negb (truthy record_files) then
    root_after (UpdateStatus (card task) no_video "error");;
    root_after ResetProgress;;
    modify (fun self => set_failed_count (failed_count self + 1) self)
  else
    record_file ← lift (first record_files);
    location ← lift (get record_file (lit "location") JNull);
    location_path ←
      (if truthy location then mret location
       else lift (get record_file (lit "locationPath") JNull));
    if negb (truthy location_path) then
      root_after (UpdateStatus (card task) no_address "error");;
      root_after ResetProgress;;
      modify (fun self => set_failed_count (failed_count self + 1) self)
    else
      let url := m3u8_url location_path in
      (* the download *)
      modify (fun self =>
                set_fetched (fetched self ++ [(url, save_path task)]) self);;
      ffmpeg ← gets ffmpeg_path;
      DownloadManager.download_video ffmpeg (os world) url (save_path task)
        (Some (progress_callback task))
        (Some (finished_callback task world total));;
      mret tt.

Fixpoint for_each_task `{Interpreter} (tasks : list download_task)
    (world : nat -> surroundings) (position : nat) (total : Z)
  : act t unit :=
  match tasks with
  | [] => mret tt
  | task :: rest =>
      running ← gets downloading;
      if negb running then mret tt
      else
        download_one task (world position) total;;
        for_each_task rest world (S position) total
  end.

Definition download_worker `{Interpreter} (world : nat -> surroundings)
  : act t unit :=
  tasks ← gets download_tasks;
  let total := Z.of_nat (length tasks) in
  for_each_task tasks world O total;;
  root_after BatchFinished.

(** [start_batch_download], from the list of the checked cards on.
    The three refusals only show a message box; the worker, a thread
    of its own in the sources, is run to its end here. *)
Definition start_batch_download `{Interpreter} (selected : list download_task)
    (world : nat -> surroundings) : act t unit :=
  match selected with
  | [] => mret tt
  | _ :: _ =>
      running ← gets downloading;
      if running : bool then mret tt
      else
        ffmpeg ← gets ffmpeg_path;
        match ffmpeg : option str with
        | None | Some [] => mret tt
        | Some _ =>
            modify (start selected);;
            download_worker world
        end
  end.

(** The worker on tools that may not end, with [fuel] rounds for
    the loop of each download. The tools are launched on [tools];
    [world] gives the clock and the writes of the history, its host
    is not looked at. *)
Definition download_one_live `{Interpreter} (fuel : nat)
    (task : download_task) (tools : DownloadManager.live_host)
    (world : surroundings) (total : Z) : pending t unit :=
  returned (root_after (UpdateStatus (card task) parsing "warning"));;
  record_files ← returned
    (lift (get (task_data task) (lit "recordFiles") (JArr [])));
  if negb (truthy record_files) then
    returned
      (root_after (UpdateStatus (card task) no_video "error");;
       root_after ResetProgress;;
       modify (fun self => set_failed_count (failed_count self + 1) self))
  else
    record_file ← returned (lift (first record_files));
    location ← returned (lift (get record_file (lit "location") JNull));
    location_path ← returned
      (if truthy location then mret location
       else lift (get record_file (lit "locationPath") JNull));
    if negb (truthy location_path) then
      returned
        (root_after (UpdateStatus (card task) no_address "error");;
         root_after ResetProgress;;
         modify (fun self => set_failed_count (failed_count self + 1) self))
    else
      let url := m3u8_url location_path in
      (* the download *)
      returned
        (modify (fun self =>
                   set_fetched (fetched self ++ [(url, save_path task)]) self));;
      ffmpeg ← returned (gets ffmpeg_path);
      DownloadManager.download_video_live fuel ffmpeg tools url
        (save_path task)
        (Some (progress_callback task))
        (Some (finished_callback task world total));;
      mret tt.

Fixpoint for_each_task_live `{Interpreter} (fuel : nat)
    (tasks : list download_task) (tools : nat -> DownloadManager.live_host)
    (world : nat -> surroundings) (position : nat) (total : Z)
  : pending t unit :=
  match tasks with
  | [] => mret tt
  | task :: rest =>
      running ← returned (gets downloading);
      if negb running then mret tt
      else
        download_one_live fuel task (tools position) (world position) total;;
        for_each_task_live fuel rest tools world (S position) total
  end.

Definition download_worker_live `{Interpreter} (fuel : nat)
    (tools : nat -> DownloadManager.live_host) (world : nat -> surroundings)
  : pending t unit :=
  tasks ← returned (gets download_tasks);
  let total := Z.of_nat (length tasks) in
  for_each_task_live fuel tasks tools world O total;;
  returned (root_after BatchFinished).

Definition start_batch_download_live `{Interpreter} (fuel : nat)
    (selected : list download_task)
    (tools : nat -> DownloadManager.live_host) (world : nat -> surroundings)
  : pending t unit :=
  match selected with
  | [] => mret tt
  | _ :: _ =>
      running ← returned (gets downloading);
      if running : bool then mret tt
      else
        ffmpeg ← returned (gets ffmpeg_path);
        match ffmpeg : option str with
        | None | Some [] => mret tt
        | Some _ =>
            returned (modify (start selected));;
            download_worker_live fuel tools world
        end
  end.

Definition set_ffmpeg_path (p : option str) (self : t) : t :=
  {| config := config self; ffmpeg_path := p;
     downloading := downloading self; download_tasks := download_tasks self;
     completed_count := completed_count self;
     failed_count := failed_count self;
     after := after self; fetched := fetched self |}.

(** [save_settings] of the settings page, on what its three entries
    hold, up to the box that tells the settings are saved. *)
Definition save_settings (download_path ffmpeg_path theme : str)
    (io : ConfigManager.dump) : act t unit :=
  let settings : gmap str json :=
    list_to_map [ (lit "download_path", JStr download_path);
                  (lit "ffmpeg_path", JStr ffmpeg_path);
                  (lit "theme", JStr theme) ] in
  on_config (ConfigManager.save_settings settings io);;
  (* the downloader *)
  modify (set_ffmpeg_path (Some ffmpeg_path)).

(** The double quote. *)
Definition quote : N := 34%N.

(** The pattern of the response: the key [access_token] in its
    quotes, a colon, and between two quotes the group [([^q]+)],
    where [q] stands for the quote. *)
Definition access_token_re : list Re.piece :=
  [ Re.Lit ([quote] ++ lit "access_token" ++ [quote] ++ lit ":" ++ [quote]);
    Re.Group (Re.Except quote);
    Re.Lit [quote] ].

(** [^\d{5}-\d-\d+-[a-f0-9]+-\d+-[^q]+$], where [q] stands for the
    quote; [re.match] tries it at the head of the string, where [^]
    holds. *)
Definition raw_token_re : list Re.piece :=
  [ Re.Times 5 Re.Decimal; Re.Lit (lit "-");
    Re.Times 1 Re.Decimal; Re.Lit (lit "-");
    Re.Many Re.Decimal; Re.Lit (lit "-");
    Re.Many Re.LowerHex; Re.Lit (lit "-");
    Re.Many Re.Decimal; Re.Lit (lit "-");
    Re.Many (Re.Except quote); Re.End ].

Definition parse_token_from_response `{Interpreter} (content : str)
  : result (option str) :=
  match Re.search access_token_re content with
  | Some token_match =>
      token ← Re.group1 token_match;
      Ret (Some token)
  | None =>
      (* the bare token *)
      match Re.match_here raw_token_re (Text.strip content) with
      | Some _ => Ret (Some (Text.strip content))
      | None => Ret None
      end
  end.

(** A message box. *)
Inductive box :=
  | ShowWarning (title text : str)
  | ShowError (title text : str)
  | ShowInfo (title text : str).

(** The part of the application a login works on: [self.client], the
    token of [self.config] and the message boxes shown so far. *)
Record desk := {
  client : option PlasoAPIClient.t;
  token_store : ConfigManager.tokens;
  boxes : list box
}.

Definition set_client (c : option PlasoAPIClient.t) : act desk unit :=
  modify (fun self => {| client := c; token_store := token_store self;
                         boxes := boxes self |}).

Definition show (b : box) : act desk unit :=
  modify (fun self => {| client := client self;
                         token_store := token_store self;
                         boxes := boxes self ++ [b] |}).

(** A method of [self.config] run on the desk. *)
Definition on_tokens {A} (m : act ConfigManager.tokens A) : act desk A :=
  fun self =>
    let (store, r) := m (token_store self) in
    ({| client := client self; token_store := store; boxes := boxes self |}, r).

(** The text the entry shows while it is empty, and the texts of the
    boxes of the login. *)
Definition placeholder : str :=
  [31896; 36148; 72; 84; 84; 80; 21709; 24212; 25110; 116; 111; 107; 101;
   110; 46; 46; 46]%N.
Definition hint_title : str := [25552; 31034]%N.
Definition hint_text : str :=
  [35831; 36755; 20837; 25110; 31896; 36148; 32; 84; 111; 107; 101; 110;
   65281; 10; 10; 25903; 25345; 30452; 25509; 31896; 36148; 32; 72; 84; 84;
   80; 32; 21709; 24212; 25991; 26412; 25110; 32431; 32; 116; 111; 107; 101;
   110; 32; 23383; 31526; 20018]%N.
Definition error_title : str := [38169; 35823]%N.
Definition error_text : str :=
  [26080; 27861; 20174; 36755; 20837; 20013; 35299; 26512; 20986; 26377;
   25928; 30340; 32; 84; 111; 107; 101; 110; 65281; 10; 10; 35831; 30830;
   20445; 36755; 20837; 21253; 21547; 32; 97; 99; 99; 101; 115; 115; 95;
   116; 111; 107; 101; 110; 32; 23383; 27573]%N.
Definition welcome_title : str := [30331; 24405; 25104; 21151]%N.
Definition welcome_back : str := [27426; 36814; 22238; 26469; 65292]%N.
Definition welcome_org : str := [65281; 10; 26426; 26500; 65306]%N.
Definition rejected_title : str := [30331; 24405; 22833; 36133]%N.
Definition rejected_text : str :=
  [84; 111; 107; 101; 110; 32; 39564; 35777; 22833; 36133; 65292; 35831;
   26816; 26597; 36755; 20837; 26159; 21542; 27491; 30830; 65281]%N.
Definition user : str := [29992; 25143]%N.

(** [login_with_token], on the text of the entry. The widget work
    after the token is saved, [update_login_state(True, token_data)]
    and [refresh_courses()], is [show_logged_in]. *)
Definition login_with_token `{Interpreter} (entry : str)
    (post : PlasoAPIClient.transport) (io : ConfigManager.dump)
    (show_logged_in : json -> act desk unit) : act desk unit :=
  let content := Text.strip entry in
  if negb (truthy (JStr content)) || bool_decide (content = placeholder) then
    show (ShowWarning hint_title hint_text)
  else
    token ← lift (parse_token_from_response content);
    match token with
    | None | Some [] => show (ShowError error_title error_text)
    | Some token =>
        (* the check of the token *)
        set_client (Some (PlasoAPIClient.init (Some token)));;
        result ← lift (PlasoAPIClient.validate_token
                         (PlasoAPIClient.init (Some token)) post);
        success ← lift (subscript result (lit "success"));
        if truthy success then
          user_info ← lift (get result (lit "user_info") (JObj ∅));
          name ← lift (get user_info (lit "name") (JStr user));
          my_org ← lift (get user_info (lit "myOrg") (JObj ∅));
          org_name ← lift (get my_org (lit "name") (JStr []));
          let token_data :=
            JObj (list_to_map [ (lit "access_token", JStr token);
                                (lit "user_info", user_info) ]) in
          on_tokens (ConfigManager.save_token token_data io);;
          show_logged_in token_data;;
          show (ShowInfo welcome_title
                  (welcome_back ++ format name ++ welcome_org
                   ++ format org_name))
        else show (ShowError rejected_title rejected_text)
    end.

End BersoDownloaderApp.

(** * The vocabulary of the properties *)

(** An interpreter to run closed examples on: ASCII digits only, the
    digit limit of CPython 3.11, paths that are already in normal form
    and are joined with a slash. The examples never reach [repr]. *)
Definition sample_interpreter : Interpreter :=
  {| unicode_decimal := fun _ => None;
     int_max_str_digits := Some 4300%nat;
     path_str := fun p => p;
     path_join := fun a b => a ++ lit "/" ++ b;
     repr := fun _ => lit "<repr>" |}.

Section ClientTerms.

Import PlasoAPIClient.

(** The [code] of a decoded body, [None] when the key is missing. *)
Definition code_of (body : gmap str json) : json :=
  default JNull (body !! lit "code").

(** A response that came back and says no: a status other than 200,
    or a body whose [code] is not 0, in the sense of the [==] the
    sources test it with. *)
Definition rejected (r : response) : Prop :=
  status_code r ≠ 200 ∨
  ∃ body, body_json r = Ret (JObj body) ∧ eq_zero (code_of body) = false.

(** A response that says yes, with its decoded body. *)
Definition accepted (r : response) (body : gmap str json) : Prop :=
  status_code r = 200 ∧ body_json r = Ret (JObj body) ∧
  eq_zero (code_of body) = true.

(** The part both listings and the probe share once a response is in. *)
Definition answer (r : response) (yes : gmap str json -> result json)
    (no : json) : result json :=
  if status_code r =? 200 then
    result ← body_json r;
    code ← get result (lit "code") JNull;
    match result with
    | JObj body => if eq_zero code then yes body else Ret no
    | _ => Ret no
    end
  else Ret no.

End ClientTerms.

Module ClientExamples.

Import PlasoAPIClient.

Definition client : PlasoAPIClient.t := init (Some (lit "token")).

Definition timed_out : exn := Exn "ReadTimeout" (lit "timed out").

Definition unreachable : transport := fun _ => Raise timed_out.

(** A server that knows one course and refuses the chapter listing. *)
Definition courses_body : gmap str json :=
  list_to_map [ (lit "code", JInt 0);
                (lit "obj", JArr [JStr (lit "course")]) ].

Definition denied_body : gmap str json :=
  list_to_map [ (lit "code", JInt 401) ].

Definition server : transport := fun request =>
  if Text.contains (lit "student/list") (url request)
  then Ret {| status_code := 200; body_json := Ret (JObj courses_body) |}
  else Ret {| status_code := 200; body_json := Ret (JObj denied_body) |}.

End ClientExamples.

Section StoresTerms.

Import ConfigManager.

Definition four_keys : list str :=
  [ lit "download_path"; lit "ffmpeg_path"; lit "theme"; lit "max_concurrent" ].

(** A settings value with all four keys. *)
Definition complete (settings : json) : Prop :=
  ∃ m, settings = JObj m ∧ Forall (fun k => is_Some (m !! k)) four_keys.

(** A settings file that is missing or cannot be opened or decoded. *)
Definition unusable (f : file) : Prop :=
  f = Absent ∨ ∃ e, f = Present (Raise e).

(** Inserting the entries of a list one after the other. *)
Definition add_all (entries : list (json * dump)) (self : t) : t :=
  fold_left (fun store entry => (add_history entry.1 entry.2 store).1)
    entries self.

End StoresTerms.

Module StoreExamples.

Import ConfigManager.

(** A settings file written by hand, with the theme only. *)
Definition theme_only : file :=
  Present (Ret (JObj (list_to_map [ (lit "theme", JStr (lit "dark")) ]))).

Definition numbered (n : nat) : json := JInt (Z.of_nat n).

(** A store whose history holds the entries 99, 98, ..., 0. *)
Definition full : t :=
  {| config_file := Absent; history_file := Absent;
     settings := default_settings;
     history := JArr (reverse (numbered <$> seq 0 100)) |}.

End StoreExamples.

Section FetcherTerms.

Import DownloadManager.
Context `{Interpreter}.

(** A line the loop takes a duration from: it contains the marker
    and the pattern matches. *)
Definition duration_marker (line : str) : bool :=
  Text.contains (lit "Duration:") line &&
  match Text.search duration_re line with
  | Some _ => true
  | None => false
  end.

(** A line whose duration reads as 0 seconds. *)
Definition zero_duration (line : str) : Prop :=
  Text.contains (lit "Duration:") line = true ∧
  ∃ groups, Text.search duration_re line = Some groups
            ∧ seconds groups = Ret 0.

(** A callback that only notes the value it is given. *)
Definition record : spec_float -> act (list spec_float) unit :=
  fun value => modify (fun log => log ++ [value]).

(** The values [download_video] passes to its progress callback. *)
Definition progress_log (ffmpeg_path : option str) (os : host)
    (m3u8_url output_path : str) : list spec_float :=
  (download_video ffmpeg_path os m3u8_url output_path
     (Some record) None []).1.

Definition raises {A} (class : string) (r : result A) : Prop :=
  ∃ e, r = Raise e ∧ exn_class e = class.

End FetcherTerms.

Module FetcherExamples.

Import DownloadManager.

(** A host on which the tool starts, prints [lines], exits with 0
    and leaves a file of one mebibyte. *)
Definition running (lines : list str) : host :=
  {| mkdir := Ret tt;
     popen := fun _ => Ret {| stdout := lines;
                              returncode := 0;
                              output := Some 1048576 |} |}.

Definition ten_minutes : str := lit "Duration: 00:10:00".
Definition no_time_at_all : str := lit "Duration: 00:00:00".

(** A time line as the specification writes it, and one with the
    blank that [time_re] asks for. *)
Definition five_minutes : str := lit "time=00:05:00".
Definition five_minutes_blank : str := lit "time= 00:05:00".

(** The two lines in the layout of the tool. *)
Definition banner_line : str :=
  lit "  Duration: 00:10:00.00, start: 0.000000, bitrate: 128 kb/s".
Definition status_line : str :=
  lit "size=    4608kB time=00:05:00.00 bitrate= 125.8kbits/s speed=30x".

Definition ffmpeg : option str := Some (lit "ffmpeg").
Definition manifest : str := lit "https://filecdn.plaso.com/liveclass/plaso/L1/a1/a.m3u8".
Definition destination : str := lit "downloads/Ch1.mp4".

End FetcherExamples.

(** [m] does not change the part [f] of the state. *)
Definition preserves {S X A : Type} (f : S -> X) (m : act S A) : Prop :=
  ∀ s, f (m s).1 = f s.

Section WorkerTerms.

Import BersoDownloaderApp.

(** A chapter with an empty list of record files, be it written
    out or left out ([task_data.get("recordFiles", [])]). *)
Definition chapter_without_video (task : download_task) : Prop :=
  ∃ fields, task_data task = JObj fields
            ∧ default (JArr []) (fields !! lit "recordFiles") = JArr [].

(** A chapter whose first record file has neither [location] nor
    [locationPath]. *)
Definition chapter_without_location (task : download_task) : Prop :=
  ∃ fields record others,
    task_data task = JObj fields
    ∧ fields !! lit "recordFiles" = Some (JArr (JObj record :: others))
    ∧ record !! lit "location" = None
    ∧ record !! lit "locationPath" = None.

(** A chapter whose first record file gives the location path [p]:
    [record_file.get("location") or record_file.get("locationPath")]
    is the non-empty string [p]. *)
Definition located (task : download_task) (p : str) : Prop :=
  ∃ fields record others,
    task_data task = JObj fields
    ∧ fields !! lit "recordFiles" = Some (JArr (JObj record :: others))
    ∧ or_else (default JNull (record !! lit "location"))
              (default JNull (record !! lit "locationPath")) = JStr p
    ∧ p ≠ [].

End WorkerTerms.

Module WorkerExamples.

Import BersoDownloaderApp.

(** The scenario of the specification: a chapter with one record
    file at [L1] and a chapter without any. *)
Definition located_at_L1 : gmap str json :=
  list_to_map [ (lit "location", JStr (lit "L1")) ].

Definition ch1_fields : gmap str json :=
  list_to_map [ (lit "name", JStr (lit "Ch1"));
                (lit "recordFiles", JArr [JObj located_at_L1]) ].

Definition ch2_fields : gmap str json :=
  list_to_map [ (lit "name", JStr (lit "Ch2"));
                (lit "recordFiles", JArr []) ].

Definition ch1 : download_task :=
  {| task_data := JObj ch1_fields;
     save_path := lit "downloads/A1/Ch1.mp4"; card := 0 |}.

Definition ch2 : download_task :=
  {| task_data := JObj ch2_fields;
     save_path := lit "downloads/A1/Ch2.mp4"; card := 1 |}.

Definition world : nat -> surroundings := fun _ =>
  {| os := FetcherExamples.running
             [FetcherExamples.ten_minutes; FetcherExamples.five_minutes_blank];
     now := lit "2024-05-01 10:00";
     io := ConfigManager.Dumped |}.

Definition idle : t :=
  {| config := ConfigManager.init ConfigManager.Absent ConfigManager.Absent;
     ffmpeg_path := FetcherExamples.ffmpeg;
     downloading := false; download_tasks := [];
     completed_count := 0; failed_count := 0;
     after := []; fetched := [] |}.

Definition started : t := start [ch1; ch2] idle.

Definition finished : t :=
  (start_batch_download (H := sample_interpreter) [ch1; ch2] world idle).1.

End WorkerExamples.

Section FilenamesTerms.

Import UI.

(** The name without the forbidden characters and the surrounding
    whitespace, before it is cut at 50 characters. *)
Definition cleaned (name : str) : str :=
  Text.strip (List.filter (fun c => negb (is_forbidden c)) name).

(** A value [len] accepts. *)
Definition sized (v : json) : Prop :=
  match v with
  | JStr _ | JArr _ | JObj _ => True
  | _ => False
  end.

(** The record files of a chapter, as its card reads them. *)
Definition record_files_of (fields : gmap str json) : json :=
  default (JArr []) (fields !! lit "recordFiles").

End FilenamesTerms.

Module FilenameExamples.

(** 49 letters, a blank and one more letter: 51 characters. *)
Definition long_title : str := replicate 49 97%N ++ lit " b".

Definition course : gmap str json :=
  list_to_map [ (lit "title", JStr (lit "Maths: 1/2 ")) ].

Definition settings : gmap str json :=
  list_to_map [ (lit "download_path", JStr (lit "downloads")) ].

End FilenameExamples.

Section StoresMoreTerms.

Import ConfigManager.

(** Saving settings several times in a row, whatever each write does. *)
Definition save_all (saves : list (gmap str json * dump)) (self : t) : t :=
  fold_left (fun store save => (save_settings save.1 save.2 store).1)
    saves self.

End StoresMoreTerms.

Module StoreMoreExamples.

Import ConfigManager.

(** The three values the settings page saves. *)
Definition page : gmap str json :=
  list_to_map [ (lit "download_path", JStr (lit "/x"));
                (lit "ffmpeg_path", JStr (lit "/y"));
                (lit "theme", JStr (lit "dark")) ].

(** A fresh installation: no file at all. *)
Definition fresh : t := init Absent Absent.

(** A settings file and a history file that hold a list and a dict. *)
Definition odd : t := init (Present (Ret (JArr []))) (Present (Ret (JObj ∅))).

Definition session_token : json :=
  JObj (list_to_map [ (lit "access_token", JStr (lit "12345-1-2-ab-3-x")) ]).

End StoreMoreExamples.

(** What the callbacks of [download_video] are called with. *)
Inductive event :=
  | Progress (value : spec_float)
  | Finished (success : bool) (message : str).

Section FetcherMoreTerms.

Import DownloadManager.
Context `{Interpreter}.

(** Callbacks that only note what they are called with. *)
Definition note_progress : spec_float -> act (list event) unit :=
  fun value => modify (fun log => log ++ [Progress value]).

Definition note_finished : bool * str -> act (list event) unit :=
  fun outcome => modify (fun log => log ++ [Finished outcome.1 outcome.2]).

(** One call of [download_video]: the calls of its callbacks in
    their order, and what it returns. *)
Definition trace (ffmpeg_path : option str) (os : host)
    (m3u8_url output_path : str) : list event * result bool :=
  download_video ffmpeg_path os m3u8_url output_path
    (Some note_progress) (Some note_finished) [].


(** The [try] block up to the end of the loop. *)
Definition launch_and_read {S} (ffmpeg m3u8_url output_path : str) (os : host)
    (progress_callback : option (spec_float -> act S unit)) : act S process :=
  lift (mkdir os);;
  process ← lift (popen os (command ffmpeg m3u8_url (path_str output_path)));
  read_output (stdout process) None progress_callback;;
  mret process.

(** What the end of the [try] block reports for a tool that is gone. *)
Definition verdict (process : process) : result (bool * str) :=
  match returncode process =? 0, output process with
  | true, Some st_size =>
      file_size ← Float.true_div st_size (1024 * 1024);
      Ret (true, Float.format_1f file_size ++ lit "MB")
  | _, _ => Ret (false, download_failed)
  end.

(** [finished_callback(success, message)] followed by [return success]. *)
Definition report {S} (finished_callback : option (bool * str -> act S unit))
    (outcome : bool * str) : act S bool :=
  call finished_callback outcome;;
  mret outcome.1.

(** The tool ends within [fuel] rounds of the loop: in some round
    its output is at its end and the tool has exited, and no read
    before that round stays without an answer. *)
Definition ends_within (fuel : nat) (process : tool) : Prop :=
  ∃ n, (n < fuel)%nat
       ∧ readline process n = Some []
       ∧ is_Some (poll process n)
       ∧ ∀ i, (i < n)%nat -> is_Some (readline process i).

(** The lines the loop goes through from [round] on and the exit code
    at its [break], when it comes within [fuel] rounds. *)
Fixpoint lines_read (fuel : nat) (process : tool) (round : nat)
  : option (list str * Z) :=
  match fuel with
  | O => None
  | Datatypes.S fuel' =>
      match readline process round with
      | None => None
      | Some line =>
          match line, poll process round with
          | [], Some code => Some ([], code)
          | _, _ =>
              match lines_read fuel' process (Datatypes.S round) with
              | Some (lines, code) => Some (line :: lines, code)
              | None => None
              end
          end
      end
  end.

(** The host as [download_video] observes it when the tools end
    within [fuel] rounds. A tool that does not, of which the
    properties have none, has no [process]; a launch that raises
    stands in its place. *)
Definition described (fuel : nat) (os : live_host) : host :=
  {| mkdir := live_mkdir os;
     popen := fun cmd =>
       match live_popen os cmd with
       | Ret tool =>
           match lines_read fuel tool 0 with
           | Some (lines, code) =>
               Ret {| stdout := lines; returncode := code;
                      output := written tool |}
           | None => Raise (Exn "TimeoutError" (lit "the tool has not ended"))
           end
       | Raise e => Raise e
       end |}.

(** One call of [download_video] on a tool that may not end: the
    calls of its callbacks in their order and what it returns, if it
    returns. *)
Definition trace_live (fuel : nat) (ffmpeg_path : option str) (os : live_host)
    (m3u8_url output_path : str) : option (list event * result bool) :=
  download_video_live fuel ffmpeg_path os m3u8_url output_path
    (Some note_progress) (Some note_finished) [].

End FetcherMoreTerms.

Module FetcherMoreExamples.

Import DownloadManager.

Definition disk_full : exn := Exn "OSError" (lit "No space left on device").

(** A host on which the directory cannot be created. *)
Definition read_only : host :=
  {| mkdir := Raise disk_full;
     popen := fun _ => Raise disk_full |}.

(** A tool that prints the lines of [p] and exits as [p] does. *)
Definition live (p : process) : tool :=
  {| readline := fun round => Some (nth round (stdout p) []);
     poll := fun round =>
       if (round <? length (stdout p))%nat then None
       else Some (returncode p);
     written := output p |}.

(** The host [os] with its tools round by round. *)
Definition alive (os : host) : live_host :=
  {| live_mkdir := mkdir os;
     live_popen := fun cmd =>
       match popen os cmd with
       | Ret p => Ret (live p)
       | Raise e => Raise e
       end |}.

(** A tool that prints nothing and does not exit. *)
Definition silent : tool :=
  {| readline := fun _ => None; poll := fun _ => None; written := None |}.

End FetcherMoreExamples.

Module WorkerMoreExamples.

Import BersoDownloaderApp.

(** The surroundings of the scenario, with a history file that cannot
    be written. *)
Definition unwritable : surroundings :=
  {| os := os (WorkerExamples.world 0%nat);
     now := now (WorkerExamples.world 0%nat);
     io := ConfigManager.DumpFailed FetcherMoreExamples.disk_full
             ConfigManager.Absent |}.

End WorkerMoreExamples.

Module FinderExamples.

Import DownloadManager.

(** A machine with the tool on its search path only. *)
Definition unix_with_tool : machine :=
  {| nt := false;
     path_exists := fun _ => Ret false;
     run := fun _ _ => Ret {| run_returncode := 0;
                              run_stdout := lit "/usr/bin/ffmpeg" ++ [10%N] |} |}.

(** A machine on which no command can be run. *)
Definition bare : machine :=
  {| nt := true;
     path_exists := fun _ => Ret false;
     run := fun _ _ => Raise (Exn "FileNotFoundError" (lit "where")) |}.

End FinderExamples.

Section LoginTerms.

Import BersoDownloaderApp.
Context `{Interpreter}.

(** A piece of a pattern that cannot match a quote. *)
Definition quoteless (x : Re.piece) : Prop :=
  match x with
  | Re.Lit l => quote ∉ l
  | Re.Times _ k | Re.Many k | Re.Group k => Re.member k quote = false
  | Re.End => True
  end.

(** The text of a response up to the value of its token. *)
Definition field_open : str :=
  [quote] ++ lit "access_token" ++ [quote] ++ lit ":" ++ [quote].

(** The desk with one more box. *)
Definition shown (b : box) (self : desk) : desk :=
  {| client := client self; token_store := token_store self;
     boxes := boxes self ++ [b] |}.

(** The desk with the client of a token. *)
Definition signed_in (token : str) (self : desk) : desk :=
  {| client := Some (PlasoAPIClient.init (Some token));
     token_store := token_store self; boxes := boxes self |}.

End LoginTerms.

Module LoginExamples.

Import BersoDownloaderApp.

Definition bare_token : str := lit "12345-1-2-ab-3-x".

(** A response of the login service, as the browser shows it. *)
Definition pasted : str :=
  lit "{" ++ field_open ++ bare_token ++ [quote] ++ lit ",expires:7200}".

Definition logged_out : desk :=
  {| client := None;
     token_store := ConfigManager.init_tokens ConfigManager.Absent;
     boxes := [] |}.

(** No widget work at all. *)
Definition no_widgets : json -> act desk unit := fun _ => mret tt.

End LoginExamples.

Section WorkerMoreTerms.

Import BersoDownloaderApp.

(** A job the loop body gets through: its chapter is a dict, and its
    record files are nothing at all or a list that starts with a dict. *)
Definition well_formed (task : download_task) : Prop :=
  ∃ fields,
    task_data task = JObj fields
    ∧ (truthy (default (JArr []) (fields !! lit "recordFiles")) = false
       ∨ ∃ record others,
           fields !! lit "recordFiles" = Some (JArr (JObj record :: others))).

(** The part of the application a progress report leaves alone. *)
Definition books (self : t)
  : ConfigManager.t * bool * Z * Z * list (str * str) :=
  (config self, downloading self, completed_count self, failed_count self,
   fetched self).

(** The surroundings of a job whose tools end within [fuel] rounds,
    as the worker observes them. *)
Definition described_world (fuel : nat) (tools : DownloadManager.live_host)
    (world : surroundings) : surroundings :=
  {| os := described fuel tools; now := now world; io := io world |}.

End WorkerMoreTerms.

(** * Properties *)

(** ** The remote catalog client *)

Section Client.

Import PlasoAPIClient.

Variable self : PlasoAPIClient.t.
Variable post : transport.

Lemma answer_rejected r yes no handler :
  rejected r -> try_except (answer r yes no) handler = Ret no.
Proof.
  intros [Hstatus | (body & Hbody & Hcode)]; unfold answer.
  - destruct (Z.eqb_spec (status_code r) 200) as [E | _]; [contradiction | reflexivity].
  - destruct (status_code r =? 200); [| reflexivity].
    rewrite Hbody. cbn. fold (code_of body). rewrite Hcode. reflexivity.
Qed.

Lemma answer_accepted r body yes no :
  accepted r body -> answer r yes no = yes body.
Proof.
  intros (Hstatus & Hbody & Hcode). unfold answer.
  rewrite Hstatus, Hbody. cbn. fold (code_of body). rewrite Hcode. reflexivity.
Qed.

Lemma get_course_list_unfold :
  get_course_list self post =
  try_except
    (r ← post (student_list self 30);
     answer r (fun body => Ret (default (JArr []) (body !! lit "obj"))) (JArr []))
    (fun _ => Ret (JArr [])).
Proof.
  unfold get_course_list, answer.
  destruct (post _) as [r | e]; cbn; [| reflexivity].
  destruct (status_code r =? 200); [| reflexivity].
  destruct (body_json r) as [[] | e]; reflexivity.
Qed.

Lemma get_task_list_unfold x_file_id dir_id :
  get_task_list self post x_file_id dir_id =
  try_except
    (r ← post (xfg_task self x_file_id dir_id);
     answer r (fun body => Ret (default (JArr []) (body !! lit "obj"))) (JArr []))
    (fun _ => Ret (JArr [])).
Proof.
  unfold get_task_list, answer.
  destruct (post _) as [r | e]; cbn; [| reflexivity].
  destruct (status_code r =? 200); [| reflexivity].
  destruct (body_json r) as [[] | e]; reflexivity.
Qed.

Lemma validate_token_unfold :
  validate_token self post =
  try_except
    (r ← post (student_list self 10);
     answer r (fun body => Ret (valid (default JNull (body !! lit "obj"))))
       (invalid token_rejected))
    (fun e => Ret (invalid (exn_text e))).
Proof.
  unfold validate_token, answer.
  destruct (post _) as [r | e]; cbn; [| reflexivity].
  destruct (status_code r =? 200); [| reflexivity].
  destruct (body_json r) as [[] | e]; reflexivity.
Qed.

(** A guarded request whose handler returns never raises. *)
Lemma guarded_returns request yes no (handler : exn -> json) :
  (∀ body, ∃ v, yes body = Ret v) ->
  ∃ v, try_except (r ← post request; answer r yes no)
         (fun e => Ret (handler e)) = Ret v.
Proof.
  intros Hyes. destruct (post request) as [r | e]; cbn; [| eauto].
  unfold answer. destruct (status_code r =? 200); cbn; [| eauto].
  destruct (body_json r) as [[] | e]; cbn; eauto.
  destruct (eq_zero _); cbn; eauto.
  destruct (Hyes m) as [v ->]. eauto.
Qed.

End Client.

Section ClientClaims.

Import PlasoAPIClient.

(** C7. Both listings return the empty list when the POST raises,
    when the status is not 200 and when the code of the body is not
    0; they return [obj] of the body (the empty list if it has none)
    when the status is 200 and the code is 0; and they always return,
    whatever the network does. *)
Theorem listings_empty_on_failure (self : PlasoAPIClient.t)
    (post : transport) (x_file_id dir_id : json) :
  ((∀ e, post (student_list self 30) = Raise e ->
         get_course_list self post = Ret (JArr []))
   ∧ (∀ r, post (student_list self 30) = Ret r -> rejected r ->
           get_course_list self post = Ret (JArr []))
   ∧ (∀ r body, post (student_list self 30) = Ret r -> accepted r body ->
           get_course_list self post
           = Ret (default (JArr []) (body !! lit "obj")))
   ∧ (∃ v, get_course_list self post = Ret v))
  ∧
  ((∀ e, post (xfg_task self x_file_id dir_id) = Raise e ->
         get_task_list self post x_file_id dir_id = Ret (JArr []))
   ∧ (∀ r, post (xfg_task self x_file_id dir_id) = Ret r -> rejected r ->
           get_task_list self post x_file_id dir_id = Ret (JArr []))
   ∧ (∀ r body, post (xfg_task self x_file_id dir_id) = Ret r ->
           accepted r body ->
           get_task_list self post x_file_id dir_id
           = Ret (default (JArr []) (body !! lit "obj")))
   ∧ (∃ v, get_task_list self post x_file_id dir_id = Ret v)).
Proof.
  split.
  - rewrite get_course_list_unfold. repeat split.
    + intros e ->. reflexivity.
    + intros r -> Hr. cbn. apply answer_rejected, Hr.
    + intros r body -> Hr. cbn. rewrite (answer_accepted _ _ _ _ Hr).
      reflexivity.
    + apply (guarded_returns _ _ _ _ (fun _ => JArr [])). eauto.
  - rewrite get_task_list_unfold. repeat split.
    + intros e ->. reflexivity.
    + intros r -> Hr. cbn. apply answer_rejected, Hr.
    + intros r body -> Hr. cbn. rewrite (answer_accepted _ _ _ _ Hr).
      reflexivity.
    + apply (guarded_returns _ _ _ _ (fun _ => JArr [])). eauto.
Qed.

(** C3, as amended. [validate_token] always returns: the fixed
    rejection for a response with a status other than 200 or a code
    other than 0, a rejection carrying [str(e)] when the POST raises
    [e], and the profile when the response is accepted. *)
Theorem validate_token_never_raises (self : PlasoAPIClient.t)
    (post : transport) :
  (∀ r, post (student_list self 10) = Ret r -> rejected r ->
        validate_token self post = Ret (invalid token_rejected))
  ∧ (∀ e, post (student_list self 10) = Raise e ->
          validate_token self post = Ret (invalid (exn_text e)))
  ∧ (∀ r body, post (student_list self 10) = Ret r -> accepted r body ->
          validate_token self post
          = Ret (valid (default JNull (body !! lit "obj"))))
  ∧ (∃ v, validate_token self post = Ret v).
Proof.
  rewrite validate_token_unfold. repeat split.
  - intros r -> Hr. cbn. apply answer_rejected, Hr.
  - intros e ->. reflexivity.
  - intros r body -> Hr. cbn. rewrite (answer_accepted _ _ _ _ Hr).
    reflexivity.
  - apply (guarded_returns _ _ _ _ (fun e => invalid (exn_text e))). eauto.
Qed.

End ClientClaims.

Lemma listings_empty_on_failure_witness :
  PlasoAPIClient.get_course_list ClientExamples.client ClientExamples.server
  = Ret (JArr [JStr (lit "course")])
  ∧ PlasoAPIClient.get_task_list ClientExamples.client ClientExamples.server
      (JStr (lit "A1")) (JStr (lit "D1"))
    = Ret (JArr [])
  ∧ PlasoAPIClient.get_course_list ClientExamples.client
      ClientExamples.unreachable
    = Ret (JArr []).
Proof.
  split; [| split].
  - apply (proj1 (proj2 (proj2 (proj1
             (listings_empty_on_failure ClientExamples.client
                ClientExamples.server JNull JNull))))
             {| PlasoAPIClient.status_code := 200;
                PlasoAPIClient.body_json := Ret (JObj ClientExamples.courses_body) |}
             ClientExamples.courses_body).
    + reflexivity.
    + repeat split; vm_compute; reflexivity.
  - apply (proj1 (proj2 (proj2
             (listings_empty_on_failure ClientExamples.client
                ClientExamples.server (JStr (lit "A1")) (JStr (lit "D1")))))
             {| PlasoAPIClient.status_code := 200;
                PlasoAPIClient.body_json := Ret (JObj ClientExamples.denied_body) |}).
    + reflexivity.
    + right. exists ClientExamples.denied_body. split; vm_compute; reflexivity.
  - apply (proj1 (proj1
             (listings_empty_on_failure ClientExamples.client
                ClientExamples.unreachable JNull JNull))
             ClientExamples.timed_out).
    reflexivity.
Defined.

Lemma validate_token_never_raises_witness :
  PlasoAPIClient.validate_token ClientExamples.client ClientExamples.unreachable
  = Ret (PlasoAPIClient.invalid (lit "timed out")).
Proof.
  apply (proj1 (proj2
           (validate_token_never_raises ClientExamples.client
              ClientExamples.unreachable))
           ClientExamples.timed_out).
  reflexivity.
Defined.

(** C3 as stated fails: a POST that raises is turned into a rejection,
    it is not propagated. *)
Lemma validate_token_swallows_transport_fault :
  PlasoAPIClient.validate_token ClientExamples.client ClientExamples.unreachable
  = Ret (PlasoAPIClient.invalid (lit "timed out"))
  ∧ PlasoAPIClient.validate_token ClientExamples.client ClientExamples.unreachable
    ≠ Raise ClientExamples.timed_out.
Proof.
  split; [reflexivity | discriminate].
Qed.

(** ** The settings and history stores *)

Section Stores.

Import ConfigManager.

Lemma default_settings_complete : complete default_settings.
Proof.
  eexists. split; [reflexivity |].
  repeat constructor; vm_compute; eauto.
Qed.

(** C2, as amended. Without a usable settings file [load_settings]
    returns the four defaults; with one it returns what the file
    holds, unchanged, so the four keys are all there exactly when
    the file supplies them. *)
Theorem load_settings_defaults_or_file (f : file) :
  (unusable f ->
     load_settings f = default_settings ∧ complete (load_settings f))
  ∧ (∀ loaded, f = Present (Ret loaded) ->
       load_settings f = loaded
       ∧ (complete (load_settings f) <-> complete loaded)).
Proof.
  split.
  - intros [-> | [e ->]]; (split; [reflexivity | apply default_settings_complete]).
  - intros loaded ->. split; reflexivity.
Qed.

(** The in-memory history after one [add_history]. *)
Lemma add_history_list (self : t) (items : list json) (item : json) (io : dump) :
  history self = JArr items ->
  history (add_history item io self).1 = JArr (take 100 (item :: items)).
Proof.
  intros Hh. unfold add_history, gets, mbind, act_bind, lift. rewrite Hh.
  destruct io; reflexivity.
Qed.

Lemma take_app_take {A} (n m : nat) (a b : list A) :
  (n <= m)%nat -> take n (a ++ take m b) = take n (a ++ b).
Proof.
  revert n. induction a as [| x a IH]; intros n Hn; cbn.
  - rewrite take_take. f_equal. lia.
  - destruct n as [| n]; [reflexivity |]. cbn. f_equal. apply IH. lia.
Qed.

Lemma add_all_list (entries : list (json * dump)) :
  ∀ (self : t) (items : list json),
    history self = JArr items -> (length items <= 100)%nat ->
    history (add_all entries self) = JArr (take 100 (reverse entries.*1 ++ items)).
Proof.
  induction entries as [| [item io] entries IH]; intros self items Hh Hlen.
  - cbn. rewrite Hh, take_ge by lia. reflexivity.
  - change (add_all ((item, io) :: entries) self)
      with (add_all entries (add_history item io self).1).
    rewrite (IH _ (take 100 (item :: items))).
    + rewrite take_app_take by lia. rewrite fmap_cons, reverse_cons.
      rewrite <- app_assoc. reflexivity.
    + apply add_history_list, Hh.
    + rewrite length_take. lia.
Qed.

(** C5. On a history of 100 entries one [add_history] leaves 100
    entries: the new one at index 0, then the first 99 of the old
    ones in their order, each one place further down; the old last
    one is gone. And 101 insertions into the empty history leave
    100 entries, the newest first and the oldest one evicted. *)
Theorem add_history_keeps_newest_100 :
  (∀ (self : t) (items : list json) (item : json) (io : dump),
      history self = JArr items -> length items = 100%nat ->
      ∃ kept, history (add_history item io self).1 = JArr kept
              ∧ length kept = 100%nat
              ∧ kept !! 0%nat = Some item
              ∧ (∀ i, (i < 99)%nat -> kept !! S i = items !! i)
              ∧ kept = item :: removelast items)
  ∧ (∀ (entries : list (json * dump)) (oldest : json * dump),
      length entries = 100%nat ->
      ∃ kept, history (add_all (oldest :: entries) (init Absent Absent))
              = JArr kept
              ∧ length kept = 100%nat
              ∧ kept !! 0%nat = fst <$> last entries
              ∧ kept = reverse entries.*1).
Proof.
  split.
  - intros self items item io Hh Hlen.
    exists (item :: take 99 items).
    rewrite (add_history_list _ _ _ _ Hh). cbn.
    repeat split.
    + rewrite length_take. lia.
    + intros i Hi. cbn. apply lookup_take_lt. lia.
    + f_equal. rewrite removelast_firstn_len. f_equal. lia.
  - intros entries oldest Hlen.
    exists (reverse entries.*1).
    assert (Hrev : length (reverse entries.*1) = 100%nat)
      by (rewrite length_reverse, length_fmap; exact Hlen).
    rewrite (add_all_list _ _ []) by (reflexivity || (cbn; lia)).
    repeat split.
    + rewrite app_nil_r, fmap_cons, reverse_cons.
      rewrite take_app_length' by (symmetry; exact Hrev). reflexivity.
    + exact Hrev.
    + rewrite <- head_lookup, head_reverse, fmap_last.
      reflexivity.
Qed.

End Stores.

Lemma load_settings_defaults_or_file_witness :
  ConfigManager.load_settings ConfigManager.Absent
  = ConfigManager.default_settings
  ∧ complete (ConfigManager.load_settings ConfigManager.Absent).
Proof.
  apply (proj1 (load_settings_defaults_or_file ConfigManager.Absent)).
  left. reflexivity.
Defined.

(** C2 as stated fails: a settings file with the theme only is
    returned as it is, without the three other keys. *)
Lemma load_settings_partial_file_incomplete :
  ¬ complete (ConfigManager.load_settings StoreExamples.theme_only).
Proof.
  intros (m & Heq & Hkeys). cbn in Heq. injection Heq as <-.
  apply Forall_cons_1 in Hkeys as [[v Hv] _].
  vm_compute in Hv. discriminate.
Qed.

Lemma add_history_keeps_newest_100_witness :
  ∃ kept,
    ConfigManager.history
      (ConfigManager.add_history (StoreExamples.numbered 100)
         ConfigManager.Dumped StoreExamples.full).1 = JArr kept
    ∧ length kept = 100%nat
    ∧ kept !! 0%nat = Some (StoreExamples.numbered 100)
    ∧ (∀ i, (i < 99)%nat ->
         kept !! S i = reverse (StoreExamples.numbered <$> seq 0 100) !! i)
    ∧ kept = StoreExamples.numbered 100
             :: removelast (reverse (StoreExamples.numbered <$> seq 0 100)).
Proof.
  apply (proj1 add_history_keeps_newest_100 StoreExamples.full
           (reverse (StoreExamples.numbered <$> seq 0 100))
           (StoreExamples.numbered 100) ConfigManager.Dumped).
  - reflexivity.
  - reflexivity.
Defined.

(** ** The media fetcher: progress *)

Section Fetcher.

Import DownloadManager.
Context `{Interpreter}.

Lemma read_duration_no_marker line duration :
  duration_marker line = false -> read_duration line duration = Ret duration.
Proof.
  unfold duration_marker, read_duration.
  destruct (Text.contains _ line); [| reflexivity].
  destruct (Text.search _ line); [discriminate | reflexivity].
Qed.

Lemma read_duration_zero line duration :
  zero_duration line -> read_duration line duration = Ret (Some 0).
Proof.
  intros (Hin & groups & Hsearch & Hsec). unfold read_duration.
  rewrite Hin, Hsearch, Hsec. reflexivity.
Qed.

Lemma report_progress_unknown {S} line duration
    (cb : option (spec_float -> act S unit)) :
  known duration = false -> report_progress line duration cb = mret tt.
Proof.
  intros Hd. unfold report_progress. rewrite Hd, andb_false_r. reflexivity.
Qed.

(** As long as no duration is known, lines that bring none, or bring
    0, pass without a trace. *)
Lemma read_output_silent {S} (pre rest : list str) duration
    (cb : option (spec_float -> act S unit)) (s : S) :
  known duration = false ->
  Forall (fun line => duration_marker line = false ∨ zero_duration line) pre ->
  ∃ duration', known duration' = false
               ∧ read_output (pre ++ rest) duration cb s
                 = read_output rest duration' cb s.
Proof.
  intros Hd Hpre. revert duration Hd.
  induction Hpre as [| line pre Hline _ IH]; intros duration Hd.
  - exists duration. split; [exact Hd | reflexivity].
  - assert (∃ d, known d = false ∧ read_duration line duration = Ret d)
      as (d & Hd' & Hread).
    { destruct Hline as [Hno | Hzero].
      - exists duration. split; [exact Hd | apply read_duration_no_marker, Hno].
      - exists (Some 0). split; [reflexivity | apply read_duration_zero, Hzero]. }
    destruct (IH d Hd') as (duration' & Hk & Heq).
    exists duration'. split; [exact Hk |].
    rewrite <- Heq. cbn [app read_output].
    unfold mbind, act_bind, lift. rewrite Hread.
    rewrite (report_progress_unknown _ _ _ Hd'). reflexivity.
Qed.

Lemma read_output_prefix {S} (pre rest : list str) duration
    (cb : option (spec_float -> act S unit)) (s : S) :
  known duration = false ->
  Forall (fun line => duration_marker line = false) pre ->
  read_output (pre ++ rest) duration cb s = read_output rest duration cb s.
Proof.
  intros Hd Hpre. induction Hpre as [| line pre Hline _ IH]; [reflexivity |].
  cbn [app read_output]. unfold mbind, act_bind, lift.
  rewrite (read_duration_no_marker _ _ Hline).
  rewrite (report_progress_unknown _ _ _ Hd). exact IH.
Qed.

Lemma int_raises s e : Text.int s = Raise e -> exn_class e = "ValueError"%string.
Proof.
  unfold Text.int. destruct (Text.too_many_digits s).
  - intros [= <-]. reflexivity.
  - destruct s; [intros [= <-]; reflexivity |].
    destruct (Text.digits_value _ _); intros [= <-]. reflexivity.
Qed.

Lemma seconds_raises groups e :
  seconds groups = Raise e -> exn_class e = "ValueError"%string.
Proof.
  unfold seconds.
  destruct groups as [| h [| m [| s [|]]]]; try (intros [= <-]; reflexivity).
  destruct (Text.int h) eqn:Hh; cbn; [| intros [= <-]; eapply int_raises, Hh].
  destruct (Text.int m) eqn:Hm; cbn; [| intros [= <-]; eapply int_raises, Hm].
  destruct (Text.int s) eqn:Hs; cbn; [| intros [= <-]; eapply int_raises, Hs].
  discriminate.
Qed.

Lemma read_duration_raises line duration e :
  read_duration line duration = Raise e -> exn_class e = "ValueError"%string.
Proof.
  unfold read_duration. destruct (Text.contains _ line); [| discriminate].
  destruct (Text.search _ line) as [groups |]; [| discriminate].
  destruct (seconds groups) eqn:Hs; cbn; [discriminate |].
  intros [= <-]. eapply seconds_raises, Hs.
Qed.

Lemma true_div_raises a b e :
  b ≠ 0 -> Float.true_div a b = Raise e -> exn_class e = "OverflowError"%string.
Proof.
  intros Hb. unfold Float.true_div.
  destruct (Z.eqb_spec b 0) as [-> | _]; [contradiction |].
  destruct (SFdiv _ _ _ _); intros [= <-]. reflexivity.
Qed.

Lemma report_progress_record line duration log :
  ¬ raises "ZeroDivisionError"
      (report_progress line duration (Some record) log).2.
Proof.
  intros (e & Hr & Hclass). unfold report_progress in Hr.
  destruct (Text.contains _ line); cbn [andb] in Hr; [| discriminate].
  destruct duration as [d |]; cbn [known] in Hr; [| discriminate].
  destruct (Z.eqb_spec d 0) as [-> | Hd]; cbn [negb] in Hr; [discriminate |].
  destruct (Text.search _ line) as [groups |]; [| discriminate].
  unfold mbind, act_bind, lift, default in Hr.
  cbn [from_option] in Hr. unfold id in Hr.
  destruct (seconds groups) as [current | e'] eqn:Hs.
  - destruct (Float.true_div current d) as [ratio | e'] eqn:Hq.
    + unfold call, record, modify in Hr. cbn [snd] in Hr. discriminate.
    + cbn [snd] in Hr. injection Hr as <-. rewrite (true_div_raises _ _ _ Hd Hq) in Hclass.
      discriminate.
  - cbn [snd] in Hr. injection Hr as <-.
    rewrite (seconds_raises _ _ Hs) in Hclass. discriminate.
Qed.

Lemma read_output_record lines :
  ∀ duration log,
    ¬ raises "ZeroDivisionError"
        (read_output lines duration (Some record) log).2.
Proof.
  induction lines as [| line lines IH]; intros duration log.
  - intros (e & Hr & _). discriminate.
  - cbn [read_output]. unfold mbind at 1, act_bind at 1, lift at 1.
    destruct (read_duration line duration) as [d | e'] eqn:Hread.
    + unfold mbind at 1, act_bind at 1.
      pose proof (report_progress_record line d log) as Hstep.
      destruct (report_progress line d (Some record) log) as [log' [[] | e']].
      * apply IH.
      * exact Hstep.
    + intros (e & [= <-] & Hclass).
      rewrite (read_duration_raises _ _ _ Hread) in Hclass. discriminate.
Qed.

(** What reaches the progress callback of [download_video] is what
    the loop reports on the output of the launched tool. *)
Lemma progress_log_cases ffmpeg_path os m3u8_url output_path :
  progress_log ffmpeg_path os m3u8_url output_path = []
  ∨ ∃ ffmpeg p,
      ffmpeg_path = Some ffmpeg
      ∧ popen os (command ffmpeg m3u8_url (path_str output_path)) = Ret p
      ∧ progress_log ffmpeg_path os m3u8_url output_path
        = (read_output (stdout p) None (Some record) []).1.
Proof.
  unfold progress_log, download_video.
  destruct ffmpeg_path as [[| c ffmpeg] |]; [left; reflexivity | | left; reflexivity].
  unfold try_except_act, mbind, act_bind, lift, call, mret, act_ret.
  destruct (mkdir os) as [[] | e]; [| left; reflexivity].
  destruct (popen os _) as [p | e] eqn:Hp; [| left; reflexivity].
  right. exists (c :: ffmpeg), p. split; [reflexivity |]. split; [exact Hp |].
  destruct (read_output (stdout p) None (Some record) []) as [log [[] | e]];
    [| reflexivity].
  destruct (returncode p =? 0); [| reflexivity].
  destruct (output p) as [st_size |]; [| reflexivity].
  destruct (Float.true_div st_size _); reflexivity.
Qed.

(** C6. Lines that come before any duration line leave no trace:
    whatever the callback and the state, the loop on [pre ++ rest]
    does what it does on [rest] alone; and when no line of the tool
    is a duration line, the progress callback of [download_video] is
    not called at all. *)
Theorem no_progress_before_duration :
  (∀ {S} (pre rest : list str) (cb : option (spec_float -> act S unit)) (s : S),
      Forall (fun line => duration_marker line = false) pre ->
      read_output (pre ++ rest) None cb s = read_output rest None cb s)
  ∧ (∀ ffmpeg_path os m3u8_url output_path,
      (∀ cmd p, popen os cmd = Ret p ->
                Forall (fun line => duration_marker line = false) (stdout p)) ->
      progress_log ffmpeg_path os m3u8_url output_path = []).
Proof.
  split.
  - intros S pre rest cb s Hpre. apply read_output_prefix; [reflexivity | exact Hpre].
  - intros ffmpeg_path os m3u8_url output_path Hos.
    destruct (progress_log_cases ffmpeg_path os m3u8_url output_path)
      as [Hnil | (ffmpeg & p & _ & Hp & ->)]; [exact Hnil |].
    rewrite <- (app_nil_r (stdout p)).
    rewrite read_output_prefix; [reflexivity | reflexivity | eapply Hos, Hp].
Qed.

(** C9. A duration of 0 is treated as no duration: the line is not
    searched for a time and nothing is divided. The loop never
    raises [ZeroDivisionError]; and when every duration line of the
    tool reads as 0, the loop returns without a call of the
    callback, and so does [download_video]. *)
Theorem progress_never_divides_by_zero :
  (∀ {S} (line : str) (cb : option (spec_float -> act S unit)),
      report_progress line (Some 0) cb = mret tt
      ∧ report_progress line (Some 0) cb = report_progress line None cb)
  ∧ (∀ lines duration log,
      ¬ raises "ZeroDivisionError"
          (read_output lines duration (Some record) log).2)
  ∧ (∀ {S} (lines : list str) (cb : option (spec_float -> act S unit)) (s : S),
      Forall (fun line => duration_marker line = false ∨ zero_duration line)
        lines ->
      read_output lines None cb s = (s, Ret tt))
  ∧ (∀ ffmpeg_path os m3u8_url output_path,
      (∀ cmd p, popen os cmd = Ret p ->
                Forall (fun line => duration_marker line = false
                                    ∨ zero_duration line) (stdout p)) ->
      progress_log ffmpeg_path os m3u8_url output_path = []).
Proof.
  assert (Hsilent : ∀ {S} (lines : list str)
                      (cb : option (spec_float -> act S unit)) (s : S),
             Forall (fun line => duration_marker line = false
                                 ∨ zero_duration line) lines ->
             read_output lines None cb s = (s, Ret tt)).
  { intros S lines cb s Hlines.
    destruct (read_output_silent lines [] None cb s eq_refl Hlines)
      as (d & _ & Heq).
    rewrite app_nil_r in Heq. rewrite Heq. reflexivity. }
  split; [| split; [| split]].
  - intros S line cb.
    rewrite !report_progress_unknown by reflexivity. split; reflexivity.
  - intros lines duration log. apply read_output_record.
  - exact Hsilent.
  - intros ffmpeg_path os m3u8_url output_path Hos.
    destruct (progress_log_cases ffmpeg_path os m3u8_url output_path)
      as [Hnil | (ffmpeg & p & _ & Hp & ->)]; [exact Hnil |].
    rewrite Hsilent; [reflexivity | eapply Hos, Hp].
Qed.

End Fetcher.

Section FetcherExample.

Import DownloadManager FetcherExamples.
Context `{Interpreter}.

(** C1. On the lines [Duration: 00:10:00] and [time=00:05:00] the
    progress callback of [download_video] is not called: [time_re]
    wants a blank after [time=], so the time line does not match and
    the value 50.0 is never computed. *)
Theorem spec_example_reports_nothing :
  progress_log ffmpeg (running [ten_minutes; five_minutes])
    manifest destination = [].
Proof. vm_compute. reflexivity. Qed.

(** With the blank in the time line, the same computation gives 50.0. *)
Lemma blank_example_reports_half :
  progress_log ffmpeg (running [ten_minutes; five_minutes_blank])
    manifest destination = [Float.of_int 50].
Proof. vm_compute. reflexivity. Qed.

(** Lines as the tool prints them: nothing is reported either. *)
Lemma tool_output_reports_nothing :
  progress_log ffmpeg (running [banner_line; status_line])
    manifest destination = [].
Proof. vm_compute. reflexivity. Qed.

End FetcherExample.

Lemma no_progress_before_duration_witness :
  (DownloadManager.read_output (H := sample_interpreter)
     ([FetcherExamples.five_minutes_blank]
      ++ [FetcherExamples.ten_minutes; FetcherExamples.five_minutes_blank])
     None (Some record) []).1
  = [Float.of_int 50].
Proof.
  rewrite (proj1 (no_progress_before_duration (H := sample_interpreter))
             (list spec_float)
             [FetcherExamples.five_minutes_blank]
             [FetcherExamples.ten_minutes; FetcherExamples.five_minutes_blank]
             (Some record) []).
  - vm_compute. reflexivity.
  - constructor; [reflexivity | constructor].
Defined.

Lemma progress_never_divides_by_zero_witness :
  DownloadManager.read_output (H := sample_interpreter)
    [FetcherExamples.no_time_at_all; FetcherExamples.five_minutes_blank]
    None (Some record) []
  = ([], Ret tt).
Proof.
  apply (proj1 (proj2 (proj2
           (progress_never_divides_by_zero (H := sample_interpreter))))
           (list spec_float)).
  constructor; [| constructor; [| constructor]].
  - right. split; [reflexivity |].
    exists [lit "00"; lit "00"; lit "00"]. split; reflexivity.
  - left. reflexivity.
Defined.

(** ** What an action leaves alone *)

Create HintDb frame.

Section Frame.

Context {S X : Type} (f : S -> X).

Lemma preserves_ret {A} (a : A) : preserves f (mret a).
Proof. intros s. reflexivity. Qed.

Lemma preserves_lift {A} (r : result A) : preserves f (lift r).
Proof. intros s. reflexivity. Qed.

Lemma preserves_gets {A} (g : S -> A) : preserves f (gets g).
Proof. intros s. reflexivity. Qed.

Lemma preserves_modify (g : S -> S) :
  (∀ s, f (g s) = f s) -> preserves f (modify g).
Proof. intros Hg s. apply Hg. Qed.

Lemma preserves_bind {A B} (m : act S A) (k : A -> act S B) :
  preserves f m -> (∀ a, preserves f (k a)) -> preserves f (m ≫= k).
Proof.
  intros Hm Hk s. unfold mbind, act_bind. specialize (Hm s).
  destruct (m s) as [s' [a | e]]; cbn in *.
  - rewrite Hk. exact Hm.
  - exact Hm.
Qed.

Lemma preserves_try {A} (body : act S A) (handler : exn -> act S A) :
  preserves f body -> (∀ e, preserves f (handler e)) ->
  preserves f (try_except_act body handler).
Proof.
  intros Hm Hh s. unfold try_except_act. specialize (Hm s).
  destruct (body s) as [s' [a | e]]; cbn in *.
  - exact Hm.
  - rewrite Hh. exact Hm.
Qed.

Lemma preserves_call {A} (callback : option (A -> act S unit)) (a : A) :
  (∀ cb, callback = Some cb -> preserves f (cb a)) ->
  preserves f (DownloadManager.call callback a).
Proof.
  intros Hcb. destruct callback as [cb |]; cbn.
  - apply Hcb. reflexivity.
  - apply preserves_ret.
Qed.

#[local] Hint Resolve preserves_ret preserves_lift preserves_gets
  preserves_bind preserves_try preserves_call : frame.

Context `{Interpreter}.

Lemma preserves_report_progress line duration
    (progress_callback : option (spec_float -> act S unit)) :
  (∀ cb v, progress_callback = Some cb -> preserves f (cb v)) ->
  preserves f (DownloadManager.report_progress line duration progress_callback).
Proof.
  intros Hcb. unfold DownloadManager.report_progress.
  destruct (_ && _); [| auto with frame].
  destruct (Text.search _ _); eauto 8 with frame.
Qed.

Lemma preserves_read_output lines :
  ∀ duration (progress_callback : option (spec_float -> act S unit)),
    (∀ cb v, progress_callback = Some cb -> preserves f (cb v)) ->
    preserves f (DownloadManager.read_output lines duration progress_callback).
Proof.
  induction lines as [| line lines IH]; intros duration progress_callback Hcb.
  - apply preserves_ret.
  - cbn [DownloadManager.read_output].
    eauto 8 using preserves_report_progress with frame.
Qed.

(** [download_video] changes the state through its callbacks only. *)
Lemma preserves_download_video ffmpeg_path os m3u8_url output_path
    (progress_callback : option (spec_float -> act S unit))
    (finished_callback : option (bool * str -> act S unit)) :
  (∀ cb v, progress_callback = Some cb -> preserves f (cb v)) ->
  (∀ cb v, finished_callback = Some cb -> preserves f (cb v)) ->
  preserves f (DownloadManager.download_video ffmpeg_path os m3u8_url
               output_path progress_callback finished_callback).
Proof.
  intros Hp Hf.
  assert (Hend : ∀ v (b : bool),
             preserves (A := bool) f
               (DownloadManager.call finished_callback v;; mret b))
    by eauto 8 with frame.
  unfold DownloadManager.download_video.
  destruct ffmpeg_path as [[| c ffmpeg] |]; try apply Hend.
  apply preserves_try; [| intros e; apply Hend].
  apply preserves_bind; [auto with frame | intros _].
  apply preserves_bind; [auto with frame | intros p].
  apply preserves_bind; [apply preserves_read_output, Hp | intros _].
  destruct (_ =? 0); [| apply Hend].
  destruct (DownloadManager.output p); [| apply Hend].
  eauto 8 with frame.
Qed.

End Frame.

#[global] Hint Resolve preserves_ret preserves_lift preserves_gets
  preserves_modify preserves_bind preserves_try preserves_call : frame.

(** ** The batch worker *)

Section Worker.

Import BersoDownloaderApp.
Context `{Interpreter}.

Lemma preserves_root_after {X} (f : t -> X) (e : gui_event) :
  (∀ q self, f (set_after q self) = f self) -> preserves f (root_after e).
Proof. intros Hf. apply preserves_modify. intros self. apply Hf. Qed.

Lemma progress_callback_fetched task value :
  preserves fetched (progress_callback task value).
Proof. apply preserves_root_after. reflexivity. Qed.

Lemma on_config_fetched {A} (m : act ConfigManager.t A) :
  preserves fetched (on_config m).
Proof.
  intros self. unfold on_config. destruct (m (config self)). reflexivity.
Qed.

Lemma finished_callback_fetched task world total outcome :
  preserves fetched (finished_callback task world total outcome).
Proof.
  destruct outcome as [[] message]; unfold finished_callback;
    eauto 12 using preserves_root_after, on_config_fetched with frame.
Qed.

(** The two early [continue]s of the loop body. *)
Lemma download_one_unplayable task world total self :
  chapter_without_video task ∨ chapter_without_location task ->
  ∃ reason,
    download_one task world total self
    = (set_failed_count (failed_count self + 1)
         (set_after (after self
                     ++ [UpdateStatus (card task) parsing "warning";
                         UpdateStatus (card task) reason "error";
                         ResetProgress]) self),
       Ret tt).
Proof.
  intros [(fields & Hdata & Hfiles)
         | (fields & record & others & Hdata & Hfiles & Hloc & Hpath)].
  - exists no_video. unfold download_one, mbind, act_bind, root_after, modify, lift.
    rewrite Hdata. cbn [get]. rewrite Hfiles. cbn.
    rewrite <- !app_assoc. reflexivity.
  - exists no_address. unfold download_one, mbind, act_bind, root_after, modify, lift.
    rewrite Hdata. cbn [get]. rewrite Hfiles. cbn. rewrite Hloc. cbn.
    rewrite Hpath. cbn. rewrite <- !app_assoc. reflexivity.
Qed.

(** C4. A job whose chapter has no record file, or whose first
    record file has neither location field, ends with the failure
    count one higher, nothing else counted, the history as it was
    and no call of [download_video]; the loop goes on with the
    next job. *)
Theorem unplayable_job_fails_without_fetch
    (task : download_task) (rest : list download_task)
    (world : nat -> surroundings) (position : nat) (total : Z) (self : t) :
  chapter_without_video task ∨ chapter_without_location task ->
  downloading self = true ->
  ∃ self',
    download_one task (world position) total self = (self', Ret tt)
    ∧ failed_count self' = failed_count self + 1
    ∧ completed_count self' = completed_count self
    ∧ fetched self' = fetched self
    ∧ config self' = config self
    ∧ downloading self' = true
    ∧ for_each_task (task :: rest) world position total self
      = for_each_task rest world (S position) total self'.
Proof.
  intros Htask Hrun.
  destruct (download_one_unplayable task (world position) total self Htask)
    as (reason & Hone).
  eexists. split; [exact Hone |].
  repeat split; try reflexivity; try exact Hrun.
  cbn [for_each_task]. unfold mbind at 1, act_bind at 1, gets at 1.
  rewrite Hrun. cbn [negb]. unfold mbind, act_bind. rewrite Hone. reflexivity.
Qed.

(** A batch of such jobs only: each one is counted as failed and
    [download_video] is not called once. *)
Lemma unplayable_batch (tasks : list download_task)
    (world : nat -> surroundings) (total : Z) :
  ∀ (position : nat) (self : t),
    Forall (fun task => chapter_without_video task
                        ∨ chapter_without_location task) tasks ->
    downloading self = true ->
    ∃ self',
      for_each_task tasks world position total self = (self', Ret tt)
      ∧ failed_count self' = failed_count self + Z.of_nat (length tasks)
      ∧ completed_count self' = completed_count self
      ∧ fetched self' = fetched self.
Proof.
  induction tasks as [| task tasks IH]; intros position self Htasks Hrun.
  - exists self. cbn. repeat split. lia.
  - apply Forall_cons_1 in Htasks as [Htask Htasks].
    destruct (download_one_unplayable task (world position) total self Htask)
      as (reason & Hone).
    match type of Hone with
    | _ = (?s1, _) =>
        destruct (IH (S position) s1 Htasks Hrun)
          as (self' & Hloop & Hfailed & Hcompleted & Hfetched)
    end.
    exists self'. split; [| split; [| split]].
    + cbn [for_each_task]. unfold mbind at 1, act_bind at 1, gets at 1.
      rewrite Hrun. cbn [negb]. unfold mbind, act_bind. rewrite Hone.
      exact Hloop.
    + rewrite Hfailed. cbn. lia.
    + rewrite Hcompleted. reflexivity.
    + rewrite Hfetched. reflexivity.
Qed.

(** The call of [download_video] is noted, and nothing it does
    touches the notes. *)
Lemma fetch_logged task world total url self :
  fetched
    ((modify (fun self =>
                set_fetched (fetched self ++ [(url, save_path task)]) self);;
      ffmpeg ← gets ffmpeg_path;
      DownloadManager.download_video ffmpeg (os world) url (save_path task)
        (Some (progress_callback task))
        (Some (finished_callback task world total));;
      mret tt) self).1
  = fetched self ++ [(url, save_path task)].
Proof.
  unfold mbind at 1, act_bind at 1, modify at 1.
  unfold mbind at 1, act_bind at 1, gets at 1.
  rewrite preserves_bind.
  - reflexivity.
  - apply preserves_download_video.
    + intros cb v [= <-]. apply progress_callback_fetched.
    + intros cb v [= <-]. apply finished_callback_fetched.
  - intros _. apply preserves_ret.
Qed.

(** C8. For a job whose location path is [p], the loop body is one
    call of [download_video] on the CDN template around [p] as the
    stream URL and on the destination of the job, after the card is
    told that the job is being parsed; the call is noted with these
    two arguments; and of what the host can launch, the job depends
    only on the command that names this URL after [-i]. *)
Theorem stream_url_is_cdn_template
    (task : download_task) (p : str) (world : surroundings) (total : Z)
    (self : t) :
  located task p ->
  let url := lit "https://filecdn.plaso.com/liveclass/plaso/" ++ p
             ++ lit "/a1/a.m3u8" in
  fetched (download_one task world total self).1
  = fetched self ++ [ (url, save_path task) ]
  ∧ download_one task world total self
    = (DownloadManager.download_video (ffmpeg_path self) (os world)
         url (save_path task)
         (Some (progress_callback task))
         (Some (finished_callback task world total));;
       mret tt)
        (set_fetched (fetched self ++ [ (url, save_path task) ])
           (set_after
              (after self ++ [UpdateStatus (card task) parsing "warning"])
              self))
  ∧ ∀ (c : N) (ffmpeg : str) (os' : DownloadManager.host),
      ffmpeg_path self = Some (c :: ffmpeg) ->
      DownloadManager.mkdir os' = DownloadManager.mkdir (os world) ->
      DownloadManager.popen os'
        (DownloadManager.command (c :: ffmpeg) url (path_str (save_path task)))
      = DownloadManager.popen (os world)
          (DownloadManager.command (c :: ffmpeg) url
             (path_str (save_path task))) ->
      download_one task {| os := os'; now := now world; io := io world |}
        total self
      = download_one task world total self.
Proof.
  intros (fields & record & others & Hdata & Hfiles & Hloc & Hp) url.
  assert (Hcall : ∀ world,
    download_one task world total self
    = (DownloadManager.download_video (ffmpeg_path self) (os world)
         url (save_path task)
         (Some (progress_callback task))
         (Some (finished_callback task world total));;
       mret tt)
        (set_fetched (fetched self ++ [ (url, save_path task) ])
           (set_after
              (after self ++ [UpdateStatus (card task) parsing "warning"])
              self))).
  { intros w. unfold download_one.
    unfold mbind at 1, act_bind at 1, root_after at 1, modify at 1.
    unfold mbind at 1, act_bind at 1, lift at 1.
    rewrite Hdata. cbn [get]. rewrite Hfiles.
    cbn [default from_option id truthy negb].
    unfold mbind at 1, act_bind at 1, lift at 1. cbn [first].
    unfold mbind at 1, act_bind at 1, lift at 1. cbn [get].
    unfold or_else in Hloc.
    set (location := default JNull (record !! lit "location")) in *.
    unfold mbind at 1, act_bind at 1.
    destruct p as [| c p]; [contradiction |].
    destruct (truthy location).
    - cbn [mret act_ret]. rewrite Hloc. cbn [truthy negb]. reflexivity.
    - unfold lift. rewrite Hloc. cbn [truthy negb]. reflexivity. }
  split; [| split].
  - rewrite Hcall. rewrite preserves_bind.
    + reflexivity.
    + apply preserves_download_video.
      * intros cb v [= <-]. apply progress_callback_fetched.
      * intros cb v [= <-]. apply finished_callback_fetched.
    + intros _. apply preserves_ret.
  - apply Hcall.
  - intros c ffmpeg os' Hffmpeg Hmkdir Hpopen. rewrite !Hcall.
    change (finished_callback task {| os := os'; now := now world;
                                      io := io world |} total)
      with (finished_callback task world total).
    cbn [os]. rewrite Hffmpeg.
    unfold DownloadManager.download_video, try_except_act.
    unfold mbind at 2 9, act_bind at 2 9, lift at 1 5.
    rewrite Hmkdir.
    destruct (DownloadManager.mkdir (os world)) as [[] | e]; [| reflexivity].
    unfold mbind at 2 8, act_bind at 2 8, lift at 1 4.
    rewrite Hpopen. reflexivity.
Qed.

End Worker.

(** The scenario end to end: one success, one failure, one call of
    [download_video], one history entry. *)
Lemma scenario_counts :
  BersoDownloaderApp.completed_count WorkerExamples.finished = 1
  ∧ BersoDownloaderApp.failed_count WorkerExamples.finished = 1
  ∧ length (BersoDownloaderApp.fetched WorkerExamples.finished) = 1%nat
  ∧ ∃ entry, ConfigManager.history
               (BersoDownloaderApp.config WorkerExamples.finished)
             = JArr [JObj entry]
             ∧ entry !! lit "title" = Some (JStr (lit "Ch1")).
Proof.
  split; [vm_compute; reflexivity |].
  split; [vm_compute; reflexivity |].
  split; [vm_compute; reflexivity |].
  eexists. split; vm_compute; reflexivity.
Qed.

Lemma unplayable_job_fails_without_fetch_witness :
  ∃ self',
    BersoDownloaderApp.download_one (H := sample_interpreter)
      WorkerExamples.ch2 (WorkerExamples.world 1%nat) 2 WorkerExamples.started
    = (self', Ret tt)
    ∧ BersoDownloaderApp.failed_count self'
      = BersoDownloaderApp.failed_count WorkerExamples.started + 1
    ∧ BersoDownloaderApp.completed_count self'
      = BersoDownloaderApp.completed_count WorkerExamples.started
    ∧ BersoDownloaderApp.fetched self'
      = BersoDownloaderApp.fetched WorkerExamples.started
    ∧ BersoDownloaderApp.config self'
      = BersoDownloaderApp.config WorkerExamples.started
    ∧ BersoDownloaderApp.downloading self' = true
    ∧ BersoDownloaderApp.for_each_task (H := sample_interpreter)
        [WorkerExamples.ch2; WorkerExamples.ch1] WorkerExamples.world 1%nat 2
        WorkerExamples.started
      = BersoDownloaderApp.for_each_task (H := sample_interpreter)
          [WorkerExamples.ch1] WorkerExamples.world 2%nat 2 self'.
Proof.
  apply (unplayable_job_fails_without_fetch (H := sample_interpreter)
           WorkerExamples.ch2 [WorkerExamples.ch1] WorkerExamples.world 1%nat 2
           WorkerExamples.started).
  - left. exists WorkerExamples.ch2_fields. split; reflexivity.
  - reflexivity.
Defined.

Lemma stream_url_is_cdn_template_witness :
  BersoDownloaderApp.fetched
    (BersoDownloaderApp.download_one (H := sample_interpreter)
       WorkerExamples.ch1 (WorkerExamples.world 0%nat) 2
       WorkerExamples.started).1
  = [ (lit "https://filecdn.plaso.com/liveclass/plaso/L1/a1/a.m3u8",
       lit "downloads/A1/Ch1.mp4") ]
  ∧ BersoDownloaderApp.download_one (H := sample_interpreter)
      WorkerExamples.ch1 (WorkerExamples.world 0%nat) 2
      WorkerExamples.started
    = (DownloadManager.download_video (H := sample_interpreter)
         FetcherExamples.ffmpeg
         (BersoDownloaderApp.os (WorkerExamples.world 0%nat))
         (lit "https://filecdn.plaso.com/liveclass/plaso/L1/a1/a.m3u8")
         (lit "downloads/A1/Ch1.mp4")
         (Some (BersoDownloaderApp.progress_callback WorkerExamples.ch1))
         (Some (BersoDownloaderApp.finished_callback WorkerExamples.ch1
                  (WorkerExamples.world 0%nat) 2));;
       mret tt)
        (BersoDownloaderApp.set_fetched
           [ (lit "https://filecdn.plaso.com/liveclass/plaso/L1/a1/a.m3u8",
              lit "downloads/A1/Ch1.mp4") ]
           (BersoDownloaderApp.set_after
              [BersoDownloaderApp.UpdateStatus 0 BersoDownloaderApp.parsing
                 "warning"]
              WorkerExamples.started))
  ∧ ∀ (c : N) (ffmpeg : str) (os' : DownloadManager.host),
      FetcherExamples.ffmpeg = Some (c :: ffmpeg) ->
      DownloadManager.mkdir os' = Ret tt ->
      DownloadManager.popen os'
        (DownloadManager.command (c :: ffmpeg)
           (lit "https://filecdn.plaso.com/liveclass/plaso/L1/a1/a.m3u8")
           (lit "downloads/A1/Ch1.mp4"))
      = DownloadManager.popen
          (BersoDownloaderApp.os (WorkerExamples.world 0%nat))
          (DownloadManager.command (c :: ffmpeg)
             (lit "https://filecdn.plaso.com/liveclass/plaso/L1/a1/a.m3u8")
             (lit "downloads/A1/Ch1.mp4")) ->
      BersoDownloaderApp.download_one (H := sample_interpreter)
        WorkerExamples.ch1
        {| BersoDownloaderApp.os := os';
           BersoDownloaderApp.now :=
             BersoDownloaderApp.now (WorkerExamples.world 0%nat);
           BersoDownloaderApp.io :=
             BersoDownloaderApp.io (WorkerExamples.world 0%nat) |}
        2 WorkerExamples.started
      = BersoDownloaderApp.download_one (H := sample_interpreter)
          WorkerExamples.ch1 (WorkerExamples.world 0%nat) 2
          WorkerExamples.started.
Proof.
  apply (stream_url_is_cdn_template (H := sample_interpreter)
           WorkerExamples.ch1 (lit "L1") (WorkerExamples.world 0%nat) 2
           WorkerExamples.started).
  exists WorkerExamples.ch1_fields, WorkerExamples.located_at_L1, [].
  split; [reflexivity |]. split; [reflexivity |].
  split; [reflexivity | discriminate].
Defined.

(** ** File names *)

Section Filenames.

Import UI.

Lemma lstrip_suffix (s : str) :
  ∃ blanks, s = blanks ++ Text.lstrip s.
Proof.
  induction s as [| c s [blanks IH]]; cbn.
  - exists []. reflexivity.
  - destruct (Text.is_space c).
    + exists (c :: blanks). cbn. f_equal. exact IH.
    + exists []. reflexivity.
Qed.

Lemma lstrip_head (s : str) (c : N) :
  head (Text.lstrip s) = Some c -> Text.is_space c = false.
Proof.
  induction s as [| d s IH]; cbn; [discriminate |].
  destruct (Text.is_space d) eqn:Hd; [exact IH |].
  cbn. intros [= <-]. exact Hd.
Qed.

Lemma rstrip_prefix (s : str) :
  ∃ blanks, s = Text.rstrip s ++ blanks.
Proof.
  unfold Text.rstrip.
  destruct (lstrip_suffix (reverse s)) as [blanks Hs].
  exists (reverse blanks).
  rewrite <- reverse_app, <- Hs, reverse_involutive. reflexivity.
Qed.

Lemma rstrip_last (s : str) (c : N) :
  last (Text.rstrip s) = Some c -> Text.is_space c = false.
Proof.
  unfold Text.rstrip. rewrite last_reverse. apply lstrip_head.
Qed.

Lemma strip_head (s : str) (c : N) :
  head (Text.strip s) = Some c -> Text.is_space c = false.
Proof.
  unfold Text.strip. intros Hhead.
  destruct (rstrip_prefix (Text.lstrip s)) as [blanks Hs].
  apply (lstrip_head s). rewrite Hs.
  destruct (Text.rstrip (Text.lstrip s)); [discriminate | exact Hhead].
Qed.

Lemma strip_keeps (P : N -> Prop) (s : str) :
  Forall P s -> Forall P (Text.strip s).
Proof.
  intros Hs. unfold Text.strip.
  destruct (lstrip_suffix s) as [b1 H1].
  destruct (rstrip_prefix (Text.lstrip s)) as [b2 H2].
  rewrite H1, H2 in Hs.
  apply Forall_app in Hs as [_ Hs]. apply Forall_app in Hs as [Hs _].
  exact Hs.
Qed.

Lemma cleaned_allowed (name : str) :
  Forall (fun c => is_forbidden c = false) (cleaned name).
Proof.
  apply strip_keeps. apply List.Forall_forall. intros c Hc.
  apply List.filter_In in Hc as [_ Hc]. apply negb_true_iff, Hc.
Qed.

Lemma last_take_cut {A} (l : list A) (n : nat) :
  (S n <= length l)%nat -> last (take (S n) l) = l !! n.
Proof.
  revert l. induction n as [| n IH]; intros [| a l] Hlen;
    cbn in Hlen; try lia.
  - destruct l; reflexivity.
  - destruct l as [| b l]; [cbn in Hlen; lia |].
    change (take (S (S n)) (a :: b :: l)) with (a :: take (S n) (b :: l)).
    change ((a :: b :: l) !! S n) with ((b :: l) !! n).
    rewrite <- (IH (b :: l)) by (cbn in *; lia).
    cbn. destruct (take n l); reflexivity.
Qed.

Context `{Interpreter}.

(** C10, as amended. [safe_filename] returns at most 50 characters,
    none of them forbidden, the first one not a whitespace; the last
    one is a whitespace exactly when the name without the forbidden
    characters and the surrounding whitespace has more than 50
    characters and a whitespace as its 50th, the cut coming after the
    stripping. A card whose chapter has record files with a length
    offers as destination that form of the name of the chapter (of
    its label when it has no name) with [.mp4], under the course
    directory; with record files that have no length the card is not
    made. The course directory is that form of the title of the
    course under the download directory. *)
Theorem safe_filename_sanitizes :
  (∀ name : str,
      (length (safe_filename name) <= 50)%nat
      ∧ Forall (fun c => is_forbidden c = false) (safe_filename name)
      ∧ (∀ c, head (safe_filename name) = Some c -> Text.is_space c = false)
      ∧ ((length (cleaned name) <= 50)%nat ->
         ∀ c, last (safe_filename name) = Some c -> Text.is_space c = false)
      ∧ (∀ c, last (safe_filename name) = Some c ∧ Text.is_space c = true
              <-> (50 < length (cleaned name))%nat
                  ∧ cleaned name !! 49%nat = Some c
                  ∧ Text.is_space c = true))
  ∧ (∀ (fields : gmap str json) (index : Z) (default_path : str),
      (sized (record_files_of fields) ->
       (∀ name, fields !! lit "name" = Some (JStr name) ->
          card_path_var (JObj fields) index default_path
          = Ret (path_join default_path (safe_filename name ++ lit ".mp4")))
       ∧ (fields !! lit "name" = None ->
          card_path_var (JObj fields) index default_path
          = Ret (path_join default_path
                   (safe_filename
                      (chapter_label ++ Text.str_of_int (index + 1))
                    ++ lit ".mp4"))))
      ∧ (¬ sized (record_files_of fields) ->
         ∃ e, card_path_var (JObj fields) index default_path = Raise e
              ∧ exn_class e = "TypeError"%string))
  ∧ (∀ (settings course : gmap str json) (download_path title : str),
      settings !! lit "download_path" = Some (JStr download_path) ->
      course !! lit "title" = Some (JStr title) ->
      course_path (JObj settings) (JObj course)
      = Ret (path_join (path_str download_path) (safe_filename title))).
Proof.
  split; [| split].
  - intros name. unfold safe_filename. fold (cleaned name).
    assert (Hshort : (length (cleaned name) <= 50)%nat ->
                     ∀ c, last (take 50 (cleaned name)) = Some c ->
                          Text.is_space c = false).
    { intros Hlen c. rewrite take_ge by exact Hlen. apply rstrip_last. }
    split; [rewrite length_take; lia |].
    split; [apply Forall_take, cleaned_allowed |].
    split.
    + intros c Hc. apply (strip_head (List.filter (fun c => negb (is_forbidden c)) name)).
      fold (cleaned name). destruct (cleaned name); [discriminate | exact Hc].
    + split; [exact Hshort |].
      intros c. split.
      * intros [Hlast Hspace].
        destruct (Nat.le_gt_cases (length (cleaned name)) 50) as [Hlen | Hlen].
        { rewrite (Hshort Hlen c Hlast) in Hspace. discriminate. }
        split; [exact Hlen |]. split; [| exact Hspace].
        rewrite <- Hlast. symmetry. apply last_take_cut. lia.
      * intros (Hlen & Hcut & Hspace). split; [| exact Hspace].
        rewrite <- Hcut. apply last_take_cut. lia.
  - intros fields index default_path. unfold record_files_of. split.
    + intros Hsized. split.
      * intros name Hname. unfold card_path_var. cbn [get]. rewrite Hname.
        cbn [mbind result_bind default from_option id].
        destruct (default (JArr []) (fields !! lit "recordFiles"));
          try contradiction; reflexivity.
      * intros Hname. unfold card_path_var. cbn [get]. rewrite Hname.
        cbn [mbind result_bind default from_option id].
        destruct (default (JArr []) (fields !! lit "recordFiles"));
          try contradiction; reflexivity.
    + intros Hsized. unfold card_path_var. cbn [get].
      cbn [mbind result_bind].
      destruct (default (JArr []) (fields !! lit "recordFiles"));
        try (eexists; split; reflexivity); exfalso; apply Hsized; exact I.
  - intros settings course download_path title Hpath Htitle.
    unfold course_path. cbn [get]. rewrite Hpath, Htitle. reflexivity.
Qed.

End Filenames.

(** C10 as stated fails: cutting at 50 characters comes after the
    stripping and can end the name on a blank. *)
Lemma safe_filename_trailing_blank :
  last (UI.safe_filename FilenameExamples.long_title) = Some 32%N
  ∧ Text.is_space 32 = true.
Proof. split; vm_compute; reflexivity. Qed.

Lemma safe_filename_sanitizes_witness :
  UI.course_path (H := sample_interpreter)
    (JObj FilenameExamples.settings) (JObj FilenameExamples.course)
  = Ret (lit "downloads/Maths 12")
  ∧ Text.is_space 50 = false
  ∧ UI.card_path_var (H := sample_interpreter)
      (JObj WorkerExamples.ch1_fields) 0 (lit "downloads/A1")
    = Ret (lit "downloads/A1/Ch1.mp4")
  ∧ (last (UI.safe_filename FilenameExamples.long_title) = Some 32%N
     ∧ Text.is_space 32 = true).
Proof.
  split; [| split; [| split]].
  - apply (proj2 (proj2 (safe_filename_sanitizes (H := sample_interpreter)))
             FilenameExamples.settings FilenameExamples.course
             (lit "downloads") (lit "Maths: 1/2 ")).
    + reflexivity.
    + reflexivity.
  - apply (proj1 (proj2 (proj2 (proj2
             (proj1 (safe_filename_sanitizes (H := sample_interpreter))
                (lit "Maths: 1/2 ")))))).
    + vm_compute. lia.
    + reflexivity.
  - apply (proj1 (proj1 (proj1 (proj2
             (safe_filename_sanitizes (H := sample_interpreter)))
             WorkerExamples.ch1_fields 0 (lit "downloads/A1")) I)
             (lit "Ch1")).
    reflexivity.
  - apply (proj2 (proj2 (proj2 (proj2 (proj2
             (proj1 (safe_filename_sanitizes (H := sample_interpreter))
                FilenameExamples.long_title)))) 32%N)).
    split; [vm_compute; lia |]. split; reflexivity.
Defined.

(** * Further properties *)

(** ** Settings, token and history on disk *)

Section StoresMore.

Import ConfigManager.

Lemma save_settings_dict (self : t) (current new : gmap str json) (io : dump) :
  settings self = JObj current ->
  settings (save_settings new io self).1 = JObj (new ∪ current)
  ∧ history (save_settings new io self).1 = history self
  ∧ history_file (save_settings new io self).1 = history_file self.
Proof.
  intros Hs. unfold save_settings, gets, mbind, act_bind, lift. rewrite Hs.
  destruct io; repeat split; reflexivity.
Qed.

(** X1. After a save that reaches the disk, the file reloads to the
    settings in memory; in them every saved key has its new value and
    every other key the value it had. *)
Theorem save_settings_round_trip (self : t) (current new : gmap str json) :
  settings self = JObj current ->
  load_settings (config_file (save_settings new Dumped self).1)
  = settings (save_settings new Dumped self).1
  ∧ settings (save_settings new Dumped self).1 = JObj (new ∪ current)
  ∧ (∀ k v, new !! k = Some v -> (new ∪ current) !! k = Some v)
  ∧ (∀ k, new !! k = None -> (new ∪ current) !! k = current !! k).
Proof.
  intros Hs. split; [| split; [| split]].
  - unfold save_settings, gets, mbind, act_bind, lift. rewrite Hs. reflexivity.
  - apply (save_settings_dict self current new Dumped Hs).
  - intros k v Hk. apply lookup_union_Some_l, Hk.
  - intros k Hk. apply lookup_union_r, Hk.
Qed.

Lemma complete_union (current new : gmap str json) :
  complete (JObj current) -> complete (JObj (new ∪ current)).
Proof.
  intros (m & [= <-] & Hkeys). exists (new ∪ current). split; [reflexivity |].
  eapply Forall_impl; [exact Hkeys |]. intros k [v Hv]. cbn.
  destruct (new !! k) as [w |] eqn:Hw.
  - exists w. apply lookup_union_Some_l, Hw.
  - exists v. rewrite lookup_union_r; assumption.
Qed.

(** X2. Settings that have the four keys keep them through any
    number of saves, whatever is saved and whatever the writes do;
    and a save that reaches the disk leaves a file with the four keys. *)
Theorem save_settings_keeps_complete :
  (∀ (saves : list (gmap str json * dump)) (self : t),
      complete (settings self) -> complete (settings (save_all saves self)))
  ∧ (∀ (new : gmap str json) (self : t),
      complete (settings self) ->
      complete (load_settings (config_file (save_settings new Dumped self).1))).
Proof.
  assert (Hone : ∀ new io self,
             complete (settings self) ->
             complete (settings (save_settings new io self).1)).
  { intros new io self (m & Hs & Hkeys).
    rewrite (proj1 (save_settings_dict self m new io Hs)).
    apply complete_union. exists m. split; [reflexivity | exact Hkeys]. }
  split.
  - intros saves. induction saves as [| [new io] saves IH]; intros self Hc.
    + exact Hc.
    + apply IH, Hone, Hc.
  - intros new self Hc. destruct Hc as (m & Hs & Hkeys).
    replace (load_settings (config_file (save_settings new Dumped self).1))
      with (settings (save_settings new Dumped self).1)
      by (unfold save_settings, gets, mbind, act_bind, lift; rewrite Hs;
          reflexivity).
    apply (Hone new Dumped self). exists m. split; [exact Hs | exact Hkeys].
Qed.

(** X3. On settings that are not a dict (a settings file that holds
    a list, a string, a number) [save_settings] raises
    [AttributeError] and changes nothing, neither in memory nor on
    disk. *)
Theorem save_settings_needs_dict (self : t) (new : gmap str json) (io : dump) :
  (∀ m, settings self ≠ JObj m) ->
  ∃ e, save_settings new io self = (self, Raise e)
       ∧ exn_class e = "AttributeError"%string.
Proof.
  intros Hs. unfold save_settings, gets, mbind, act_bind, lift, update.
  destruct (settings self) as [| | | | | | m];
    try (eexists; split; reflexivity).
  destruct (Hs m eq_refl).
Qed.

(** After [save_token] the token in memory is the one given,
    whatever the write does; when the write reaches the disk, a
    restart loads the same token from the file. *)
Lemma save_token_round_trip (self : tokens) (token_data : json) :
  (∀ io, token (save_token token_data io self).1 = token_data)
  ∧ init_tokens (token_file (save_token token_data Dumped self).1)
    = (save_token token_data Dumped self).1.
Proof.
  split; [intros []; reflexivity | reflexivity].
Qed.

(** X4. [clear_token] always empties the token in memory. When there
    is no token file it does not touch the disk and cannot fail;
    when the file is removed, a restart finds no token. *)
Theorem clear_token_forgets (self : tokens) (rm : removal) :
  token (clear_token rm self).1 = JObj ∅
  ∧ (token_file self = Absent ∨ rm = Removed ->
     clear_token rm self = (init_tokens Absent, Ret tt)).
Proof.
  unfold clear_token. split.
  - destruct (token_file self); [reflexivity | destruct rm; reflexivity].
  - intros [Hf | ->].
    + rewrite Hf. reflexivity.
    + destruct (token_file self); reflexivity.
Qed.

(** X5. After an [add_history] that reaches the disk, the file
    reloads to the history in memory, which starts with the new entry
    and has one entry more than before, up to 100. *)
Theorem add_history_persists (self : t) (items : list json) (item : json) :
  history self = JArr items ->
  ∃ kept,
    history (add_history item Dumped self).1 = JArr kept
    ∧ load_history (history_file (add_history item Dumped self).1) = JArr kept
    ∧ kept !! 0%nat = Some item
    ∧ length kept = Nat.min (S (length items)) 100.
Proof.
  intros Hh. exists (take 100 (item :: items)).
  unfold add_history, gets, mbind, act_bind, lift. rewrite Hh. cbn.
  repeat split. rewrite length_take. lia.
Qed.

(** X6. On a history that is not a list (a history file that holds a
    dict, a string, a number) [add_history] raises [AttributeError]
    and changes nothing, neither in memory nor on disk. *)
Theorem add_history_needs_list (self : t) (item : json) (io : dump) :
  (∀ items, history self ≠ JArr items) ->
  ∃ e, add_history item io self = (self, Raise e)
       ∧ exn_class e = "AttributeError"%string.
Proof.
  intros Hh. unfold add_history, gets, mbind, act_bind, lift, insert0.
  destruct (history self) as [| | | | | items |];
    try (eexists; split; reflexivity).
  destruct (Hh items eq_refl).
Qed.

End StoresMore.

Lemma save_settings_round_trip_witness :
  ConfigManager.settings
    (ConfigManager.save_settings StoreMoreExamples.page ConfigManager.Dumped
       StoreMoreExamples.fresh).1
  = JObj (list_to_map
            [ (lit "download_path", JStr (lit "/x"));
              (lit "ffmpeg_path", JStr (lit "/y"));
              (lit "theme", JStr (lit "dark"));
              (lit "max_concurrent", JInt 1) ]).
Proof.
  rewrite (proj1 (proj2 (save_settings_round_trip StoreMoreExamples.fresh
                           (list_to_map
                              [ (lit "download_path", JStr (lit "downloads"));
                                (lit "ffmpeg_path", JStr []);
                                (lit "theme", JStr (lit "light"));
                                (lit "max_concurrent", JInt 1) ])
                           StoreMoreExamples.page eq_refl))).
  vm_compute. reflexivity.
Defined.

Lemma save_settings_keeps_complete_witness :
  complete (ConfigManager.settings
              (save_all [ (StoreMoreExamples.page, ConfigManager.Dumped) ]
                 StoreMoreExamples.fresh)).
Proof.
  apply (proj1 save_settings_keeps_complete).
  apply default_settings_complete.
Defined.

Lemma save_settings_needs_dict_witness :
  ∃ e, ConfigManager.save_settings StoreMoreExamples.page ConfigManager.Dumped
         StoreMoreExamples.odd
       = (StoreMoreExamples.odd, Raise e)
       ∧ exn_class e = "AttributeError"%string.
Proof.
  apply save_settings_needs_dict. intros m. discriminate.
Defined.

Lemma clear_token_forgets_witness :
  ConfigManager.clear_token ConfigManager.Removed
    (ConfigManager.init_tokens
       (ConfigManager.Present (Ret StoreMoreExamples.session_token)))
  = (ConfigManager.init_tokens ConfigManager.Absent, Ret tt).
Proof.
  apply (proj2 (clear_token_forgets _ ConfigManager.Removed)).
  right. reflexivity.
Defined.

Lemma add_history_persists_witness :
  ∃ kept,
    ConfigManager.history
      (ConfigManager.add_history (JInt 7) ConfigManager.Dumped
         StoreMoreExamples.fresh).1 = JArr kept
    ∧ ConfigManager.load_history
        (ConfigManager.history_file
           (ConfigManager.add_history (JInt 7) ConfigManager.Dumped
              StoreMoreExamples.fresh).1) = JArr kept
    ∧ kept !! 0%nat = Some (JInt 7)
    ∧ length kept = Nat.min 1 100.
Proof.
  apply (add_history_persists StoreMoreExamples.fresh [] (JInt 7)).
  reflexivity.
Defined.

Lemma add_history_needs_list_witness :
  ∃ e, ConfigManager.add_history (JInt 7) ConfigManager.Dumped
         StoreMoreExamples.odd
       = (StoreMoreExamples.odd, Raise e)
       ∧ exn_class e = "AttributeError"%string.
Proof.
  apply add_history_needs_list. intros items. discriminate.
Defined.

(** ** The media fetcher: completion *)

Section FetcherMore.

Import DownloadManager.
Context `{Interpreter}.

(** [download_video] in three steps: launch and read, decide, report;
    a report that raises inside the [try] block is followed by a
    second, failed one. *)
Lemma download_video_unfold {S} (c : N) (ffmpeg : str) (os : host)
    (m3u8_url output_path : str)
    (progress_callback : option (spec_float -> act S unit))
    (finished_callback : option (bool * str -> act S unit)) (s : S) :
  download_video (Some (c :: ffmpeg)) os m3u8_url output_path
    progress_callback finished_callback s
  = match launch_and_read (c :: ffmpeg) m3u8_url output_path os
            progress_callback s with
    | (s1, Raise e) => report finished_callback (false, exn_text e) s1
    | (s1, Ret process) =>
        match verdict process with
        | Raise e => report finished_callback (false, exn_text e) s1
        | Ret outcome =>
            try_except_act (report finished_callback outcome)
              (fun e => report finished_callback (false, exn_text e)) s1
        end
    end.
Proof.
  unfold download_video, launch_and_read, verdict, report, try_except_act,
    mbind, act_bind, lift.
  destruct (mkdir os) as [[] | e]; [| reflexivity].
  destruct (popen os _) as [p | e]; [| reflexivity].
  destruct (read_output (stdout p) None progress_callback s) as [s1 [[] | e]];
    [| reflexivity].
  cbn [mret act_ret].
  destruct (returncode p =? 0); [| reflexivity].
  destruct (output p) as [st_size |]; [| reflexivity].
  unfold result_bind. destruct (Float.true_div st_size _); reflexivity.
Qed.

Lemma report_noted (outcome : bool * str) (log : list event) :
  report (Some note_finished) outcome log
  = (log ++ [Finished outcome.1 outcome.2], Ret outcome.1).
Proof. reflexivity. Qed.

(** With the noting callbacks, the three steps in one line. *)
Lemma trace_unfold (c : N) (ffmpeg : str) (os : host)
    (m3u8_url output_path : str) :
  trace (Some (c :: ffmpeg)) os m3u8_url output_path
  = let (log, launched) :=
      launch_and_read (c :: ffmpeg) m3u8_url output_path os
        (Some note_progress) [] in
    let outcome :=
      match launched with
      | Raise e => (false, exn_text e)
      | Ret process =>
          match verdict process with
          | Raise e => (false, exn_text e)
          | Ret outcome => outcome
          end
      end in
    (log ++ [Finished outcome.1 outcome.2], Ret outcome.1).
Proof.
  unfold trace. rewrite download_video_unfold.
  destruct (launch_and_read _ _ _ _ _ _) as [log [p | e]]; [| reflexivity].
  destruct (verdict p) as [outcome | e]; reflexivity.
Qed.

Lemma report_progress_notes line duration log :
  ∃ values,
    (report_progress line duration (Some note_progress) log).1
    = log ++ (Progress <$> values).
Proof.
  unfold report_progress.
  destruct (_ && _); [| exists []; cbn; rewrite app_nil_r; reflexivity].
  destruct (Text.search _ _) as [groups |];
    [| exists []; cbn; rewrite app_nil_r; reflexivity].
  unfold mbind, act_bind, lift.
  destruct (seconds groups) as [current | e];
    [| exists []; cbn; rewrite app_nil_r; reflexivity].
  destruct (Float.true_div _ _) as [ratio | e];
    [| exists []; cbn; rewrite app_nil_r; reflexivity].
  exists [Float.mul ratio (Float.of_int 100)]. reflexivity.
Qed.

Lemma read_output_notes lines :
  ∀ duration log,
    ∃ values,
      (read_output lines duration (Some note_progress) log).1
      = log ++ (Progress <$> values).
Proof.
  induction lines as [| line lines IH]; intros duration log.
  - exists []. cbn. rewrite app_nil_r. reflexivity.
  - cbn [read_output]. unfold mbind at 1, act_bind at 1, lift at 1.
    destruct (read_duration line duration) as [d | e];
      [| exists []; cbn; rewrite app_nil_r; reflexivity].
    unfold mbind at 1, act_bind at 1.
    destruct (report_progress_notes line d log) as [v1 H1].
    destruct (report_progress line d (Some note_progress) log)
      as [log1 [[] | e]]; cbn [fst] in H1; subst log1.
    + destruct (IH d (log ++ (Progress <$> v1))) as [v2 H2].
      exists (v1 ++ v2). rewrite H2, fmap_app, app_assoc. reflexivity.
    + exists v1. reflexivity.
Qed.

Lemma launch_and_read_notes (ffmpeg m3u8_url output_path : str) (os : host) :
  ∃ values,
    (launch_and_read ffmpeg m3u8_url output_path os (Some note_progress) []).1
    = Progress <$> values.
Proof.
  unfold launch_and_read, mbind, act_bind, lift.
  destruct (mkdir os) as [[] | e]; [| exists []; reflexivity].
  destruct (popen os _) as [p | e]; [| exists []; reflexivity].
  destruct (read_output_notes (stdout p) None []) as [values Hv].
  exists values.
  destruct (read_output (stdout p) None (Some note_progress) [])
    as [log [[] | e]]; exact Hv.
Qed.

(** On tools that end: the progress callback some number of times,
    then the completion callback once, with the flag that is
    returned. *)
Lemma trace_reports_once (ffmpeg_path : option str) (os : host)
    (m3u8_url output_path : str) :
  ∃ values success message,
    trace ffmpeg_path os m3u8_url output_path
    = ((Progress <$> values) ++ [Finished success message], Ret success).
Proof.
  destruct ffmpeg_path as [[| c ffmpeg] |].
  - exists [], false, no_ffmpeg. reflexivity.
  - rewrite trace_unfold.
    destruct (launch_and_read_notes (c :: ffmpeg) m3u8_url output_path os)
      as [values Hv].
    destruct (launch_and_read _ _ _ _ _ _) as [log launched].
    cbn [fst] in Hv. subst log. eexists values, _, _. reflexivity.
  - exists [], false, no_ffmpeg. reflexivity.
Qed.

(** The loop on a tool that ends is the loop on its lines. *)
Lemma lines_read_ends (process : tool) :
  ∀ (n fuel round : nat),
    (n < fuel)%nat ->
    readline process (round + n) = Some [] ->
    is_Some (poll process (round + n)) ->
    (∀ i, (i < n)%nat -> is_Some (readline process (round + i))) ->
    ∃ lines code, lines_read fuel process round = Some (lines, code).
Proof.
  induction n as [| n IH]; intros fuel round Hfuel Hend Hpoll Hbefore.
  - destruct fuel as [| fuel]; [lia |]. cbn [lines_read].
    rewrite Nat.add_0_r in Hend, Hpoll. rewrite Hend.
    destruct Hpoll as [code ->]. eexists _, _. reflexivity.
  - destruct fuel as [| fuel]; [lia |]. cbn [lines_read].
    destruct (Hbefore 0%nat ltac:(lia)) as [line Hline].
    rewrite Nat.add_0_r in Hline. rewrite Hline.
    destruct (IH fuel (Datatypes.S round) ltac:(lia)) as (lines & code & Hrest).
    + rewrite <- Hend. f_equal. lia.
    + replace (Datatypes.S round + n)%nat with (round + Datatypes.S n)%nat
        by lia. exact Hpoll.
    + intros i Hi.
      replace (Datatypes.S round + i)%nat with (round + Datatypes.S i)%nat
        by lia. apply Hbefore. lia.
    + rewrite Hrest.
      destruct line; [destruct (poll process round) |]; eexists _, _;
        reflexivity.
Qed.

Lemma ends_within_lines (fuel : nat) (process : tool) :
  ends_within fuel process ->
  ∃ lines code, lines_read fuel process 0 = Some (lines, code).
Proof.
  intros (n & Hfuel & Hend & Hpoll & Hbefore).
  apply (lines_read_ends process n fuel 0); assumption.
Qed.

Lemma read_live_lines {S} (process : tool)
    (progress_callback : option (spec_float -> act S unit)) :
  ∀ (fuel round : nat) (lines : list str) (code : Z) (duration : option Z)
    (s : S),
    lines_read fuel process round = Some (lines, code) ->
    read_live fuel process round duration progress_callback s
    = Some (match read_output lines duration progress_callback s with
            | (s', Ret _) => (s', Ret code)
            | (s', Raise e) => (s', Raise e)
            end).
Proof.
  induction fuel as [| fuel IH]; intros round lines code duration s;
    cbn [lines_read read_live]; [discriminate |].
  destruct (readline process round) as [line |]; [| discriminate].
  assert (Hstep :
    match lines_read fuel process (Datatypes.S round) with
    | Some (lines', code') => Some (line :: lines', code')
    | None => None
    end = Some (lines, code) ->
    (duration' ← returned
       (duration' ← lift (read_duration line duration);
        report_progress line duration' progress_callback;;
        mret duration');
     read_live fuel process (Datatypes.S round) duration' progress_callback) s
    = Some (match read_output lines duration progress_callback s with
            | (s', Ret _) => (s', Ret code)
            | (s', Raise e) => (s', Raise e)
            end)).
  { destruct (lines_read fuel process (Datatypes.S round))
      as [[lines' code'] |] eqn:Hrest; [| discriminate].
    intros [= <- <-]. cbn [read_output].
    unfold mbind at 1, pending_bind at 1, returned at 1.
    unfold mbind at 1 3, act_bind at 1 3, lift at 1 2.
    destruct (read_duration line duration) as [d | e]; [| reflexivity].
    unfold mbind at 1 2, act_bind at 1 2.
    destruct (report_progress line d progress_callback s) as [s1 [[] | e]];
      [| reflexivity].
    cbn [mret act_ret]. apply IH, Hrest. }
  destruct line as [| c line]; [| exact Hstep].
  destruct (poll process round) as [code' |]; [| exact Hstep].
  intros [= <- <-]. reflexivity.
Qed.

(** On a host whose tools end within the rounds, [download_video]
    returns, and does what it does on the lines of the tools. *)
Lemma download_video_live_described {S} (fuel : nat)
    (ffmpeg_path : option str) (os : live_host) (m3u8_url output_path : str)
    (progress_callback : option (spec_float -> act S unit))
    (finished_callback : option (bool * str -> act S unit)) (s : S) :
  (∀ cmd process, live_popen os cmd = Ret process ->
                  ends_within fuel process) ->
  download_video_live fuel ffmpeg_path os m3u8_url output_path
    progress_callback finished_callback s
  = Some (download_video ffmpeg_path (described fuel os) m3u8_url output_path
            progress_callback finished_callback s).
Proof.
  intros Hends. destruct ffmpeg_path as [[| c ffmpeg] |]; try reflexivity.
  rewrite download_video_unfold.
  unfold download_video_live, try_except_pending, launch_and_read.
  unfold mbind, pending_bind, act_bind, returned, lift.
  cbn [described mkdir popen].
  destruct (live_mkdir os) as [[] | e]; [| reflexivity].
  destruct (live_popen os _) as [process | e] eqn:Hpopen; [| reflexivity].
  destruct (ends_within_lines fuel process (Hends _ _ Hpopen))
    as (lines & code & Hlines).
  rewrite Hlines. cbn [stdout].
  rewrite (read_live_lines process progress_callback fuel 0 lines code None s
             Hlines).
  destruct (read_output lines None progress_callback s) as [s1 [[] | e]];
    [| reflexivity].
  cbn [mret act_ret]. unfold verdict, report, try_except_act.
  cbn [returncode output].
  destruct (code =? 0);
    [destruct (written process) as [st_size |];
     [unfold mbind, result_bind, act_bind, lift;
      destruct (Float.true_div st_size _) |] |];
    unfold mbind, act_bind;
    repeat match goal with
           | |- context [call finished_callback ?a ?s] =>
               destruct (call finished_callback a s) as [? [[] | ?]];
               cbn [mret act_ret fst snd]
           end;
    reflexivity.
Qed.

Lemma read_live_notes (process : tool) :
  ∀ (fuel round : nat) (duration : option Z) (log log' : list event)
    (r : result Z),
    read_live fuel process round duration (Some note_progress) log
    = Some (log', r) ->
    ∃ values, log' = log ++ (Progress <$> values).
Proof.
  induction fuel as [| fuel IH]; intros round duration log log' r;
    cbn [read_live]; [discriminate |].
  destruct (readline process round) as [line |]; [| discriminate].
  assert (Hstep :
    (duration' ← returned
       (duration' ← lift (read_duration line duration);
        report_progress line duration' (Some note_progress);;
        mret duration');
     read_live fuel process (Datatypes.S round) duration'
       (Some note_progress)) log
    = Some (log', r) ->
    ∃ values, log' = log ++ (Progress <$> values)).
  { unfold mbind at 1, pending_bind at 1, returned at 1.
    unfold mbind at 1, act_bind at 1, lift at 1.
    destruct (read_duration line duration) as [d | e].
    - unfold mbind at 1, act_bind at 1.
      destruct (report_progress_notes line d log) as [v1 H1].
      destruct (report_progress line d (Some note_progress) log)
        as [log1 [[] | e]]; cbn [fst] in H1; subst log1.
      + cbn [mret act_ret]. intros Hrest.
        destruct (IH _ _ _ _ _ Hrest) as [v2 ->].
        exists (v1 ++ v2). rewrite fmap_app, app_assoc. reflexivity.
      + intros [= <- _]. exists v1. reflexivity.
    - intros [= <- _]. exists []. cbn. rewrite app_nil_r. reflexivity. }
  destruct line as [| c line]; [| exact Hstep].
  destruct (poll process round) as [code |]; [| exact Hstep].
  intros [= <- _]. exists []. cbn. rewrite app_nil_r. reflexivity.
Qed.

(** X7. On a host whose tools end (the output of a launched tool
    comes to its end and the tool exits), [download_video] with
    callbacks that return does return: it has called the progress
    callback some number of times, then the completion callback
    exactly once, and returns the success flag it has just reported.
    On any host, a call that returns has done just that. A tool that
    prints nothing and does not exit keeps the call from returning,
    however long one waits. *)
Theorem download_video_reports_once (fuel : nat) (ffmpeg_path : option str)
    (os : live_host) (m3u8_url output_path : str) :
  ((∀ cmd process, live_popen os cmd = Ret process ->
                   ends_within fuel process) ->
   ∃ values success message,
     trace_live fuel ffmpeg_path os m3u8_url output_path
     = Some ((Progress <$> values) ++ [Finished success message],
             Ret success))
  ∧ (∀ log r,
       trace_live fuel ffmpeg_path os m3u8_url output_path = Some (log, r) ->
       ∃ values success message,
         log = (Progress <$> values) ++ [Finished success message]
         ∧ r = Ret success)
  ∧ (∀ c ffmpeg process,
       ffmpeg_path = Some (c :: ffmpeg) ->
       live_mkdir os = Ret tt ->
       live_popen os (command (c :: ffmpeg) m3u8_url (path_str output_path))
       = Ret process ->
       readline process 0 = None ->
       trace_live fuel ffmpeg_path os m3u8_url output_path = None).
Proof.
  assert (Hsafe : ∀ log r,
    trace_live fuel ffmpeg_path os m3u8_url output_path = Some (log, r) ->
    ∃ values success message,
      log = (Progress <$> values) ++ [Finished success message]
      ∧ r = Ret success).
  { unfold trace_live, download_video_live.
    destruct ffmpeg_path as [[| c ffmpeg] |].
    - intros log r [= <- <-]. exists [], false, no_ffmpeg. split; reflexivity.
    - unfold try_except_pending.
      unfold mbind at 1, pending_bind at 1, returned at 1, lift at 1.
      destruct (live_mkdir os) as [[] | e].
      2: { intros log r [= <- <-]. exists [], false, (exn_text e).
           split; reflexivity. }
      unfold mbind at 1, pending_bind at 1, returned at 1, lift at 1.
      destruct (live_popen os _) as [process | e].
      2: { intros log r [= <- <-]. exists [], false, (exn_text e).
           split; reflexivity. }
      unfold mbind at 1, pending_bind at 1.
      destruct (read_live fuel process 0 None (Some note_progress) [])
        as [[log1 [code | e]] |] eqn:Hread; [| | discriminate].
      + destruct (read_live_notes _ _ _ _ _ _ _ Hread) as [values ->].
        cbn [app]. unfold returned.
        destruct (code =? 0).
        * destruct (written process) as [st_size |].
          -- unfold mbind at 1, act_bind at 1, lift at 1.
             destruct (Float.true_div st_size _) as [file_size | e].
             ++ intros log r [= <- <-]. eexists values, true, _.
                split; reflexivity.
             ++ intros log r [= <- <-]. eexists values, false, _.
                split; reflexivity.
          -- intros log r [= <- <-]. eexists values, false, _.
             split; reflexivity.
        * intros log r [= <- <-]. eexists values, false, _.
          split; reflexivity.
      + destruct (read_live_notes _ _ _ _ _ _ _ Hread) as [values ->].
        cbn [app]. intros log r [= <- <-]. eexists values, false, _.
        split; reflexivity.
    - intros log r [= <- <-]. exists [], false, no_ffmpeg. split; reflexivity. }
  split; [| split].
  - intros Hends.
    pose proof (download_video_live_described fuel ffmpeg_path os m3u8_url
                  output_path (Some note_progress) (Some note_finished) []
                  Hends) as Hreturns.
    fold (trace_live fuel ffmpeg_path os m3u8_url output_path) in Hreturns.
    destruct (download_video _ _ _ _ _ _ _) as [log r].
    destruct (Hsafe log r Hreturns) as (values & success & message & -> & ->).
    exists values, success, message. exact Hreturns.
  - exact Hsafe.
  - intros c ffmpeg process -> Hmkdir Hpopen Hsilent.
    unfold trace_live, download_video_live, try_except_pending.
    unfold mbind at 1, pending_bind at 1, returned at 1, lift at 1.
    rewrite Hmkdir.
    unfold mbind at 1, pending_bind at 1, returned at 1, lift at 1.
    rewrite Hpopen.
    unfold mbind at 1, pending_bind at 1.
    destruct fuel; cbn [read_live]; [reflexivity |].
    rewrite Hsilent. reflexivity.
Qed.


(** X9. Without a path to the tool nothing is launched: whatever
    the host, the completion callback gets the tool-not-found
    failure at once. When creating the directory or launching the
    tool raises, the completion callback gets a failure with the text
    of the exception, and [download_video] returns [False]. *)
Theorem download_video_reports_faults (ffmpeg_path : option str) (os : host)
    (m3u8_url output_path : str) :
  (ffmpeg_path = None ∨ ffmpeg_path = Some [] ->
   trace ffmpeg_path os m3u8_url output_path
   = ([Finished false no_ffmpeg], Ret false))
  ∧ (∀ c ffmpeg e,
       ffmpeg_path = Some (c :: ffmpeg) ->
       mkdir os = Raise e
       ∨ (mkdir os = Ret tt
          ∧ popen os (command (c :: ffmpeg) m3u8_url (path_str output_path))
            = Raise e) ->
       trace ffmpeg_path os m3u8_url output_path
       = ([Finished false (exn_text e)], Ret false)).
Proof.
  split.
  - intros [-> | ->]; reflexivity.
  - intros c ffmpeg e -> Hfault. rewrite trace_unfold.
    unfold launch_and_read, mbind, act_bind, lift.
    destruct Hfault as [-> | [-> ->]]; reflexivity.
Qed.

End FetcherMore.

Lemma download_video_reports_once_witness :
  ∃ values success message,
    trace_live (H := sample_interpreter) 3 FetcherExamples.ffmpeg
      (FetcherMoreExamples.alive
         (FetcherExamples.running
            [FetcherExamples.ten_minutes; FetcherExamples.five_minutes_blank]))
      FetcherExamples.manifest FetcherExamples.destination
    = Some ((Progress <$> values) ++ [Finished success message], Ret success).
Proof.
  apply (proj1 (download_video_reports_once (H := sample_interpreter) 3
                  FetcherExamples.ffmpeg
                  (FetcherMoreExamples.alive
                     (FetcherExamples.running
                        [FetcherExamples.ten_minutes;
                         FetcherExamples.five_minutes_blank]))
                  FetcherExamples.manifest FetcherExamples.destination)).
  intros cmd process [= <-]. exists 2%nat.
  split; [lia |]. split; [reflexivity |].
  split; [eexists; reflexivity |].
  intros round _. eexists. reflexivity.
Defined.


Lemma download_video_reports_faults_witness :
  trace (H := sample_interpreter) FetcherExamples.ffmpeg
    FetcherMoreExamples.read_only
    FetcherExamples.manifest FetcherExamples.destination
  = ([Finished false (lit "No space left on device")], Ret false).
Proof.
  apply (proj2 (download_video_reports_faults (H := sample_interpreter)
                  FetcherExamples.ffmpeg FetcherMoreExamples.read_only
                  FetcherExamples.manifest FetcherExamples.destination)
           102%N (lit "fmpeg") FetcherMoreExamples.disk_full).
  - reflexivity.
  - left. reflexivity.
Defined.

(** ** The batch worker: counting *)

Section WorkerMore.

Import BersoDownloaderApp.
Context `{Interpreter}.

Lemma preserves_launch_and_read {S X} (f : S -> X)
    (ffmpeg m3u8_url output_path : str) (os : DownloadManager.host)
    (progress_callback : option (spec_float -> act S unit)) :
  (∀ cb v, progress_callback = Some cb -> preserves f (cb v)) ->
  preserves f (launch_and_read ffmpeg m3u8_url output_path os progress_callback).
Proof.
  intros Hcb. unfold launch_and_read.
  apply preserves_bind; [auto with frame | intros _].
  apply preserves_bind; [auto with frame | intros p].
  apply preserves_bind; [apply preserves_read_output, Hcb | intros _].
  apply preserves_ret.
Qed.

Lemma progress_callback_books task value :
  preserves books (progress_callback task value).
Proof. apply preserves_root_after. reflexivity. Qed.

Lemma add_history_dumped (store : ConfigManager.t) (items : list json)
    (item : json) :
  ConfigManager.history store = JArr items ->
  ∃ store',
    ConfigManager.add_history item ConfigManager.Dumped store = (store', Ret tt)
    ∧ ConfigManager.history store' = JArr (take 100 (item :: items)).
Proof.
  intros Hh. unfold ConfigManager.add_history, gets, mbind, act_bind, lift.
  rewrite Hh. eexists. split; reflexivity.
Qed.

(** One completion, when the history is a list and its file can be
    written: one more job counted, on the side the flag says, and one
    more history entry for a success. *)
Lemma finished_callback_counts (task : download_task) (world : surroundings)
    (total : Z) (success : bool) (message : str) (self : t)
    (fields : gmap str json) (items : list json) :
  task_data task = JObj fields ->
  ConfigManager.history (config self) = JArr items ->
  io world = ConfigManager.Dumped ->
  ∃ self' items',
    finished_callback task world total (success, message) self
    = (self', Ret tt)
    ∧ completed_count self'
      = completed_count self + (if success then 1 else 0)
    ∧ failed_count self' = failed_count self + (if success then 0 else 1)
    ∧ downloading self' = downloading self
    ∧ ffmpeg_path self' = ffmpeg_path self
    ∧ ConfigManager.history (config self') = JArr items'
    ∧ length items'
      = (if success then Nat.min (S (length items)) 100 else length items).
Proof.
  intros Hdata Hh Hio. unfold finished_callback. destruct success.
  - unfold mbind, act_bind, root_after, modify, lift, gets, on_config.
    rewrite Hdata, Hio. cbn [get config set_completed_count set_after].
    match goal with
    | |- context [ConfigManager.add_history ?item _ _] =>
        destruct (add_history_dumped (config self) items item Hh)
          as (store' & -> & Hstore)
    end.
    eexists _, _. split; [reflexivity |].
    split; [reflexivity |]. split; [cbn; lia |].
    split; [reflexivity |]. split; [reflexivity |].
    split; [exact Hstore |].
    rewrite length_take. cbn [length]. lia.
  - unfold mbind, act_bind, root_after, modify, gets.
    eexists _, items. split; [reflexivity |].
    split; [cbn; lia |]. split; [reflexivity |].
    split; [reflexivity |]. split; [reflexivity |].
    split; [exact Hh | reflexivity].
Qed.

(** The same for the report that follows [download_video]'s verdict. *)
Lemma report_counts (task : download_task) (world : surroundings)
    (total : Z) (outcome : bool * str) (self : t)
    (fields : gmap str json) (items : list json) :
  task_data task = JObj fields ->
  ConfigManager.history (config self) = JArr items ->
  io world = ConfigManager.Dumped ->
  ∃ self' items',
    report (Some (finished_callback task world total)) outcome self
    = (self', Ret outcome.1)
    ∧ completed_count self'
      = completed_count self + (if outcome.1 then 1 else 0)
    ∧ failed_count self' = failed_count self + (if outcome.1 then 0 else 1)
    ∧ downloading self' = downloading self
    ∧ ffmpeg_path self' = ffmpeg_path self
    ∧ ConfigManager.history (config self') = JArr items'
    ∧ length items'
      = (if outcome.1 then Nat.min (S (length items)) 100 else length items).
Proof.
  intros Hdata Hh Hio. destruct outcome as [success message].
  destruct (finished_callback_counts task world total success message self
              fields items Hdata Hh Hio) as (self' & items' & Hfc & Hrest).
  exists self', items'. split; [| exact Hrest].
  unfold report, DownloadManager.call, mbind, act_bind. rewrite Hfc.
  reflexivity.
Qed.

(** One call of [download_video] by the worker counts one job. *)
Lemma download_video_counts (task : download_task) (world : surroundings)
    (total : Z) (url : str) (self : t)
    (fields : gmap str json) (items : list json) :
  task_data task = JObj fields ->
  ConfigManager.history (config self) = JArr items ->
  io world = ConfigManager.Dumped ->
  ∃ self' items' success,
    DownloadManager.download_video (ffmpeg_path self) (os world) url
      (save_path task) (Some (progress_callback task))
      (Some (finished_callback task world total)) self
    = (self', Ret success)
    ∧ completed_count self' = completed_count self + (if success then 1 else 0)
    ∧ failed_count self' = failed_count self + (if success then 0 else 1)
    ∧ downloading self' = downloading self
    ∧ ffmpeg_path self' = ffmpeg_path self
    ∧ ConfigManager.history (config self') = JArr items'
    ∧ length items'
      = (if success then Nat.min (S (length items)) 100 else length items).
Proof.
  intros Hdata Hh Hio.
  assert (Hreport : ∀ outcome s1,
             books s1 = books self ->
             ffmpeg_path s1 = ffmpeg_path self ->
             ∃ self' items',
               report (Some (finished_callback task world total)) outcome s1
               = (self', Ret outcome.1)
               ∧ completed_count self'
                 = completed_count self + (if outcome.1 then 1 else 0)
               ∧ failed_count self'
                 = failed_count self + (if outcome.1 then 0 else 1)
               ∧ downloading self' = downloading self
               ∧ ffmpeg_path self' = ffmpeg_path self
               ∧ ConfigManager.history (config self') = JArr items'
               ∧ length items'
                 = (if outcome.1 then Nat.min (S (length items)) 100
                    else length items)).
  { intros outcome s1 Hbooks Hff. unfold books in Hbooks.
    injection Hbooks as Hc Hd Hco Hfa _.
    rewrite <- Hc in Hh.
    destruct (report_counts task world total outcome s1 fields items
                Hdata Hh Hio)
      as (self' & items' & Hr & H1 & H2 & H3 & H4 & H5 & H6).
    exists self', items'. rewrite H1, H2, H3, H4, Hco, Hfa, Hd, Hff.
    repeat split; assumption. }
  destruct (ffmpeg_path self) as [[| c ffmpeg] |] eqn:Hffmpeg.
  - destruct (Hreport (false, DownloadManager.no_ffmpeg) self eq_refl Hffmpeg)
      as (self' & items' & Hr & Hrest).
    exists self', items', false. split; [exact Hr | exact Hrest].
  - rewrite download_video_unfold.
    assert (Hbooks : books (launch_and_read (c :: ffmpeg) url (save_path task)
                               (os world) (Some (progress_callback task))
                               self).1 = books self).
    { apply preserves_launch_and_read. intros cb v [= <-].
      apply progress_callback_books. }
    assert (Hpath : ffmpeg_path
                      (launch_and_read (c :: ffmpeg) url (save_path task)
                         (os world) (Some (progress_callback task)) self).1
                    = Some (c :: ffmpeg)).
    { rewrite <- Hffmpeg. apply preserves_launch_and_read. intros cb v [= <-].
      apply preserves_root_after. reflexivity. }
    destruct (launch_and_read _ _ _ _ _ self) as [s1 [p | e]];
      cbn [fst] in Hbooks, Hpath.
    + destruct (verdict p) as [outcome | e].
      * destruct (Hreport outcome s1 Hbooks Hpath)
          as (self' & items' & Hr & Hrest).
        exists self', items', outcome.1. split; [| exact Hrest].
        unfold try_except_act. rewrite Hr. reflexivity.
      * destruct (Hreport (false, exn_text e) s1 Hbooks Hpath)
          as (self' & items' & Hr & Hrest).
        exists self', items', false. split; [exact Hr | exact Hrest].
    + destruct (Hreport (false, exn_text e) s1 Hbooks Hpath)
        as (self' & items' & Hr & Hrest).
      exists self', items', false. split; [exact Hr | exact Hrest].
  - destruct (Hreport (false, DownloadManager.no_ffmpeg) self eq_refl Hffmpeg)
      as (self' & items' & Hr & Hrest).
    exists self', items', false. split; [exact Hr | exact Hrest].
Qed.

(** The loop body on a job it gets through. *)
Lemma download_one_counts (task : download_task) (world : surroundings)
    (total : Z) (self : t) (items : list json) :
  well_formed task ->
  ConfigManager.history (config self) = JArr items ->
  io world = ConfigManager.Dumped ->
  ∃ self' items' (success : bool),
    download_one task world total self = (self', Ret tt)
    ∧ completed_count self' = completed_count self + (if success then 1 else 0)
    ∧ failed_count self' = failed_count self + (if success then 0 else 1)
    ∧ downloading self' = downloading self
    ∧ ffmpeg_path self' = ffmpeg_path self
    ∧ ConfigManager.history (config self') = JArr items'
    ∧ length items'
      = (if success then Nat.min (S (length items)) 100 else length items).
Proof.
  intros (fields & Hdata & Hfiles) Hh Hio.
  assert (Hskip : ∀ reason,
    ∃ self' items' (success : bool),
      (root_after (UpdateStatus (card task) reason "error");;
       root_after ResetProgress;;
       modify (fun self => set_failed_count (failed_count self + 1) self))
        (set_after (after self ++ [UpdateStatus (card task) parsing "warning"])
           self)
      = (self', Ret tt)
      ∧ completed_count self'
        = completed_count self + (if success then 1 else 0)
      ∧ failed_count self' = failed_count self + (if success then 0 else 1)
      ∧ downloading self' = downloading self
      ∧ ffmpeg_path self' = ffmpeg_path self
      ∧ ConfigManager.history (config self') = JArr items'
      ∧ length items'
        = (if success then Nat.min (S (length items)) 100 else length items)).
  { intros reason. eexists _, items, false. split; [reflexivity |].
    split; [cbn; lia |]. repeat split; try reflexivity. exact Hh. }
  unfold download_one.
  unfold mbind at 1, act_bind at 1, root_after at 1, modify at 1.
  unfold mbind at 1, act_bind at 1, lift at 1.
  rewrite Hdata. cbn [get].
  destruct Hfiles as [Hfalse | (record & others & Hsome)].
  - rewrite Hfalse. cbn [negb]. apply Hskip.
  - rewrite Hsome. cbn [default from_option id truthy negb].
    unfold mbind at 1, act_bind at 1, lift at 1. cbn [first].
    unfold mbind at 1, act_bind at 1, lift at 1. cbn [get].
    unfold mbind at 1, act_bind at 1.
    assert (Hpath : ∃ location_path,
      (if truthy (default JNull (record !! lit "location"))
       then mret (default JNull (record !! lit "location"))
       else lift (Ret (default JNull (record !! lit "locationPath"))))
      = (mret location_path : act t json)).
    { destruct (truthy _); eexists; reflexivity. }
    destruct Hpath as [location_path ->]. cbn [mret act_ret].
    destruct (truthy location_path); cbn [negb]; [| apply Hskip].
    unfold mbind at 1, act_bind at 1, modify at 1.
    unfold mbind at 1, act_bind at 1, gets at 1.
    match goal with
    | |- context [(DownloadManager.download_video _ _ ?url _ _ _ ≫= _) ?s] =>
        destruct (download_video_counts task world total url s fields items
                    Hdata Hh Hio)
          as (self' & items' & success & Hdv & Hrest)
    end.
    exists self', items', success. split; [| exact Hrest].
    unfold mbind, act_bind. rewrite Hdv. reflexivity.
Qed.

(** The loop on jobs it gets through: each one is counted once. *)
Lemma for_each_task_counts (tasks : list download_task)
    (world : nat -> surroundings) (total : Z) :
  ∀ (position : nat) (self : t) (items : list json),
    Forall well_formed tasks ->
    (∀ i, io (world i) = ConfigManager.Dumped) ->
    downloading self = true ->
    ConfigManager.history (config self) = JArr items ->
    (length items <= 100)%nat ->
    ∃ self' items' (succeeded : nat),
      for_each_task tasks world position total self = (self', Ret tt)
      ∧ (succeeded <= length tasks)%nat
      ∧ completed_count self' = completed_count self + Z.of_nat succeeded
      ∧ failed_count self'
        = failed_count self + Z.of_nat (length tasks - succeeded)
      ∧ downloading self' = true
      ∧ ConfigManager.history (config self') = JArr items'
      ∧ length items' = Nat.min (length items + succeeded) 100.
Proof.
  induction tasks as [| task tasks IH];
    intros position self items Htasks Hio Hrun Hh Hlen.
  - exists self, items, 0%nat. cbn.
    repeat split; try assumption; try lia.
  - apply Forall_cons_1 in Htasks as [Htask Htasks].
    destruct (download_one_counts task (world position) total self items
                Htask Hh (Hio position))
      as (s1 & items1 & success & Hone & Hc1 & Hf1 & Hd1 & _ & Hh1 & Hl1).
    assert (Hlen1 : (length items1 <= 100)%nat)
      by (rewrite Hl1; destruct success; lia).
    destruct (IH (S position) s1 items1 Htasks Hio
                (eq_trans Hd1 Hrun) Hh1 Hlen1)
      as (self' & items' & k & Hloop & Hk & Hc & Hf & Hd & Hh' & Hl').
    exists self', items', ((if success then 1 else 0) + k)%nat.
    split.
    { cbn [for_each_task]. unfold mbind at 1, act_bind at 1, gets at 1.
      rewrite Hrun. cbn [negb]. unfold mbind, act_bind. rewrite Hone.
      exact Hloop. }
    rewrite Hc, Hf, Hc1, Hf1, Hl', Hl1. cbn [length].
    destruct success; repeat split; try assumption; lia.
Qed.

(** A batch on tools that end: each job is counted once. *)
Lemma batch_counts (task : download_task)
    (tasks : list download_task) (world : nat -> surroundings) (self : t)
    (c : N) (ffmpeg : str) (items : list json) :
  Forall well_formed (task :: tasks) ->
  (∀ i, io (world i) = ConfigManager.Dumped) ->
  downloading self = false ->
  ffmpeg_path self = Some (c :: ffmpeg) ->
  ConfigManager.history (config self) = JArr items ->
  (length items <= 100)%nat ->
  ∃ self' items' (succeeded : nat),
    start_batch_download (task :: tasks) world self = (self', Ret tt)
    ∧ (succeeded <= length (task :: tasks))%nat
    ∧ completed_count self' = Z.of_nat succeeded
    ∧ failed_count self' = Z.of_nat (length (task :: tasks) - succeeded)
    ∧ last (after self') = Some BatchFinished
    ∧ ConfigManager.history (config self') = JArr items'
    ∧ length items' = Nat.min (length items + succeeded) 100.
Proof.
  intros Htasks Hio Hidle Hffmpeg Hh Hlen.
  destruct (for_each_task_counts (task :: tasks) world
              (Z.of_nat (length (task :: tasks))) 0%nat
              (start (task :: tasks) self) items Htasks Hio eq_refl Hh Hlen)
    as (s1 & items' & k & Hloop & Hk & Hc & Hf & _ & Hh' & Hl').
  exists (set_after (after s1 ++ [BatchFinished]) s1), items', k.
  split.
  { unfold start_batch_download.
    unfold mbind at 1, act_bind at 1, gets at 1. rewrite Hidle.
    unfold mbind at 1, act_bind at 1, gets at 1. rewrite Hffmpeg.
    unfold mbind at 1, act_bind at 1, modify at 1.
    unfold download_worker.
    unfold mbind at 1, act_bind at 1, gets at 1.
    cbn [download_tasks start].
    unfold mbind, act_bind. rewrite Hloop. reflexivity. }
  split; [exact Hk |].
  split; [change (completed_count s1 = Z.of_nat k); rewrite Hc; cbn; lia |].
  split.
  { change (failed_count s1
            = Z.of_nat (length (task :: tasks) - k)).
    rewrite Hf. cbn [failed_count start set_failed_count]. lia. }
  split; [apply last_snoc |]. split; [exact Hh' | exact Hl'].
Qed.

(** A step that returns, in a call that may not. *)
Lemma pending_step {S A B} (m : act S A) (k : A -> pending S B)
    (k' : A -> act S B) (s : S) :
  (∀ a s', k a s' = Some (k' a s')) ->
  (returned m ≫= k) s = Some ((m ≫= k') s).
Proof.
  intros Hk. unfold mbind, pending_bind, act_bind, returned.
  destruct (m s) as [s' [a | e]]; [apply Hk | reflexivity].
Qed.

(** On tools that end within the rounds, the worker returns, and
    does what it does on the lines of the tools. *)
Lemma download_one_live_described (fuel : nat) (task : download_task)
    (tools : DownloadManager.live_host) (world : surroundings) (total : Z)
    (s : t) :
  (∀ cmd process, DownloadManager.live_popen tools cmd = Ret process ->
                  ends_within fuel process) ->
  download_one_live fuel task tools world total s
  = Some (download_one task (described_world fuel tools world) total s).
Proof.
  intros Hends. unfold download_one_live, download_one.
  apply pending_step. intros [] s1.
  apply pending_step. intros record_files s2.
  destruct (negb (truthy record_files)); [reflexivity |].
  apply pending_step. intros record_file s3.
  apply pending_step. intros location s4.
  apply pending_step. intros location_path s5.
  destruct (negb (truthy location_path)); [reflexivity |].
  apply pending_step. intros [] s6.
  apply pending_step. intros ffmpeg s7.
  unfold mbind, pending_bind, act_bind.
  rewrite (download_video_live_described fuel _ tools _ _ _ _ _ Hends).
  cbn [os described_world].
  change (finished_callback task (described_world fuel tools world) total)
    with (finished_callback task world total).
  destruct (DownloadManager.download_video _ _ _ _ _ _ _) as [s' [b | e]];
    reflexivity.
Qed.

Lemma for_each_task_live_described (fuel : nat)
    (tools : nat -> DownloadManager.live_host) (world : nat -> surroundings)
    (total : Z) :
  (∀ i cmd process, DownloadManager.live_popen (tools i) cmd = Ret process ->
                    ends_within fuel process) ->
  ∀ (tasks : list download_task) (position : nat) (s : t),
    for_each_task_live fuel tasks tools world position total s
    = Some (for_each_task tasks
              (fun i => described_world fuel (tools i) (world i))
              position total s).
Proof.
  intros Hends. induction tasks as [| task tasks IH]; intros position s.
  - reflexivity.
  - cbn [for_each_task_live for_each_task].
    apply pending_step. intros running s1.
    destruct (negb running); [reflexivity |].
    unfold mbind, pending_bind, act_bind.
    rewrite (download_one_live_described fuel task (tools position)
               (world position) total s1 (Hends position)).
    destruct (download_one task _ total s1) as [s' [[] | e]]; [| reflexivity].
    apply IH.
Qed.

Lemma start_batch_download_live_described (fuel : nat)
    (selected : list download_task)
    (tools : nat -> DownloadManager.live_host) (world : nat -> surroundings)
    (s : t) :
  (∀ i cmd process, DownloadManager.live_popen (tools i) cmd = Ret process ->
                    ends_within fuel process) ->
  start_batch_download_live fuel selected tools world s
  = Some (start_batch_download selected
            (fun i => described_world fuel (tools i) (world i)) s).
Proof.
  intros Hends. destruct selected as [| task selected]; [reflexivity |].
  unfold start_batch_download_live, start_batch_download.
  apply pending_step. intros running s1.
  destruct running; [reflexivity |].
  apply pending_step. intros ffmpeg s2.
  destruct ffmpeg as [[| c ffmpeg] |]; try reflexivity.
  apply pending_step. intros [] s3.
  unfold download_worker_live, download_worker.
  apply pending_step. intros tasks s4.
  unfold mbind, pending_bind, act_bind.
  rewrite (for_each_task_live_described fuel tools world _ Hends).
  destruct (for_each_task _ _ _ _ _) as [s' [[] | e]]; reflexivity.
Qed.

(** X10. A batch of jobs whose chapters are dicts with well-shaped
    record files, started while no batch runs and with a path to the
    tool, on a history list whose file can be written, and on hosts
    whose tools end (the output of a launched tool comes to its end
    and the tool exits): the worker gets to the end, each job is
    counted exactly once, as succeeded or as failed, each success
    adds one entry to the history up to its cap, and the end of the
    batch is the last thing handed to the GUI. *)
Theorem batch_counts_every_job (fuel : nat) (task : download_task)
    (tasks : list download_task)
    (tools : nat -> DownloadManager.live_host) (world : nat -> surroundings)
    (self : t) (c : N) (ffmpeg : str) (items : list json) :
  Forall well_formed (task :: tasks) ->
  (∀ i cmd process, DownloadManager.live_popen (tools i) cmd = Ret process ->
                    ends_within fuel process) ->
  (∀ i, io (world i) = ConfigManager.Dumped) ->
  downloading self = false ->
  ffmpeg_path self = Some (c :: ffmpeg) ->
  ConfigManager.history (config self) = JArr items ->
  (length items <= 100)%nat ->
  ∃ self' items' (succeeded : nat),
    start_batch_download_live fuel (task :: tasks) tools world self
    = Some (self', Ret tt)
    ∧ (succeeded <= length (task :: tasks))%nat
    ∧ completed_count self' = Z.of_nat succeeded
    ∧ failed_count self' = Z.of_nat (length (task :: tasks) - succeeded)
    ∧ last (after self') = Some BatchFinished
    ∧ ConfigManager.history (config self') = JArr items'
    ∧ length items' = Nat.min (length items + succeeded) 100.
Proof.
  intros Htasks Hends Hio Hidle Hffmpeg Hh Hlen.
  destruct (batch_counts task tasks
              (fun i => described_world fuel (tools i) (world i))
              self c ffmpeg items Htasks Hio Hidle Hffmpeg Hh Hlen)
    as (self' & items' & succeeded & Hrun & Hrest).
  exists self', items', succeeded. split; [| exact Hrest].
  rewrite (start_batch_download_live_described fuel (task :: tasks) tools
             world self Hends), Hrun.
  reflexivity.
Qed.

(** What reading the lines ends with does not depend on what the
    progress callback does, as long as it returns. *)
Lemma report_progress_outcome {S1 S2} line duration
    (cb1 : spec_float -> act S1 unit) (cb2 : spec_float -> act S2 unit)
    (s1 : S1) (s2 : S2) :
  (∀ v s, (cb1 v s).2 = Ret tt) ->
  (∀ v s, (cb2 v s).2 = Ret tt) ->
  (DownloadManager.report_progress line duration (Some cb1) s1).2
  = (DownloadManager.report_progress line duration (Some cb2) s2).2.
Proof.
  intros H1 H2. unfold DownloadManager.report_progress.
  destruct (_ && _); [| reflexivity].
  destruct (Text.search _ _) as [groups |]; [| reflexivity].
  unfold mbind, act_bind, lift.
  destruct (DownloadManager.seconds groups) as [current | e]; [| reflexivity].
  destruct (Float.true_div _ _) as [ratio | e]; [| reflexivity].
  cbn [DownloadManager.call]. rewrite H1, H2. reflexivity.
Qed.

Lemma read_output_outcome {S1 S2} lines
    (cb1 : spec_float -> act S1 unit) (cb2 : spec_float -> act S2 unit) :
  (∀ v s, (cb1 v s).2 = Ret tt) ->
  (∀ v s, (cb2 v s).2 = Ret tt) ->
  ∀ duration (s1 : S1) (s2 : S2),
    (DownloadManager.read_output lines duration (Some cb1) s1).2
    = (DownloadManager.read_output lines duration (Some cb2) s2).2.
Proof.
  intros H1 H2. induction lines as [| line lines IH]; intros duration s1 s2.
  - reflexivity.
  - cbn [DownloadManager.read_output].
    unfold mbind at 1 3, act_bind at 1 3, lift at 1 2.
    destruct (DownloadManager.read_duration line duration) as [d | e];
      [| reflexivity].
    unfold mbind, act_bind.
    pose proof (report_progress_outcome line d cb1 cb2 s1 s2 H1 H2) as Hrp.
    destruct (DownloadManager.report_progress line d (Some cb1) s1)
      as [s1' [[] | e1]];
      destruct (DownloadManager.report_progress line d (Some cb2) s2)
        as [s2' [[] | e2]]; cbn [snd] in Hrp; try discriminate.
    + apply IH.
    + exact Hrp.
Qed.

Lemma launch_and_read_outcome {S1 S2} (ffmpeg m3u8_url output_path : str)
    (os : DownloadManager.host)
    (cb1 : spec_float -> act S1 unit) (cb2 : spec_float -> act S2 unit)
    (s1 : S1) (s2 : S2) :
  (∀ v s, (cb1 v s).2 = Ret tt) ->
  (∀ v s, (cb2 v s).2 = Ret tt) ->
  (launch_and_read ffmpeg m3u8_url output_path os (Some cb1) s1).2
  = (launch_and_read ffmpeg m3u8_url output_path os (Some cb2) s2).2.
Proof.
  intros H1 H2. unfold launch_and_read, mbind, act_bind, lift.
  destruct (DownloadManager.mkdir os) as [[] | e]; [| reflexivity].
  destruct (DownloadManager.popen os _) as [p | e]; [| reflexivity].
  pose proof (read_output_outcome (DownloadManager.stdout p) cb1 cb2 H1 H2
                None s1 s2) as Hread.
  destruct (DownloadManager.read_output _ _ (Some cb1) s1) as [s1' [[] | e1]];
    destruct (DownloadManager.read_output _ _ (Some cb2) s2)
      as [s2' [[] | e2]]; cbn [snd] in Hread; try discriminate.
  - reflexivity.
  - injection Hread as ->. reflexivity.
Qed.

(** With a history file that cannot be written, [add_history] raises. *)
Lemma add_history_fails (item : json) (e : exn) (left_behind : ConfigManager.file)
    (store : ConfigManager.t) :
  ∃ store' e',
    ConfigManager.add_history item (ConfigManager.DumpFailed e left_behind)
      store
    = (store', Raise e').
Proof.
  unfold ConfigManager.add_history, gets, mbind, act_bind, lift.
  destruct (ConfigManager.history store); eexists _, _; reflexivity.
Qed.

(** X11. A download that succeeds while the history file cannot be
    written is counted twice: the completion callback is called with
    the success, counts the job as completed and raises in
    [add_history], inside the [try] of [download_video], whose
    handler calls it again with a failure; the job is then also
    counted as failed, and [download_video] returns [False]. *)
Theorem unwritable_history_counts_twice (task : download_task)
    (world : surroundings) (total : Z) (url : str) (self : t)
    (fields : gmap str json) (fault : exn) (left_behind : ConfigManager.file) :
  task_data task = JObj fields ->
  io world = ConfigManager.DumpFailed fault left_behind ->
  (trace (ffmpeg_path self) (os world) url (save_path task)).2 = Ret true ->
  ∃ self',
    DownloadManager.download_video (ffmpeg_path self) (os world) url
      (save_path task) (Some (progress_callback task))
      (Some (finished_callback task world total)) self
    = (self', Ret false)
    ∧ completed_count self' = completed_count self + 1
    ∧ failed_count self' = failed_count self + 1.
Proof.
  intros Hdata Hio Htrace.
  destruct (ffmpeg_path self) as [[| c ffmpeg] |] eqn:Hffmpeg;
    [discriminate | | discriminate].
  rewrite trace_unfold in Htrace. rewrite download_video_unfold.
  pose proof (launch_and_read_outcome (c :: ffmpeg) url (save_path task)
                (os world) note_progress (progress_callback task) [] self
                (fun _ _ => eq_refl) (fun _ _ => eq_refl)) as Hsame.
  assert (Hbooks : books (launch_and_read (c :: ffmpeg) url (save_path task)
                             (os world) (Some (progress_callback task))
                             self).1 = books self).
  { apply preserves_launch_and_read. intros cb v [= <-].
    apply progress_callback_books. }
  destruct (launch_and_read _ _ _ _ (Some note_progress) _)
    as [log launched].
  destruct (launch_and_read _ _ _ _ (Some (progress_callback task)) _)
    as [s1 launched'].
  cbn [fst snd] in Hsame, Hbooks, Htrace. subst launched'.
  destruct launched as [process | e]; [| discriminate].
  destruct (verdict process) as [[success message] | e]; [| discriminate].
  cbn [fst snd] in Htrace. injection Htrace as ->.
  injection Hbooks as _ _ Hco Hfa _.
  unfold try_except_act, report, DownloadManager.call, finished_callback.
  unfold mbind, act_bind, root_after, modify, lift, gets, on_config.
  rewrite Hdata, Hio. cbn [get config set_completed_count set_after].
  match goal with
  | |- context [ConfigManager.add_history ?item _ ?store] =>
      destruct (add_history_fails item fault left_behind store)
        as (store' & e' & ->)
  end.
  eexists. split; [reflexivity |].
  cbn. rewrite Hco, Hfa. split; reflexivity.
Qed.

End WorkerMore.

Lemma batch_counts_every_job_witness :
  ∃ self' items' (succeeded : nat),
    BersoDownloaderApp.start_batch_download_live (H := sample_interpreter)
      3 [WorkerExamples.ch1; WorkerExamples.ch2]
      (fun i => FetcherMoreExamples.alive
                  (BersoDownloaderApp.os (WorkerExamples.world i)))
      WorkerExamples.world WorkerExamples.idle
    = Some (self', Ret tt)
    ∧ (succeeded <= 2)%nat
    ∧ BersoDownloaderApp.completed_count self' = Z.of_nat succeeded
    ∧ BersoDownloaderApp.failed_count self' = Z.of_nat (2 - succeeded)
    ∧ last (BersoDownloaderApp.after self')
      = Some BersoDownloaderApp.BatchFinished
    ∧ ConfigManager.history (BersoDownloaderApp.config self') = JArr items'
    ∧ length items' = Nat.min (0 + succeeded) 100.
Proof.
  apply (batch_counts_every_job (H := sample_interpreter) 3
           WorkerExamples.ch1 [WorkerExamples.ch2]
           (fun i => FetcherMoreExamples.alive
                       (BersoDownloaderApp.os (WorkerExamples.world i)))
           WorkerExamples.world
           WorkerExamples.idle 102%N (lit "fmpeg") []).
  - constructor; [| constructor; [| constructor]].
    + exists WorkerExamples.ch1_fields. split; [reflexivity |].
      right. eexists _, _. reflexivity.
    + exists WorkerExamples.ch2_fields. split; [reflexivity |].
      left. reflexivity.
  - intros i cmd process [= <-]. exists 2%nat.
    split; [lia |]. split; [reflexivity |].
    split; [eexists; reflexivity |].
    intros round _. eexists. reflexivity.
  - reflexivity.
  - reflexivity.
  - reflexivity.
  - reflexivity.
  - cbn. lia.
Defined.

Lemma unwritable_history_counts_twice_witness :
  ∃ self',
    DownloadManager.download_video (H := sample_interpreter)
      (BersoDownloaderApp.ffmpeg_path WorkerExamples.idle)
      (BersoDownloaderApp.os WorkerMoreExamples.unwritable)
      FetcherExamples.manifest
      (BersoDownloaderApp.save_path WorkerExamples.ch1)
      (Some (BersoDownloaderApp.progress_callback WorkerExamples.ch1))
      (Some (BersoDownloaderApp.finished_callback WorkerExamples.ch1
               WorkerMoreExamples.unwritable 1))
      WorkerExamples.idle
    = (self', Ret false)
    ∧ BersoDownloaderApp.completed_count self'
      = BersoDownloaderApp.completed_count WorkerExamples.idle + 1
    ∧ BersoDownloaderApp.failed_count self'
      = BersoDownloaderApp.failed_count WorkerExamples.idle + 1.
Proof.
  apply (unwritable_history_counts_twice (H := sample_interpreter)
           WorkerExamples.ch1 WorkerMoreExamples.unwritable 1
           FetcherExamples.manifest WorkerExamples.idle
           WorkerExamples.ch1_fields FetcherMoreExamples.disk_full
           ConfigManager.Absent).
  - reflexivity.
  - reflexivity.
  - vm_compute. reflexivity.
Defined.

(** ** Looking for the tool *)

Section FinderMore.

Import DownloadManager.
Context `{Interpreter}.

Lemma first_existing_some (m : machine) (paths : list str) (p : str) :
  first_existing m paths = Ret (Some p) ->
  ∃ q, q ∈ paths ∧ path_exists m q = Ret true ∧ p = path_str q.
Proof.
  induction paths as [| path rest IH]; cbn [first_existing]; [discriminate |].
  unfold mbind, result_bind.
  destruct (path_exists m path) as [[] | e] eqn:Hthere; [| | discriminate].
  - intros [= <-]. exists path. split; [left | split; [exact Hthere |]];
      reflexivity.
  - intros Hrest. destruct (IH Hrest) as (q & Hin & Hq).
    exists q. split; [right; exact Hin | exact Hq].
Qed.

Lemma first_existing_none (m : machine) (paths : list str) :
  first_existing m paths = Ret None ->
  Forall (fun q => path_exists m q = Ret false) paths.
Proof.
  induction paths as [| path rest IH]; cbn [first_existing];
    [constructor |].
  unfold mbind, result_bind.
  destruct (path_exists m path) as [[] | e] eqn:Hthere;
    [discriminate | | discriminate].
  intros Hrest. constructor; [exact Hthere | exact (IH Hrest)].
Qed.

(** The first item of [s.split(sep)] is the text before the first
    separator. *)
Lemma split_head (sep : N) (s : str) :
  ∃ line lines rest,
    Text.split sep s = line :: lines
    ∧ (sep ∉ line)
    ∧ s = line ++ rest
    ∧ (rest = [] ∨ ∃ more, rest = sep :: more).
Proof.
  induction s as [| c s IH]; cbn [Text.split].
  - exists [], [], []. split; [reflexivity |].
    split; [apply not_elem_of_nil |]. split; [reflexivity | left; reflexivity].
  - destruct (N.eqb_spec c sep) as [-> | Hne].
    + exists [], (Text.split sep s), (sep :: s). split; [reflexivity |].
      split; [apply not_elem_of_nil |]. split; [reflexivity |].
      right. exists s. reflexivity.
    + destruct IH as (line & lines & rest & -> & Hnot & -> & Hrest).
      exists (c :: line), lines, rest. split; [reflexivity |].
      split; [| split; [reflexivity | exact Hrest]].
      intros [Heq | Hin]%elem_of_cons; [congruence | exact (Hnot Hin)].
Qed.

(** X12. A path [find_ffmpeg] ends with is the configured path or one
    of the common paths, found to exist and normalised by [pathlib];
    or none of the common paths exists, the lookup command of the
    platform exited with 0, and the path is its output without the
    surrounding whitespace: all of it, or on Windows what stands
    before the first newline. *)
Theorem find_ffmpeg_finds_existing (m : machine) (settings : json)
    (old : option str) (p : str) :
  find_ffmpeg m settings old = (Some p, Ret tt) ->
  (∃ q, path_exists m q = Ret true
        ∧ p = path_str q
        ∧ (get settings (lit "ffmpeg_path") JNull = Ret (JStr q)
           ∨ q ∈ common_paths m))
  ∨ (Forall (fun q => path_exists m q = Ret false) (common_paths m)
     ∧ ∃ result,
         run m [ lit (if nt m then "where" else "which"); lit "ffmpeg" ] (nt m)
         = Ret result
         ∧ run_returncode result = 0
         ∧ (if nt m then
              (10%N ∉ p)
              ∧ ∃ rest, Text.strip (run_stdout result) = p ++ rest
                        ∧ (rest = [] ∨ ∃ more, rest = 10%N :: more)
            else p = Text.strip (run_stdout result))).
Proof.
  unfold find_ffmpeg. unfold mbind at 1, act_bind at 1, lift at 1.
  destruct (configured m settings) as [[path |] | e] eqn:Hconf;
    [| | discriminate].
  - (* the configured path *)
    unfold modify. intros [= <-]. left.
    unfold configured, mbind, result_bind in Hconf.
    destruct (get settings _ _) as [setting | e] eqn:Hget; [| discriminate].
    destruct (truthy setting); [| discriminate].
    destruct settings as [| | | | | | fields]; try discriminate.
    cbn [get] in Hget. injection Hget as Hget.
    cbn [subscript] in Hconf.
    destruct (fields !! lit "ffmpeg_path") as [v |] eqn:Hv; [| discriminate].
    cbn [default from_option id] in Hget. subst setting.
    destruct v as [| | | | q | |]; try discriminate. cbn [as_path] in Hconf.
    destruct (path_exists m q) as [[] | e] eqn:Hthere; try discriminate.
    injection Hconf as <-. exists q.
    split; [exact Hthere |]. split; [reflexivity |]. left.
    reflexivity.
  - unfold mbind at 1, act_bind at 1, lift at 1.
    destruct (first_existing m (common_paths m)) as [[path |] | e] eqn:Hfirst;
      [| | discriminate].
    + (* a common path *)
      unfold modify. intros [= <-]. left.
      destruct (first_existing_some m _ _ Hfirst) as (q & Hin & Hthere & Hp).
      exists q. split; [exact Hthere |]. split; [exact Hp |].
      right. exact Hin.
    + (* the lookup command *)
      unfold mbind at 1, act_bind at 1, lift at 1.
      destruct (on_system_path m) as [[path |] | e] eqn:Hsys;
        [| discriminate | discriminate].
      unfold modify. intros [= <-]. right.
      split; [exact (first_existing_none m _ Hfirst) |].
      unfold on_system_path, try_except, mbind, result_bind in Hsys.
      destruct (nt m).
      * destruct (run m _ true) as [result | e]; [| discriminate].
        destruct (Z.eqb_spec (run_returncode result) 0) as [Hrc | _];
          [| discriminate].
        destruct (split_head 10 (Text.strip (run_stdout result)))
          as (line & lines & rest & Hsplit & Hnot & Hrest).
        rewrite Hsplit in Hsys. injection Hsys as <-.
        exists result. split; [reflexivity |]. split; [exact Hrc |].
        split; [exact Hnot |]. exists rest. exact Hrest.
      * destruct (run m _ false) as [result | e]; [| discriminate].
        destruct (Z.eqb_spec (run_returncode result) 0) as [Hrc | _];
          [| discriminate].
        injection Hsys as <-.
        exists result. split; [reflexivity |]. split; [exact Hrc |].
        reflexivity.
Qed.

Lemma first_existing_returns (m : machine) (paths : list str) :
  (∀ q, ∃ there, path_exists m q = Ret there) ->
  ∃ found, first_existing m paths = Ret found.
Proof.
  intros Hthere. induction paths as [| path rest IH]; cbn [first_existing].
  - exists None. reflexivity.
  - destruct (Hthere path) as [[] ->]; cbn.
    + eexists. reflexivity.
    + exact IH.
Qed.

Lemma on_system_path_returns (m : machine) :
  ∃ found, on_system_path m = Ret found.
Proof.
  unfold on_system_path, try_except, mbind, result_bind.
  destruct (nt m).
  - destruct (run m _ true) as [result | e]; [| eexists; reflexivity].
    destruct (_ =? 0); [| eexists; reflexivity].
    destruct (Text.split _ _); eexists; reflexivity.
  - destruct (run m _ false) as [result | e]; [| eexists; reflexivity].
    destruct (_ =? 0); eexists; reflexivity.
Qed.

(** X13. With settings that are a dict whose [ffmpeg_path], if it is
    there and not empty, is a string, and on a machine on which a
    path can be tested, [find_ffmpeg] returns, whatever the lookup
    command does: a command that cannot be run or that fails leaves
    the tool not found. *)
Theorem find_ffmpeg_returns (m : machine) (fields : gmap str json)
    (old : option str) :
  (∀ q, ∃ there, path_exists m q = Ret there) ->
  (∀ v, fields !! lit "ffmpeg_path" = Some v ->
        truthy v = false ∨ ∃ q, v = JStr q) ->
  ∃ found,
    find_ffmpeg m (JObj fields) old = (found, Ret tt)
    ∧ ((∀ cmd shell result,
          run m cmd shell = Ret result -> run_returncode result ≠ 0) ->
       Forall (fun q => path_exists m q = Ret false) (common_paths m) ->
       (∀ q, fields !! lit "ffmpeg_path" = Some (JStr q) ->
             path_exists m q = Ret false) ->
       found = None).
Proof.
  intros Hthere Hsetting.
  assert (Hconf : ∃ found,
             configured m (JObj fields) = Ret found
             ∧ ((∀ q, fields !! lit "ffmpeg_path" = Some (JStr q) ->
                      path_exists m q = Ret false) ->
                found = None)).
  { unfold configured. cbn [get subscript]. cbn [mbind result_bind].
    destruct (fields !! lit "ffmpeg_path") as [v |] eqn:Hv;
      [| exists None; split; reflexivity].
    cbn [default from_option id].
    destruct (Hsetting v eq_refl) as [-> | [q ->]];
      [exists None; split; reflexivity |].
    destruct (truthy (JStr q)); [| exists None; split; reflexivity].
    cbn [mbind result_bind as_path].
    destruct (Hthere q) as [there Hq]. rewrite Hq.
    eexists. split; [reflexivity |].
    intros Hno. rewrite (Hno q eq_refl) in Hq. injection Hq as <-.
    reflexivity. }
  destruct Hconf as (configured_path & Hconf & Hconf_none).
  destruct (first_existing_returns m (common_paths m) Hthere)
    as [common Hcommon].
  destruct (on_system_path_returns m) as [looked_up Hsys].
  unfold find_ffmpeg, mbind, act_bind, lift, modify.
  rewrite Hconf.
  destruct configured_path as [path |].
  { eexists. split; [reflexivity |]. intros _ _ Hno.
    discriminate (Hconf_none Hno). }
  rewrite Hcommon.
  destruct common as [path |].
  { eexists. split; [reflexivity |]. intros _ Hnone _.
    destruct (first_existing_some m _ _ Hcommon) as (q & Hin & Hq & _).
    rewrite Forall_forall in Hnone. rewrite (Hnone q Hin) in Hq.
    discriminate. }
  rewrite Hsys.
  destruct looked_up as [path |]; [| eexists; split; reflexivity].
  eexists. split; [reflexivity |]. intros Hfails _ _. exfalso.
  unfold on_system_path, try_except, mbind, result_bind in Hsys.
  destruct (nt m).
  - destruct (run m _ true) as [result | e] eqn:Hrun; [| discriminate].
    destruct (Z.eqb_spec (run_returncode result) 0) as [Hrc | _];
      [| discriminate].
    exact (Hfails _ _ _ Hrun Hrc).
  - destruct (run m _ false) as [result | e] eqn:Hrun; [| discriminate].
    destruct (Z.eqb_spec (run_returncode result) 0) as [Hrc | _];
      [| discriminate].
    exact (Hfails _ _ _ Hrun Hrc).
Qed.

(** X14. A settings file that holds JSON other than a dict is loaded
    as it is, and [DownloadManager(config)] then raises
    [AttributeError] on its first look at the settings: no path is
    tested and no command is run. *)
Theorem init_needs_dict_settings (m : machine) (loaded : json)
    (history_file : ConfigManager.file) :
  (∀ fields, loaded ≠ JObj fields) ->
  ∃ text,
    init m (ConfigManager.settings
              (ConfigManager.init (ConfigManager.Present (Ret loaded))
                 history_file))
    = (None, Raise (Exn "AttributeError" text)).
Proof.
  intros Hshape. unfold init, find_ffmpeg, configured.
  cbn [ConfigManager.init ConfigManager.settings ConfigManager.load_settings].
  destruct loaded; try (eexists; reflexivity).
  exfalso. exact (Hshape _ eq_refl).
Qed.

End FinderMore.

Lemma find_ffmpeg_finds_existing_witness :
  (∃ q, DownloadManager.path_exists FinderExamples.unix_with_tool q = Ret true
        ∧ lit "/usr/bin/ffmpeg" = path_str (Interpreter := sample_interpreter) q
        ∧ (get ConfigManager.default_settings (lit "ffmpeg_path") JNull
           = Ret (JStr q)
           ∨ q ∈ DownloadManager.common_paths FinderExamples.unix_with_tool))
  ∨ (Forall (fun q => DownloadManager.path_exists FinderExamples.unix_with_tool q
                      = Ret false)
       (DownloadManager.common_paths FinderExamples.unix_with_tool)
     ∧ ∃ result,
         DownloadManager.run FinderExamples.unix_with_tool
           [ lit "which"; lit "ffmpeg" ] false
         = Ret result
         ∧ DownloadManager.run_returncode result = 0
         ∧ lit "/usr/bin/ffmpeg"
           = Text.strip (DownloadManager.run_stdout result)).
Proof.
  apply (find_ffmpeg_finds_existing (H := sample_interpreter)
           FinderExamples.unix_with_tool ConfigManager.default_settings None
           (lit "/usr/bin/ffmpeg")).
  vm_compute. reflexivity.
Defined.

Lemma find_ffmpeg_returns_witness :
  ∃ found,
    DownloadManager.find_ffmpeg (H := sample_interpreter) FinderExamples.bare
      (JObj StoreMoreExamples.page) (Some (lit "ffmpeg"))
    = (found, Ret tt)
    ∧ ((∀ cmd shell result,
          DownloadManager.run FinderExamples.bare cmd shell = Ret result ->
          DownloadManager.run_returncode result ≠ 0) ->
       Forall (fun q => DownloadManager.path_exists FinderExamples.bare q
                        = Ret false)
         (DownloadManager.common_paths FinderExamples.bare) ->
       (∀ q, StoreMoreExamples.page !! lit "ffmpeg_path" = Some (JStr q) ->
             DownloadManager.path_exists FinderExamples.bare q = Ret false) ->
       found = None).
Proof.
  apply (find_ffmpeg_returns (H := sample_interpreter) FinderExamples.bare
           StoreMoreExamples.page (Some (lit "ffmpeg"))).
  - intros q. exists false. reflexivity.
  - intros v Hv. vm_compute in Hv. injection Hv as <-.
    right. eexists. reflexivity.
Defined.

Lemma init_needs_dict_settings_witness :
  ∃ text,
    DownloadManager.init (H := sample_interpreter) FinderExamples.bare
      (ConfigManager.settings
         (ConfigManager.init (ConfigManager.Present (Ret (JArr [])))
            ConfigManager.Absent))
    = (None, Raise (Exn "AttributeError" text)).
Proof.
  apply (init_needs_dict_settings (H := sample_interpreter)
           FinderExamples.bare (JArr []) ConfigManager.Absent).
  intros fields. discriminate.
Defined.

(** ** The login *)

Section LoginMore.

Import BersoDownloaderApp.
Context `{Interpreter}.

Lemma longest_first_some {A} (f : nat -> option A) (n : nat) (r : A) :
  Text.longest_first f n = Some r ->
  ∃ k, (1 <= k <= n)%nat ∧ f k = Some r.
Proof.
  induction n as [| n IH]; cbn [Text.longest_first]; [discriminate |].
  destruct (f (S n)) as [r' |] eqn:Hf.
  - intros [= <-]. exists (S n). split; [lia | exact Hf].
  - intros Hrest. destruct (IH Hrest) as (k & Hk & Hfk).
    exists k. split; [lia | exact Hfk].
Qed.

Lemma is_prefix_app (l s : str) :
  Text.is_prefix l s = true -> s = l ++ drop (length l) s.
Proof.
  revert s. induction l as [| a l IH]; intros s; cbn; [reflexivity |].
  destruct s as [| b s]; [discriminate |].
  intros [Hab Hl]%andb_true_iff. apply N.eqb_eq in Hab as ->.
  cbn. f_equal. apply IH, Hl.
Qed.

Lemma is_prefix_here (l s : str) : Text.is_prefix l (l ++ s) = true.
Proof.
  induction l as [| a l IH]; cbn; [reflexivity |].
  rewrite N.eqb_refl. exact IH.
Qed.

Lemma span_take (k : Re.class) (s : str) (n : nat) :
  (n <= Re.span k s)%nat ->
  Forall (fun c => Re.member k c = true) (take n s) ∧ length (take n s) = n.
Proof.
  revert n. induction s as [| c s IH]; intros n; cbn [Re.span].
  - intros Hn. replace n with 0%nat by lia. split; [constructor | reflexivity].
  - destruct n as [| n]; [split; [constructor | reflexivity] |].
    destruct (Re.member k c) eqn:Hc; [| lia].
    intros Hn. destruct (IH n ltac:(lia)) as [Hall Hlen].
    cbn. split; [constructor; assumption | f_equal; exact Hlen].
Qed.

Lemma span_run (k : Re.class) (run rest : str) (stop : N) :
  Forall (fun c => Re.member k c = true) run ->
  Re.member k stop = false ->
  Re.span k (run ++ stop :: rest) = length run.
Proof.
  intros Hrun Hstop. induction Hrun as [| c run Hc _ IH]; cbn.
  - rewrite Hstop. reflexivity.
  - rewrite Hc, IH. reflexivity.
Qed.

Lemma quoteless_run (k : Re.class) (run : str) :
  Re.member k quote = false ->
  Forall (fun c => Re.member k c = true) run ->
  quote ∉ run.
Proof.
  intros Hk Hrun Hin. rewrite Forall_forall in Hrun.
  rewrite (Hrun _ Hin) in Hk. discriminate.
Qed.

Lemma search_some (p : list Re.piece) (s : str) (groups : list str) :
  Re.search p s = Some groups ->
  ∃ before rest, s = before ++ rest ∧ Re.match_here p rest = Some groups.
Proof.
  induction s as [| c s IH]; cbn [Re.search].
  - destruct (Re.match_here p []) as [g |] eqn:Hm; [| discriminate].
    intros [= <-]. exists [], []. split; [reflexivity | exact Hm].
  - destruct (Re.match_here p (c :: s)) as [g |] eqn:Hm.
    + intros [= <-]. exists [], (c :: s). split; [reflexivity | exact Hm].
    + intros Hrest. destruct (IH Hrest) as (before & rest & -> & Hr).
      exists (c :: before), rest. split; [reflexivity | exact Hr].
Qed.

Lemma search_here (p : list Re.piece) (s : str) (groups : list str) :
  Re.match_here p s = Some groups -> Re.search p s = Some groups.
Proof. intros Hm. destruct s; cbn [Re.search]; rewrite Hm; reflexivity. Qed.

Lemma search_later (p : list Re.piece) (c : N) (s : str) :
  Re.match_here p (c :: s) = None -> Re.search p (c :: s) = Re.search p s.
Proof. intros Hm. cbn [Re.search]. rewrite Hm. reflexivity. Qed.

(** What a match of a pattern without quotes has gone through holds
    no quote; with a [$] in the pattern, at most a newline is left. *)
Lemma match_here_quoteless (p : list Re.piece) :
  Forall quoteless p ->
  ∀ s groups,
    Re.match_here p s = Some groups ->
    ∃ eaten rest,
      s = eaten ++ rest
      ∧ (quote ∉ eaten)
      ∧ (Re.End ∈ p -> rest = [] ∨ rest = [10%N]).
Proof.
  induction 1 as [| x p Hx _ IH]; intros s groups; cbn [Re.match_here].
  - intros _. exists [], s. split; [reflexivity |].
    split; [apply not_elem_of_nil |]. intros Hin. inversion Hin.
  - assert (Hstep : ∀ n groups',
               quote ∉ take n s ->
               x ≠ Re.End ->
               Re.match_here p (drop n s) = Some groups' ->
               ∃ eaten rest,
                 s = eaten ++ rest
                 ∧ (quote ∉ eaten)
                 ∧ (Re.End ∈ x :: p -> rest = [] ∨ rest = [10%N])).
    { intros n groups' Hhead Hnot Hm.
      destruct (IH _ _ Hm) as (eaten & rest & Hs & Heaten & Hend).
      exists (take n s ++ eaten), rest.
      split; [rewrite <- app_assoc, <- Hs, take_drop; reflexivity |].
      split.
      - intros [Hin | Hin]%elem_of_app; [exact (Hhead Hin) | exact (Heaten Hin)].
      - intros [Heq | Hin]%elem_of_cons; [congruence | exact (Hend Hin)]. }
    destruct x as [l | n k | k | k |]; cbn [quoteless] in Hx.
    + destruct (Text.is_prefix l s) eqn:Hl; [| discriminate].
      intros Hm. apply (Hstep (length l) groups); [| discriminate | exact Hm].
      rewrite (is_prefix_app l s Hl) at 1.
      rewrite take_app_length. exact Hx.
    + destruct (Nat.leb_spec n (Re.span k (take n s))) as [Hn | _];
        [| discriminate].
      intros Hm. apply (Hstep n groups); [| discriminate | exact Hm].
      destruct (span_take k (take n s) n Hn) as [Hall _].
      rewrite take_take, Nat.min_id in Hall.
      apply (quoteless_run k); assumption.
    + intros Hm. apply longest_first_some in Hm as (n & Hn & Hm).
      apply (Hstep n groups); [| discriminate | exact Hm].
      apply (quoteless_run k); [exact Hx |].
      apply (span_take k s n). lia.
    + intros Hm. apply longest_first_some in Hm as (n & Hn & Hm).
      destruct (Re.match_here p (drop n s)) as [groups' |] eqn:Hm';
        [| discriminate].
      apply (Hstep n groups'); [| discriminate | exact Hm'].
      apply (quoteless_run k); [exact Hx |].
      apply (span_take k s n). lia.
    + intros Hm. exists [], s. split; [reflexivity |].
      split; [apply not_elem_of_nil |]. intros _.
      destruct s as [| c s]; [left; reflexivity |]. right.
      repeat match type of Hm with
             | match ?x with _ => _ end = Some _ =>
                 destruct x; try discriminate
             end.
      reflexivity.
Qed.

(** A match of the pattern of the response: its group is not empty,
    holds no quote and stands in the text. *)
Lemma access_token_match (s : str) (groups : list str) :
  Re.match_here access_token_re s = Some groups ->
  ∃ token after,
    groups = [token]
    ∧ token ≠ []
    ∧ (quote ∉ token)
    ∧ s = field_open ++ token ++ after.
Proof.
  unfold access_token_re. cbn [Re.match_here].
  fold field_open.
  destruct (Text.is_prefix field_open s) eqn:Hopen; [| discriminate].
  intros Hm. apply longest_first_some in Hm as (n & Hn & Hm).
  set (value := drop (length field_open) s) in *.
  destruct (Text.is_prefix [quote] (drop n value)); [| discriminate].
  cbn in Hm. injection Hm as <-.
  destruct (span_take (Re.Except quote) value n ltac:(lia)) as [Hall Hlen].
  exists (take n value), (drop n value).
  split; [reflexivity |]. split.
  { intros Hnil. rewrite Hnil in Hlen. cbn in Hlen. lia. }
  split.
  { apply (quoteless_run (Re.Except quote)); [reflexivity | exact Hall]. }
  rewrite take_drop. apply is_prefix_app, Hopen.
Qed.

Lemma strip_within (s : str) :
  ∃ before after, s = before ++ Text.strip s ++ after.
Proof.
  unfold Text.strip.
  destruct (lstrip_suffix s) as [before Hbefore].
  destruct (rstrip_prefix (Text.lstrip s)) as [after Hafter].
  exists before, after. rewrite <- Hafter. exact Hbefore.
Qed.

Lemma raw_token_quoteless : Forall quoteless raw_token_re.
Proof.
  unfold raw_token_re.
  repeat (constructor; [first [ exact I | reflexivity
                               | cbn; intros Hin; inversion Hin as [| ? ? ? Hin'];
                                 inversion Hin' ] |]).
  constructor.
Qed.

Lemma parse_token_returns (content : str) :
  ∃ found, parse_token_from_response content = Ret found.
Proof.
  unfold parse_token_from_response.
  destruct (Re.search access_token_re content) as [groups |] eqn:Hsearch.
  - apply search_some in Hsearch as (before & rest & -> & Hm).
    apply access_token_match in Hm as (token & after & -> & _).
    eexists. reflexivity.
  - destruct (Re.match_here raw_token_re _); eexists; reflexivity.
Qed.

Lemma parse_token_some (content token : str) :
  parse_token_from_response content = Ret (Some token) ->
  token ≠ []
  ∧ (quote ∉ token)
  ∧ ∃ before after, content = before ++ token ++ after.
Proof.
  unfold parse_token_from_response.
  destruct (Re.search access_token_re content) as [groups |] eqn:Hsearch.
  - apply search_some in Hsearch as (before & rest & -> & Hm).
    apply access_token_match in Hm as (token' & after & -> & Hne & Hq & ->).
    intros [= <-]. split; [exact Hne |]. split; [exact Hq |].
    exists (before ++ field_open), after.
    rewrite <- !app_assoc. reflexivity.
  - destruct (Re.match_here raw_token_re (Text.strip content))
      as [groups |] eqn:Hm; [| discriminate].
    intros [= <-]. split; [| split].
    + intros Hnil. rewrite Hnil in Hm. discriminate.
    + destruct (match_here_quoteless _ raw_token_quoteless _ _ Hm)
        as (eaten & rest & -> & Heaten & Hend).
      intros [Hin | Hin]%elem_of_app; [exact (Heaten Hin) |].
      destruct Hend as [-> | ->].
      * unfold raw_token_re. do 11 right. left.
      * inversion Hin.
      * inversion Hin as [| ? ? ? Hin']. inversion Hin'.
    + apply strip_within.
Qed.

(** X15. [parse_token_from_response] does not raise, and a token it
    returns is not empty, holds no double quote and stands in the
    text it was given. *)
Theorem parsed_token_is_clean (content : str) :
  ∃ found,
    parse_token_from_response content = Ret found
    ∧ ∀ token,
        found = Some token ->
        token ≠ []
        ∧ (quote ∉ token)
        ∧ ∃ before after, content = before ++ token ++ after.
Proof.
  destruct (parse_token_returns content) as [found Hfound].
  exists found. split; [exact Hfound |].
  intros token ->. apply parse_token_some, Hfound.
Qed.

(** X16. A text in which the first quote opens the field
    [access_token] gives the value of the field as it stands between
    its quotes, whatever comes before and after. *)
Theorem parse_token_reads_field (before token after : str) :
  quote ∉ before ->
  token ≠ [] ->
  quote ∉ token ->
  parse_token_from_response
    (before ++ field_open ++ token ++ [quote] ++ after)
  = Ret (Some token).
Proof.
  intros Hbefore Hne Htoken.
  assert (Hhere : Re.match_here access_token_re
                    (field_open ++ token ++ [quote] ++ after)
                  = Some [token]).
  { unfold access_token_re. cbn [Re.match_here]. fold field_open.
    rewrite is_prefix_here, drop_app_length.
    assert (Hall : Forall (fun c => Re.member (Re.Except quote) c = true)
                     token).
    { apply Forall_forall. intros c Hc. cbn.
      destruct (N.eqb_spec c quote) as [-> | _]; [contradiction | reflexivity]. }
    cbn [app]. rewrite (span_run _ token after quote Hall) by reflexivity.
    destruct token as [| c token]; [contradiction |].
    cbn [length Text.longest_first].
    change (S (length token)) with (length (c :: token)).
    rewrite drop_app_length, take_app_length. reflexivity. }
  unfold parse_token_from_response.
  assert (Hsearch : Re.search access_token_re
                      (before ++ field_open ++ token ++ [quote] ++ after)
                    = Some [token]).
  { induction before as [| c before IH].
    - apply search_here, Hhere.
    - rewrite <- app_comm_cons, search_later.
      + apply IH. intros Hin. apply Hbefore. right. exact Hin.
      + assert (Hc : c ≠ quote) by (intros ->; apply Hbefore; left).
        unfold access_token_re. cbn [Re.match_here app Text.is_prefix].
        destruct (N.eqb_spec quote c) as [Heq | _];
          [congruence | reflexivity]. }
  rewrite Hsearch. reflexivity.
Qed.

(** X17. An entry that is blank, that still shows its placeholder, or
    from which no token can be read is turned down with one box:
    no client is made, nothing is posted and nothing is saved. *)
Theorem login_refuses_unusable_entry (entry : str)
    (post : PlasoAPIClient.transport) (io : ConfigManager.dump)
    (show_logged_in : json -> act desk unit) (self : desk) :
  Text.strip entry = []
  ∨ Text.strip entry = placeholder
  ∨ parse_token_from_response (Text.strip entry) = Ret None ->
  ∃ b,
    login_with_token entry post io show_logged_in self = (shown b self, Ret tt)
    ∧ (b = ShowWarning hint_title hint_text
       ∨ b = ShowError error_title error_text).
Proof.
  intros Hentry. unfold login_with_token.
  destruct (negb (truthy (JStr (Text.strip entry)))
            || bool_decide (Text.strip entry = placeholder)) eqn:Hblank.
  - eexists. split; [reflexivity | left; reflexivity].
  - destruct Hentry as [Hnil | [Hph | Hnone]].
    + rewrite Hnil in Hblank. discriminate.
    + rewrite Hph in Hblank. discriminate.
    + unfold mbind at 1, act_bind at 1, lift at 1. rewrite Hnone.
      eexists. split; [reflexivity | right; reflexivity].
Qed.

Lemma login_checks_token (entry token : str)
    (post : PlasoAPIClient.transport) (io : ConfigManager.dump)
    (show_logged_in : json -> act desk unit) (self : desk) (answer : json) :
  Text.strip entry ≠ placeholder ->
  parse_token_from_response (Text.strip entry) = Ret (Some token) ->
  PlasoAPIClient.validate_token (PlasoAPIClient.init (Some token)) post
  = Ret answer ->
  login_with_token entry post io show_logged_in self
  = (success ← lift (subscript answer (lit "success"));
     if truthy success then
       user_info ← lift (get answer (lit "user_info") (JObj ∅));
       name ← lift (get user_info (lit "name") (JStr user));
       my_org ← lift (get user_info (lit "myOrg") (JObj ∅));
       org_name ← lift (get my_org (lit "name") (JStr []));
       let token_data :=
         JObj (list_to_map [ (lit "access_token", JStr token);
                             (lit "user_info", user_info) ]) in
       on_tokens (ConfigManager.save_token token_data io);;
       show_logged_in token_data;;
       show (ShowInfo welcome_title
               (welcome_back ++ format name ++ welcome_org
                ++ format org_name))
     else show (ShowError rejected_title rejected_text))
      (signed_in token self).
Proof.
  intros Hph Hparse Hanswer. unfold login_with_token.
  destruct (parse_token_some _ _ Hparse) as (Hne & _).
  rewrite bool_decide_eq_false_2 by exact Hph.
  destruct (Text.strip entry) as [| d content] eqn:Hcontent.
  { cbn in Hparse. discriminate. }
  cbn [truthy negb orb].
  unfold mbind at 1, act_bind at 1, lift at 1. rewrite Hparse.
  destruct token as [| c token]; [contradiction |].
  unfold mbind at 1, act_bind at 1, set_client at 1, modify at 1.
  unfold mbind at 1, act_bind at 1, lift at 1. rewrite Hanswer.
  reflexivity.
Qed.

(** X18. When the service accepts the token and what it sends as
    the profile is not a dict (a list, a string, nothing), the login
    raises [AttributeError] on the first look at the profile: the
    client of the token is in place by then, and nothing has been
    saved or shown. *)
Theorem login_needs_dict_profile (entry token : str)
    (post : PlasoAPIClient.transport) (io : ConfigManager.dump)
    (show_logged_in : json -> act desk unit) (self : desk)
    (user_info : json) :
  Text.strip entry ≠ placeholder ->
  parse_token_from_response (Text.strip entry) = Ret (Some token) ->
  PlasoAPIClient.validate_token (PlasoAPIClient.init (Some token)) post
  = Ret (PlasoAPIClient.valid user_info) ->
  (∀ fields, user_info ≠ JObj fields) ->
  ∃ text,
    login_with_token entry post io show_logged_in self
    = (signed_in token self, Raise (Exn "AttributeError" text)).
Proof.
  intros Hph Hparse Hanswer Hshape.
  rewrite (login_checks_token entry token post io show_logged_in self _
             Hph Hparse Hanswer).
  destruct user_info; try (eexists; reflexivity).
  exfalso. exact (Hshape _ eq_refl).
Qed.

(** X19. When the check of the token fails, by a refusal of the
    service or by a fault of the network, the login shows the box of
    the failure and saves nothing; the client of the refused token
    stays in place. *)
Theorem rejected_token_stays_client (entry token : str)
    (post : PlasoAPIClient.transport) (io : ConfigManager.dump)
    (show_logged_in : json -> act desk unit) (self : desk)
    (message : str) :
  Text.strip entry ≠ placeholder ->
  parse_token_from_response (Text.strip entry) = Ret (Some token) ->
  PlasoAPIClient.validate_token (PlasoAPIClient.init (Some token)) post
  = Ret (PlasoAPIClient.invalid message) ->
  login_with_token entry post io show_logged_in self
  = (shown (ShowError rejected_title rejected_text) (signed_in token self),
     Ret tt).
Proof.
  intros Hph Hparse Hanswer.
  rewrite (login_checks_token entry token post io show_logged_in self _
             Hph Hparse Hanswer).
  reflexivity.
Qed.

End LoginMore.

Lemma parse_token_reads_field_witness :
  BersoDownloaderApp.parse_token_from_response (H := sample_interpreter)
    LoginExamples.pasted
  = Ret (Some LoginExamples.bare_token).
Proof.
  apply (parse_token_reads_field (H := sample_interpreter) (lit "{")
           LoginExamples.bare_token (lit ",expires:7200}")).
  - apply (bool_decide_unpack _). vm_compute. exact I.
  - discriminate.
  - apply (bool_decide_unpack _). vm_compute. exact I.
Defined.

Lemma login_refuses_unusable_entry_witness :
  ∃ b,
    BersoDownloaderApp.login_with_token (H := sample_interpreter)
      (lit " hello ") ClientExamples.server ConfigManager.Dumped
      LoginExamples.no_widgets LoginExamples.logged_out
    = (shown b LoginExamples.logged_out, Ret tt)
    ∧ (b = BersoDownloaderApp.ShowWarning BersoDownloaderApp.hint_title
             BersoDownloaderApp.hint_text
       ∨ b = BersoDownloaderApp.ShowError BersoDownloaderApp.error_title
               BersoDownloaderApp.error_text).
Proof.
  apply (login_refuses_unusable_entry (H := sample_interpreter)
           (lit " hello ") ClientExamples.server ConfigManager.Dumped
           LoginExamples.no_widgets LoginExamples.logged_out).
  right. right. vm_compute. reflexivity.
Defined.

Lemma login_needs_dict_profile_witness :
  ∃ text,
    BersoDownloaderApp.login_with_token (H := sample_interpreter)
      LoginExamples.pasted ClientExamples.server ConfigManager.Dumped
      LoginExamples.no_widgets LoginExamples.logged_out
    = (signed_in LoginExamples.bare_token LoginExamples.logged_out,
       Raise (Exn "AttributeError" text)).
Proof.
  apply (login_needs_dict_profile (H := sample_interpreter)
           LoginExamples.pasted LoginExamples.bare_token
           ClientExamples.server ConfigManager.Dumped
           LoginExamples.no_widgets LoginExamples.logged_out
           (JArr [JStr (lit "course")])).
  - vm_compute. discriminate.
  - vm_compute. reflexivity.
  - vm_compute. reflexivity.
  - intros fields. discriminate.
Defined.

Lemma rejected_token_stays_client_witness :
  BersoDownloaderApp.login_with_token (H := sample_interpreter)
    LoginExamples.bare_token ClientExamples.unreachable ConfigManager.Dumped
    LoginExamples.no_widgets LoginExamples.logged_out
  = (shown (BersoDownloaderApp.ShowError BersoDownloaderApp.rejected_title
              BersoDownloaderApp.rejected_text)
       (signed_in LoginExamples.bare_token LoginExamples.logged_out),
     Ret tt).
Proof.
  apply (rejected_token_stays_client (H := sample_interpreter)
           LoginExamples.bare_token LoginExamples.bare_token
           ClientExamples.unreachable ConfigManager.Dumped
           LoginExamples.no_widgets LoginExamples.logged_out
           (lit "timed out")).
  - vm_compute. discriminate.
  - vm_compute. reflexivity.
  - vm_compute. reflexivity.
Defined.

(** ** The settings page and the tool *)

Section SettingsMore.

Import BersoDownloaderApp.
Context `{Interpreter}.

(** X20. Saving the settings page with an empty tool path, as it
    stands there while no path is configured, makes the running
    downloader forget the tool it had found: from then on every batch
    is turned down. The file written has the empty path too, and a
    restart searches the machine again: where one of the common paths
    exists, it finds the tool. *)
Theorem saving_blank_tool_path_stops_downloads (download_path theme : str)
    (self : t) (current : gmap str json) :
  ConfigManager.settings (config self) = JObj current ->
  ∃ self',
    save_settings download_path [] theme ConfigManager.Dumped self
    = (self', Ret tt)
    ∧ (∀ selected world,
         start_batch_download selected world self' = (self', Ret tt))
    ∧ (∀ m p,
         DownloadManager.first_existing m (DownloadManager.common_paths m)
         = Ret (Some p) ->
         DownloadManager.init m
           (ConfigManager.load_settings
              (ConfigManager.config_file (config self')))
         = (Some p, Ret tt)).
Proof.
  intros Hs. unfold save_settings, on_config.
  unfold mbind at 1, act_bind at 1.
  unfold ConfigManager.save_settings, gets, mbind, act_bind, lift, modify.
  rewrite Hs. cbn [ConfigManager.update ConfigManager.set_settings
                   ConfigManager.write_settings].
  eexists. split; [reflexivity |]. split.
  - intros [| task selected] world; [reflexivity |].
    unfold start_batch_download, mbind, act_bind, gets.
    cbn [downloading ffmpeg_path set_ffmpeg_path set_config].
    destruct (downloading self); reflexivity.
  - intros m p Hfound.
    cbn [config set_config set_ffmpeg_path ConfigManager.config_file
         ConfigManager.settings ConfigManager.load_settings].
    unfold DownloadManager.init, DownloadManager.find_ffmpeg,
      DownloadManager.configured.
    cbn [get]. erewrite lookup_union_Some_l by reflexivity.
    cbn [default from_option id truthy mbind result_bind].
    unfold mbind, act_bind, lift. rewrite Hfound. reflexivity.
Qed.

End SettingsMore.

Lemma saving_blank_tool_path_stops_downloads_witness :
  ∃ self',
    BersoDownloaderApp.save_settings (lit "downloads") [] (lit "light")
      ConfigManager.Dumped WorkerExamples.idle
    = (self', Ret tt)
    ∧ (∀ selected world,
         BersoDownloaderApp.start_batch_download (H := sample_interpreter)
           selected world self'
         = (self', Ret tt))
    ∧ (∀ m p,
         DownloadManager.first_existing (H := sample_interpreter) m
           (DownloadManager.common_paths m)
         = Ret (Some p) ->
         DownloadManager.init (H := sample_interpreter) m
           (ConfigManager.load_settings
              (ConfigManager.config_file
                 (BersoDownloaderApp.config self')))
         = (Some p, Ret tt)).
Proof.
  apply (saving_blank_tool_path_stops_downloads (H := sample_interpreter)
           (lit "downloads") (lit "light") WorkerExamples.idle
           (list_to_map
              [ (lit "download_path", JStr (lit "downloads"));
                (lit "ffmpeg_path", JStr []);
                (lit "theme", JStr (lit "light"));
                (lit "max_concurrent", JInt 1) ])).
  reflexivity.
Defined.
